(** * The Sulbing search-trend dashboard (naverapieda/dashboard.py)

    A shallow embedding of the dashboard script and of the pandas, glob and
    Streamlit calls it is made of, with the properties of its load, filter,
    metrics, aggregation, join, search and export steps.

    Conventions of the model:
    - a [DataFrame] is its list of column labels and its rows, each row the
      index label followed by the cells in column order;
    - the float64 values of pandas are Rocq's binary64 floats ([nan] is the
      missing value); sums run left to right;
    - a Python exception is the [Err] outcome of the [result] monad;
      [NotModelled] marks inputs outside the fragment that is embedded
      (date texts that are not ISO dates, regular expressions with operators
      other than the dot, text that is not ASCII in the search box);
    - the text layer of CSV files (quoting, the decimal spelling of numbers)
      belongs to the csv library: a file is its header and its records of
      typed fields. *)

From Stdlib Require Import ZArith List String Ascii Bool Lia Floats Sorted.
From stdpp Require Import base option list strings gmap.

Open Scope string_scope.
Open Scope list_scope.
Open Scope Z_scope.

(** ** Exceptions *)

Inductive error :=
| KeyError (key : string)
| ValueError
| TypeError
| AttributeError
| ParserError
| NameError (name : string)
| NotModelled.

Inductive result (A : Type) :=
| Ok (a : A)
| Err (e : error).
Arguments Ok {A} a.
Arguments Err {A} e.

#[global] Instance result_ret : MRet result := fun _ a => Ok a.
#[global] Instance result_bind : MBind result :=
  fun _ _ f m => match m with Ok a => f a | Err e => Err e end.

Fixpoint mapR {A B} (f : A -> result B) (l : list A) : result (list B) :=
  match l with
  | [] => Ok []
  | x :: l' => y ← f x; ys ← mapR f l'; Ok (y :: ys)
  end.

(** ** Calendar dates (the date part of a pandas Timestamp) *)

Record date := mkDate { d_year : Z; d_month : Z; d_day : Z }.

Definition date_eqb (a b : date) : bool :=
  (d_year a =? d_year b) && (d_month a =? d_month b) && (d_day a =? d_day b).

(** pandas/_libs/tslibs/ccalendar.pyx: is_leapyear, get_days_in_month. *)
Definition is_leapyear (y : Z) : bool :=
  ((Z.land y 3 =? 0) && negb (y mod 100 =? 0)) || (y mod 400 =? 0).

Definition days_per_month_table : list Z :=
  [31; 28; 31; 30; 31; 30; 31; 31; 30; 31; 30; 31].

Definition get_days_in_month (y m : Z) : Z :=
  if (m =? 2) && is_leapyear y then 29
  else nth (Z.to_nat (m - 1)) days_per_month_table 0.

(** The dates a nanosecond Timestamp holds for every day of the year:
    1678-01-01 to 2261-12-31. *)
Definition year_in_bounds (y : Z) : bool := (1678 <=? y) && (y <=? 2261).

Definition valid_date (d : date) : bool :=
  year_in_bounds (d_year d)
  && (1 <=? d_month d) && (d_month d <=? 12)
  && (1 <=? d_day d) && (d_day d <=? get_days_in_month (d_year d) (d_month d)).

(** ccalendar.pyx: dayofweek, Sakamoto's method with C division; 0 is Monday. *)
Definition sakamoto_arr : list Z := [0; 3; 2; 5; 0; 3; 5; 1; 4; 6; 2; 4].

Definition dayofweek (y m d : Z) : Z :=
  let y := if m <? 3 then y - 1 else y in
  let day :=
    Z.rem (y + Z.quot y 4 - Z.quot y 100 + Z.quot y 400
           + nth (Z.to_nat (m - 1)) sakamoto_arr 0 + d) 7 in
  Z.rem (day + 6) 7.

Definition DAYS_FULL : list string :=
  ["Monday"; "Tuesday"; "Wednesday"; "Thursday"; "Friday"; "Saturday"; "Sunday"].

Definition date_dayofweek (d : date) : Z := dayofweek (d_year d) (d_month d) (d_day d).
Definition date_day_name (d : date) : string :=
  nth (Z.to_nat (date_dayofweek d)) DAYS_FULL "".
Definition date_quarter (d : date) : Z := Z.quot (d_month d - 1) 3 + 1.

(** *** ISO texts of dates *)

Definition digit_of_ascii (c : ascii) : option Z :=
  let n := Z.of_N (N_of_ascii c) in
  if (48 <=? n) && (n <=? 57) then Some (n - 48) else None.

Definition ascii_of_digit (z : Z) : ascii := ascii_of_N (Z.to_N (48 + z)).

Definition two_digits (z : Z) : list ascii :=
  [ascii_of_digit (z / 10); ascii_of_digit (z mod 10)].

Definition four_digits (z : Z) : list ascii :=
  [ascii_of_digit (z / 1000); ascii_of_digit ((z / 100) mod 10);
   ascii_of_digit ((z / 10) mod 10); ascii_of_digit (z mod 10)].

Definition isoformat (d : date) : string :=
  string_of_list_ascii
    (four_digits (d_year d) ++ "-"%char :: two_digits (d_month d)
       ++ "-"%char :: two_digits (d_day d)).

Definition number_of_digits (cs : list ascii) : option Z :=
  fold_left (fun acc c => a ← acc; n ← digit_of_ascii c; Some (10 * a + n))
            cs (Some 0).

(** The text [YYYY-MM-DD], read into its three numbers. *)
Definition parse_iso (s : string) : option date :=
  match list_ascii_of_string s with
  | [y1; y2; y3; y4; s1; m1; m2; s2; d1; d2] =>
      if (Ascii.eqb s1 "-") && (Ascii.eqb s2 "-") then
        y ← number_of_digits [y1; y2; y3; y4];
        m ← number_of_digits [m1; m2];
        d ← number_of_digits [d1; d2];
        Some (mkDate y m d)
      else None
  | _ => None
  end.

(** ** Cells, Series and DataFrames *)

Inductive cell :=
| CStr (s : string)
| CFloat (f : float)
| CInt (z : Z)
| CBool (b : bool)
| CDate (d : date).

Definition NaN : cell := CFloat nan.

Abbreviation Series := (list (Z * cell)).

Record DataFrame := mkDF {
  columns : list string;
  rows : list (Z * list cell)
}.

Fixpoint col_index (name : string) (cols : list string) : option nat :=
  match cols with
  | [] => None
  | c :: cs => if String.eqb c name then Some 0%nat else S <$> col_index name cs
  end.

Definition cell_at (i : nat) (r : Z * list cell) : cell := nth i r.2 NaN.

(** [df[name]] *)
Definition getitem (df : DataFrame) (name : string) : result Series :=
  match col_index name (columns df) with
  | Some i => Ok (map (fun r => (r.1, cell_at i r)) (rows df))
  | None => Err (KeyError name)
  end.

Fixpoint zip_rows {A} (f : (Z * list cell) -> A -> Z * list cell)
    (rs : list (Z * list cell)) (vs : list A) : list (Z * list cell) :=
  match rs, vs with
  | r :: rs', v :: vs' => f r v :: zip_rows f rs' vs'
  | _, _ => []
  end.

(** [df[name] = s], for a Series [s] computed from [df] itself (same index):
    an existing column is replaced, a new one is appended on the right. *)
Definition setitem (df : DataFrame) (name : string) (s : Series) : DataFrame :=
  match col_index name (columns df) with
  | Some i =>
      mkDF (columns df)
           (zip_rows (fun r v => (r.1, <[i := v.2]> r.2)) (rows df) s)
  | None =>
      mkDF (columns df ++ [name])
           (zip_rows (fun r v => (r.1, r.2 ++ [v.2])) (rows df) s)
  end.

(** [pd.to_datetime(s)] on the text column that read_csv gives. *)
Definition to_datetime_cell (c : cell) : result cell :=
  match c with
  | CStr s =>
      match parse_iso s with
      | Some d =>
          if negb (year_in_bounds (d_year d)) then Err NotModelled
          else if valid_date d then Ok (CDate d) else Err ValueError
      | None => Err NotModelled
      end
  | _ => Err NotModelled
  end.

Definition map_series (f : cell -> result cell) (s : Series) : result Series :=
  mapR (fun ic => c ← f ic.2; Ok (ic.1, c)) s.

Definition to_datetime (s : Series) : result Series := map_series to_datetime_cell s.

(** The [.dt] accessor: only for datetime values. *)
Definition dt (f : date -> cell) (s : Series) : result Series :=
  map_series (fun c => match c with CDate d => Ok (f d) | _ => Err AttributeError end) s.

Definition dt_month : Series -> result Series := dt (fun d => CInt (d_month d)).
Definition dt_year : Series -> result Series := dt (fun d => CInt (d_year d)).
Definition dt_day_name : Series -> result Series := dt (fun d => CStr (date_day_name d)).
Definition dt_dayofweek : Series -> result Series := dt (fun d => CInt (date_dayofweek d)).
Definition dt_quarter : Series -> result Series := dt (fun d => CInt (date_quarter d)).

(** [s.isin(values)] for a list of integers. *)
Definition isin_cell (values : list Z) (c : cell) : bool :=
  match c with
  | CInt z => existsb (Z.eqb z) values
  | _ => false
  end.

Definition isin (s : Series) (values : list Z) : Series :=
  map (fun ic => (ic.1, CBool (isin_cell values ic.2))) s.

(** [df[mask]] for a boolean Series over the index of [df]. *)
Fixpoint mask_rows (rs : list (Z * list cell)) (mask : Series) : list (Z * list cell) :=
  match rs, mask with
  | r :: rs', (_, CBool true) :: mask' => r :: mask_rows rs' mask'
  | _ :: rs', _ :: mask' => mask_rows rs' mask'
  | _, _ => []
  end.

Definition getitem_mask (df : DataFrame) (mask : Series) : DataFrame :=
  mkDF (columns df) (mask_rows (rows df) mask).

(** ** The loader's derived columns (dashboard.py, lines 94 to 99)

    The body of [for df in [df_s, df_g]]. *)
Definition derive_columns (df : DataFrame) : result DataFrame :=
  p ← getitem df "period"; p ← to_datetime p;
  let df := setitem df "period" p in
  p ← getitem df "period"; m ← dt_month p;
  let df := setitem df "month" m in
  p ← getitem df "period"; y ← dt_year p;
  let df := setitem df "year" y in
  p ← getitem df "period"; n ← dt_day_name p;
  let df := setitem df "dayofweek" n in
  p ← getitem df "period"; w ← dt_dayofweek p;
  let df := setitem df "is_weekend" (isin w [5; 6]) in
  Ok df.

(** ** The filter stage (lines 115 to 117) *)
Definition filter_years (df : DataFrame) (year_filter : list Z) : result DataFrame :=
  y ← getitem df "year";
  Ok (getitem_mask df (isin y year_filter)).

(** ** The metrics stage (lines 123 to 140) *)

Definition float_of_nat (n : nat) : float :=
  PrimFloat.of_uint63 (Uint63.of_Z (Z.of_nat n)).

Definition float_of_Z (z : Z) : float :=
  if z <? 0 then PrimFloat.opp (PrimFloat.of_uint63 (Uint63.of_Z (- z)))
  else PrimFloat.of_uint63 (Uint63.of_Z z).

(** The float64 view of a numeric column. *)
Definition to_float (c : cell) : result float :=
  match c with
  | CFloat f => Ok f
  | CInt z => Ok (float_of_Z z)
  | CBool b => Ok (if b then 1%float else 0%float)
  | CStr _ => Err TypeError
  | CDate _ => Err NotModelled
  end.

Definition values_float (s : Series) : result (list float) :=
  mapR (fun ic => to_float ic.2) s.

Definition notna (l : list float) : list float :=
  List.filter (fun f => negb (PrimFloat.is_nan f)) l.

Definition fsum (l : list float) : float := fold_left PrimFloat.add l 0%float.

(** [s.mean()], pandas.core.nanops.nanmean with skipna: the missing values
    are left out and a count of zero gives [nan]. *)
Definition Series_mean (s : Series) : result float :=
  v ← values_float s;
  let v := notna v in
  let count := List.length v in
  Ok (if (count =? 0)%nat then nan else (fsum v / float_of_nat count)%float).

(** [s.sum()], nanops.nansum. *)
Definition Series_sum (s : Series) : result float :=
  v ← values_float s; Ok (fsum (notna v)).

Definition fmax (a b : float) : float := if PrimFloat.ltb a b then b else a.

(** [s.max()], nanops.nanmax: [nan] when no value is left. *)
Definition Series_max (s : Series) : result float :=
  v ← values_float s;
  match notna v with
  | [] => Ok nan
  | x :: xs => Ok (fold_left fmax xs x)
  end.

Fixpoint lookup_index (i : Z) (s : Series) : option cell :=
  match s with
  | [] => None
  | (j, c) :: s' => if i =? j then Some c else lookup_index i s'
  end.

(** [a.align(b, join="inner")]: the pairs of values that carry the same
    index label, for the unique increasing labels a filtered RangeIndex has. *)
Definition align_inner (a b : Series) : list (cell * cell) :=
  omap (fun ic => c' ← lookup_index ic.1 b; Some (ic.2, c')) a.

Definition fdot (u v : list float) : float :=
  fsum (map (fun p => (p.1 * p.2)%float) (zip u v)).

Definition fclip (x : float) : float :=
  if PrimFloat.ltb x (-1)%float then (-1)%float
  else if PrimFloat.ltb 1%float x then 1%float else x.

(** [np.corrcoef(a, b)[0, 1]]: numpy's cov with ddof = 1, divided by the two
    standard deviations and clipped to [-1, 1]. *)
Definition np_corrcoef (a b : list float) : float :=
  let n := float_of_nat (List.length a) in
  let avg_a := (fsum a / n)%float in
  let avg_b := (fsum b / n)%float in
  let fact := (n - 1)%float in
  let fact := if PrimFloat.leb fact 0%float then 0%float else fact in
  let xa := map (fun x => (x - avg_a)%float) a in
  let xb := map (fun x => (x - avg_b)%float) b in
  let c u v := (fdot u v * (1 / fact))%float in
  let stddev_a := PrimFloat.sqrt (c xa xa) in
  let stddev_b := PrimFloat.sqrt (c xb xb) in
  fclip (c xa xb / stddev_a / stddev_b)%float.

(** [a.corr(b)]: Series.corr aligns the two Series on their index labels
    (inner join), then nanops.nancorr drops the pairs with a missing value
    and needs one pair at least (min_periods = 1). *)
Definition Series_corr (a b : Series) : result float :=
  let pairs := align_inner a b in
  if (List.length pairs =? 0)%nat then Ok nan else
  va ← mapR (fun p => to_float p.1) pairs;
  vb ← mapR (fun p => to_float p.2) pairs;
  let valid :=
    List.filter (fun p => negb (PrimFloat.is_nan p.1) && negb (PrimFloat.is_nan p.2))
                (zip va vb) in
  if (List.length valid <? 1)%nat then Ok nan
  else Ok (np_corrcoef (map fst valid) (map snd valid)).

(** Python's text of floats: [repr] (used by [astype(str)]) and the fixed
    point format of a finite float with a number of decimals. *)
Class PyFormat := {
  repr_float : float -> string;
  format_fixed : nat -> float -> string
}.

(** [f"{x:.Nf}"] *)
Definition format_f `{PyFormat} (prec : nat) (x : float) : string :=
  if PrimFloat.is_nan x then "nan"
  else if PrimFloat.eqb x infinity then "inf"
  else if PrimFloat.eqb x neg_infinity then "-inf"
  else format_fixed prec x.

(** ** The aggregation stage (lines 184 and 191 to 193) *)

Definition cell_eqb (a b : cell) : bool :=
  match a, b with
  | CStr x, CStr y => String.eqb x y
  | CInt x, CInt y => x =? y
  | CBool x, CBool y => Bool.eqb x y
  | CDate x, CDate y => date_eqb x y
  | CFloat x, CFloat y =>
      PrimFloat.eqb x y || (PrimFloat.is_nan x && PrimFloat.is_nan y)
  | _, _ => false
  end.

Definition cell_leb (a b : cell) : bool :=
  match a, b with
  | CStr x, CStr y => String.leb x y
  | CInt x, CInt y => x <=? y
  | _, _ => true
  end.

Definition isna (c : cell) : bool :=
  match c with CFloat f => PrimFloat.is_nan f | _ => false end.

Fixpoint insert_key (k : cell) (ks : list cell) : list cell :=
  match ks with
  | [] => [k]
  | k' :: ks' =>
      if cell_eqb k k' then ks
      else if cell_leb k k' then k :: ks
      else k' :: insert_key k ks'
  end.

(** The group labels of a groupby: distinct, sorted, missing keys dropped. *)
Definition group_keys (keys : list cell) : list cell :=
  fold_right insert_key [] (List.filter (fun k => negb (isna k)) keys).

(** A Series indexed by group label. *)
Abbreviation KSeries := (list (cell * cell)).

Definition group_values (g : cell) (k v : Series) : Series :=
  map snd (List.filter (fun kv => cell_eqb kv.1.2 g) (zip k v)).

(** [df.groupby(key)[val].agg()] for a reduction [agg]. *)
Definition groupby_agg (agg : Series -> result float)
    (df : DataFrame) (key val : string) : result KSeries :=
  k ← getitem df key;
  v ← getitem df val;
  mapR (fun g => x ← agg (group_values g k v); Ok (g, CFloat x))
       (group_keys (map snd k)).

Definition lookup_key (l : cell) (s : KSeries) : option cell :=
  snd <$> List.find (fun kv => cell_eqb kv.1 l) s.

(** [s.reindex(labels)]: one entry per label, in the order of [labels];
    a label the Series lacks gets the missing value. *)
Definition reindex (s : KSeries) (labels : list cell) : KSeries :=
  map (fun l => (l, default NaN (lookup_key l s))) labels.

Definition range_index {A} (l : list A) : list (Z * A) :=
  imap (fun i x => (Z.of_nat i, x)) l.

(** [s.reset_index()]: the labels become the column [key]. *)
Definition reset_index (s : KSeries) (key val : string) : DataFrame :=
  mkDF [key; val] (range_index (map (fun kv => [kv.1; kv.2]) s)).

(** Line 184. *)
Definition day_avg (df_s_filtered : DataFrame) : result DataFrame :=
  s ← groupby_agg Series_mean df_s_filtered "dayofweek" "ratio";
  Ok (reset_index (reindex s (map CStr DAYS_FULL)) "dayofweek" "ratio").

(** Decimal text of an integer, [str(x)]. *)
Fixpoint digits_of_pos (fuel : nat) (z : Z) (acc : list ascii) : list ascii :=
  match fuel with
  | O => acc
  | S fuel' =>
      let acc := ascii_of_digit (z mod 10) :: acc in
      if z <? 10 then acc else digits_of_pos fuel' (z / 10) acc
  end.

Definition string_of_Z (z : Z) : string :=
  let digits n := string_of_list_ascii (digits_of_pos (S (Z.to_nat (Z.log2 n))) n []) in
  if z <? 0 then String "-" (digits (- z)) else digits z.

(** Line 191: [df['quarter'] = df['period'].dt.quarter]. *)
Definition assign_quarter (df : DataFrame) : result DataFrame :=
  p ← getitem df "period"; q ← dt_quarter p; Ok (setitem df "quarter" q).

(** Line 192. *)
Definition q_sum_of (df_s_filtered : DataFrame) : result DataFrame :=
  s ← groupby_agg Series_sum df_s_filtered "quarter" "ratio";
  Ok (reset_index s "quarter" "ratio").

(** Line 193: [q_sum['quarter'] = q_sum['quarter'].apply(lambda x: f"{x}분기")]. *)
Definition label_quarter (q_sum : DataFrame) : result DataFrame :=
  q ← getitem q_sum "quarter";
  l ← map_series (fun c => match c with
                           | CInt x => Ok (CStr (string_of_Z x ++ "분기")%string)
                           | _ => Err NotModelled
                           end) q;
  Ok (setitem q_sum "quarter" l).

(** ** The join behind the scatter chart (line 207) *)

(** [df[[n1, n2, ...]]] *)
Definition select (df : DataFrame) (names : list string) : result DataFrame :=
  idx ← mapR (fun n => match col_index n (columns df) with
                       | Some i => Ok i
                       | None => Err (KeyError n)
                       end) names;
  Ok (mkDF names (map (fun r => (r.1, map (fun i => cell_at i r) idx)) (rows df))).

Definition suffixed (on sfx : string) (other : list string) (c : string) : string :=
  if String.eqb c on then c
  else if existsb (String.eqb c) other then (c ++ sfx)%string else c.

(** [pd.merge(left, right, on=key, suffixes=(sl, sr))], the inner join:
    every pair of a left and a right row with equal keys, in the order of
    the left rows and, for one left row, of the right rows; a fresh
    RangeIndex. *)
Definition merge (left right : DataFrame) (on sl sr : string) : result DataFrame :=
  match col_index on (columns left), col_index on (columns right) with
  | Some i, Some j =>
      let cols :=
        map (suffixed on sl (columns right)) (columns left)
          ++ map (suffixed on sr (columns left)) (delete j (columns right)) in
      let body :=
        flat_map (fun l =>
          map (fun r => l.2 ++ delete j r.2)
              (List.filter (fun r => cell_eqb (cell_at i l) (cell_at j r)) (rows right)))
          (rows left) in
      Ok (mkDF cols (range_index body))
  | _, _ => Err (KeyError on)
  end.

Definition combined_of (df_s_filtered df_g_filtered : DataFrame) : result DataFrame :=
  l ← select df_s_filtered ["period"; "ratio"];
  r ← select df_g_filtered ["period"; "ratio"];
  merge l r "period" "_s" "_g".

(** ** The data explorer (lines 232 to 247) *)

(** A column that one of the frames lacks is filled with the missing value,
    which turns an integer column into a float column. *)
Definition upcast (c : cell) : cell :=
  match c with CInt z => CFloat (float_of_Z z) | _ => c end.

Definition has_column (cols : list string) (c : string) : bool :=
  existsb (String.eqb c) cols.

(** [pd.concat([a, b])]: the rows of [a] then the rows of [b], index labels
    kept, over the columns of [a] followed by the new columns of [b]. *)
Definition concat (a b : DataFrame) : DataFrame :=
  let extra := List.filter (fun c => negb (has_column (columns a) c)) (columns b) in
  let cols := columns a ++ extra in
  let fix_a (c : string) (x : cell) :=
    if negb (has_column (columns b) c) && negb (Nat.eqb (List.length (rows b)) 0)
    then upcast x else x in
  let fix_b (x : cell) :=
    if negb (Nat.eqb (List.length (rows a)) 0) then upcast x else x in
  let row_a r :=
    (r.1, map (fun cx => fix_a cx.1 cx.2) (zip (columns a) r.2)
            ++ map (fun _ => NaN) extra) in
  let row_b r :=
    (r.1, map (fun c => match col_index c (columns b) with
                        | Some j => cell_at j r
                        | None => NaN
                        end) (columns a)
            ++ map (fun c => match col_index c (columns b) with
                             | Some j => fix_b (cell_at j r)
                             | None => NaN
                             end) extra) in
  mkDF cols (map row_a (rows a) ++ map row_b (rows b)).

(** [df.astype(str)] on one cell. *)
Definition str_of_cell `{PyFormat} (c : cell) : string :=
  match c with
  | CStr s => s
  | CFloat f => if PrimFloat.is_nan f then "nan" else repr_float f
  | CInt z => string_of_Z z
  | CBool b => if b then "True" else "False"
  | CDate d => isoformat d
  end.

(** The regular expressions [re.compile] is given here: ordinary ASCII
    characters and the dot. *)
Inductive re_item :=
| Lit (c : ascii)
| AnyChar.

Definition is_ascii (c : ascii) : bool := (N_of_ascii c <? 128)%N.

Definition re_special : list ascii := list_ascii_of_string "\^$*+?{}[]|()".

Definition re_compile_char (c : ascii) : result re_item :=
  if Ascii.eqb c "." then Ok AnyChar
  else if existsb (Ascii.eqb c) re_special || negb (is_ascii c) then Err NotModelled
  else Ok (Lit c).

Definition re_compile (pat : string) : result (list re_item) :=
  mapR re_compile_char (list_ascii_of_string pat).

Definition lower (c : ascii) : ascii :=
  let n := N_of_ascii c in
  if ((65 <=? n) && (n <=? 90))%N then ascii_of_N (n + 32) else c.

(** One pattern item against one character, under re.IGNORECASE; the dot
    takes any character but the newline. *)
Definition item_matches (it : re_item) (x : ascii) : bool :=
  match it with
  | Lit c => Ascii.eqb (lower c) (lower x)
  | AnyChar => negb (Ascii.eqb x "010")
  end.

Fixpoint match_here (p : list re_item) (s : list ascii) : bool :=
  match p, s with
  | [], _ => true
  | it :: p', x :: s' => item_matches it x && match_here p' s'
  | _ :: _, [] => false
  end.

(** [pattern.search(s) is not None] *)
Fixpoint re_search (p : list re_item) (s : list ascii) : bool :=
  match_here p s || match s with [] => false | _ :: s' => re_search p s' end.

(** [x.str.contains(pat, case=False)] on one text: [pat] is a regular
    expression (regex=True is the default). *)
Definition str_contains (p : list re_item) (s : string) : result bool :=
  let cs := list_ascii_of_string s in
  if forallb is_ascii cs then Ok (re_search p cs) else Err NotModelled.

(** [df.astype(str).apply(lambda x: x.str.contains(q, case=False)).any(axis=1)] *)
Definition contains_any `{PyFormat} (df : DataFrame) (q : string) : result Series :=
  p ← re_compile q;
  mapR (fun r => bs ← mapR (fun c => str_contains p (str_of_cell c)) r.2;
                 Ok (r.1, CBool (existsb id bs)))
       (rows df).

(** Lines 234 to 236. *)
Definition display_df_of `{PyFormat}
    (df_s_filtered df_g_filtered : DataFrame) (search_query : string) : result DataFrame :=
  let display_df := concat df_s_filtered df_g_filtered in
  if negb (String.eqb search_query "") then
    mask ← contains_any display_df search_query;
    Ok (getitem_mask display_df mask)
  else Ok display_df.

(** *** CSV files *)

Inductive field :=
| FText (s : string)
| FNum (f : float)
| FInt (z : Z)
| FBool (b : bool)
| FBlank.

Record CsvFile := mkCsv {
  header : list string;
  records : list (list field)
}.

Definition field_of_cell (c : cell) : field :=
  match c with
  | CStr s => FText s
  | CFloat f => if PrimFloat.is_nan f then FBlank else FNum f
  | CInt z => FInt z
  | CBool b => FBool b
  | CDate d => FText (isoformat d)
  end.

Definition cell_of_field (f : field) : cell :=
  match f with
  | FText s => CStr s
  | FNum x => CFloat x
  | FInt z => CInt z
  | FBool b => CBool b
  | FBlank => NaN
  end.

(** [df.to_csv(index=False)] *)
Definition to_csv (df : DataFrame) : CsvFile :=
  mkCsv (columns df) (map (fun r => map field_of_cell r.2) (rows df)).

(** [pd.read_csv(file)]: a record with more fields than the header is a
    parser error, a shorter one is completed with missing values. *)
Definition read_record (width : nat) (rec : list field) : result (list cell) :=
  if (width <? List.length rec)%nat then Err ParserError
  else Ok (map cell_of_field rec ++ replicate (width - List.length rec) NaN).

Definition read_csv (f : CsvFile) : result DataFrame :=
  body ← mapR (read_record (List.length (header f))) (records f);
  Ok (mkDF (header f) (range_index body)).

(** ** Files and glob (lines 73 to 92) *)

(** The directories that exist, each with its entries in the order the
    operating system enumerates them. *)
Abbreviation FileSystem := (list (string * list (string * CsvFile))).

Definition path_exists (fs : FileSystem) (path : string) : bool :=
  existsb (fun d => String.eqb d.1 path) fs.

Definition path_join (dir name : string) : string := (dir ++ "/" ++ name)%string.

Fixpoint is_prefix (p s : list ascii) : bool :=
  match p, s with
  | [], _ => true
  | a :: p', b :: s' => Ascii.eqb a b && is_prefix p' s'
  | _ :: _, [] => false
  end.

(** fnmatch of a pattern [prefix*suffix]. *)
Definition fnmatch_star (prefix suffix name : string) : bool :=
  let p := list_ascii_of_string prefix in
  let s := list_ascii_of_string suffix in
  let n := list_ascii_of_string name in
  is_prefix p n && is_prefix (rev s) (rev (drop (List.length p) n)).

(** [glob.glob(os.path.join(dir, prefix + "*" + suffix))]: the matching
    entries of [dir] in enumeration order; glob does not sort. *)
Definition glob (fs : FileSystem) (dir prefix suffix : string) : list string :=
  flat_map (fun d =>
    if String.eqb d.1 dir
    then map (fun e => path_join dir e.1)
             (List.filter (fun e => fnmatch_star prefix suffix e.1) d.2)
    else []) fs.

Definition open_file (fs : FileSystem) (path : string) : result CsvFile :=
  match List.find (fun pc => String.eqb pc.1 path)
          (flat_map (fun d => map (fun e => (path_join d.1 e.1, e.2)) d.2) fs) with
  | Some pc => Ok pc.2
  | None => Err NotModelled
  end.

Definition possible_paths : list string := ["data"; "naverapieda/data"].

(** Lines 76 to 79: the first candidate that exists. *)
Definition data_dir (fs : FileSystem) : option string :=
  List.find (path_exists fs) possible_paths.

Definition s_pattern : string := "설빙_search_trend_".
Definition g_pattern : string := "설빙 기프티콘_search_trend_".

(** [files[-1]] *)
Definition last_file (files : list string) : string := List.last files "".

(** [load_sulbing_data] as a function of the file system: [None] stands for
    the pair [(None, None)]. *)
Definition load_sulbing_data (fs : FileSystem) : result (option (DataFrame * DataFrame)) :=
  match data_dir fs with
  | None => Ok None
  | Some dir =>
      let s_files := glob fs dir s_pattern ".csv" in
      let g_files := glob fs dir g_pattern ".csv" in
      if (Nat.eqb (List.length s_files) 0 || Nat.eqb (List.length g_files) 0)%bool
      then Ok None
      else
        fs_s ← open_file fs (last_file s_files); df_s ← read_csv fs_s;
        fs_g ← open_file fs (last_file g_files); df_g ← read_csv fs_g;
        df_s ← derive_columns df_s;
        df_g ← derive_columns df_g;
        Ok (Some (df_s, df_g))
  end.

(** ** The script after the load (lines 115 to 247)

    Streamlit runs the script from top to bottom on every interaction, with
    the widget values [year_filter] and [search_query] as inputs.  Frames
    are objects: a name is bound to a location of the heap, an assignment
    [x = e] binds [x] to a new object, [x[c] = e] changes the object bound
    to [x] in place. *)

Inductive element :=
| Metric (label value : string)
| Plot (title : string) (data : list DataFrame)
| Dataframe (data : DataFrame)
| DownloadButton (label : string) (data : CsvFile) (file_name : string)
| ErrorMessage (body : string).

Record State := mkState {
  heap : gmap nat DataFrame;
  vars : gmap string nat;
  next : nat;
  page : list element
}.

Definition read_var (st : State) (x : string) : result DataFrame :=
  match vars st !! x with
  | Some l => match heap st !! l with
              | Some df => Ok df
              | None => Err NotModelled
              end
  | None => Err (NameError x)
  end.

Inductive stmt :=
| Assign (x : string) (e : State -> result DataFrame)
| SetColumn (x : string) (f : DataFrame -> result DataFrame)
| Show (e : State -> result element).

Definition exec (s : stmt) (st : State) : result State :=
  match s with
  | Assign x e =>
      df ← e st;
      Ok (mkState (<[next st := df]> (heap st)) (<[x := next st]> (vars st))
                  (S (next st)) (page st))
  | SetColumn x f =>
      match vars st !! x with
      | Some l =>
          df ← read_var st x;
          df' ← f df;
          Ok (mkState (<[l := df']> (heap st)) (vars st) (next st) (page st))
      | None => Err (NameError x)
      end
  | Show e =>
      el ← e st;
      Ok (mkState (heap st) (vars st) (next st) (page st ++ [el]))
  end.

Fixpoint run (script : list stmt) (st : State) : result State :=
  match script with
  | [] => Ok st
  | s :: script' => st' ← exec s st; run script' st'
  end.

Section Script.
Context `{PyFormat}.
Variable year_filter : list Z.
Variable search_query : string.

Definition metric_of (label x : string)
    (m : Series -> result float) (prec : nat) : stmt :=
  Show (fun st =>
    df ← read_var st x; r ← getitem df "ratio"; v ← m r;
    Ok (Metric label (format_f prec v))).

Definition plot_of (title : string) (xs : list string) (cols : list string) : stmt :=
  Show (fun st =>
    dfs ← mapR (fun x => df ← read_var st x; _ ← select df cols; Ok df) xs;
    Ok (Plot title dfs)).

Definition dashboard : list stmt := [
  (* 116, 117 *)
  Assign "df_s_filtered" (fun st => df ← read_var st "df_s"; filter_years df year_filter);
  Assign "df_g_filtered" (fun st => df ← read_var st "df_g"; filter_years df year_filter);
  (* 126, 130, 134 *)
  metric_of "설빙 평균 점수" "df_s_filtered" Series_mean 2;
  metric_of "기프티콘 평균 점수" "df_g_filtered" Series_mean 2;
  metric_of "최대 검색 지수" "df_s_filtered" Series_max 1;
  (* 138, 139 *)
  Show (fun st =>
    s ← read_var st "df_s_filtered"; a ← getitem s "ratio";
    g ← read_var st "df_g_filtered"; b ← getitem g "ratio";
    corr ← Series_corr a b;
    Ok (Metric "상관계수 (R)" (format_f 3 corr)));
  (* 152 to 164 *)
  plot_of "2024-2025 통합 검색 트렌드 (일별)" ["df_s_filtered"; "df_g_filtered"]
          ["period"; "ratio"];
  (* 177 to 180 *)
  plot_of "월별 데이터 변동폭 (Boxplot)" ["df_s_filtered"] ["month"; "ratio"; "year"];
  (* 184 to 188 *)
  Assign "day_avg" (fun st => df ← read_var st "df_s_filtered"; day_avg df);
  plot_of "요일별 평균 검색 지수" ["day_avg"] ["dayofweek"; "ratio"];
  (* 191 *)
  SetColumn "df_s_filtered" assign_quarter;
  (* 192, 193 *)
  Assign "q_sum" (fun st => df ← read_var st "df_s_filtered"; q_sum_of df);
  SetColumn "q_sum" label_quarter;
  (* 195 to 198 *)
  plot_of "연간 검색 총합의 분기별 점유율" ["q_sum"] ["ratio"; "quarter"];
  (* 207 *)
  Assign "combined" (fun st =>
    s ← read_var st "df_s_filtered"; g ← read_var st "df_g_filtered";
    combined_of s g);
  (* 208 to 212 *)
  plot_of "관심도 상관성 분석 (R=0.91)" ["combined"] ["ratio_s"; "ratio_g"];
  (* 216 to 219 *)
  plot_of "검색 지수 빈도 분포 (Histogram)" ["df_s_filtered"] ["ratio"];
  (* 222 to 227 *)
  plot_of "평일(False) vs 주말(True) 검색량 밀도 비교" ["df_s_filtered"]
          ["ratio"; "is_weekend"];
  (* 234 to 236 *)
  Assign "display_df" (fun st =>
    s ← read_var st "df_s_filtered"; g ← read_var st "df_g_filtered";
    Ok (concat s g));
  Assign "display_df" (fun st =>
    d ← read_var st "display_df";
    if negb (String.eqb search_query "") then
      mask ← contains_any d search_query; Ok (getitem_mask d mask)
    else Ok d);
  (* 238 *)
  Show (fun st => d ← read_var st "display_df"; Ok (Dataframe d));
  (* 241 to 247 *)
  Show (fun st =>
    d ← read_var st "display_df";
    Ok (DownloadButton "필터링된 데이터 다운로드 (CSV)" (to_csv d) "sulbing_trend_data.csv"))
].

(** The state in which line 115 starts: the two loaded frames. *)
Definition loaded (df_s df_g : DataFrame) : State :=
  mkState (<[1%nat := df_g]> (<[0%nat := df_s]> ∅))
          (<["df_g" := 1%nat]> (<["df_s" := 0%nat]> ∅)) 2 [].

(** Lines 104 to 108 and the rest of the script. *)
Definition app (fs : FileSystem) : result State :=
  tables ← load_sulbing_data fs;
  match tables with
  | None =>
      Ok (mkState ∅ ∅ 0
            [ErrorMessage "데이터를 찾을 수 없습니다. 'data' 폴더와 CSV 파일들이 올바른 위치에 있는지 확인해주세요."])
  | Some (df_s, df_g) => run dashboard (loaded df_s df_g)
  end.

End Script.

(** ** Notions used by the properties *)

(** Rows have one cell per column. *)
Definition wf_frame (df : DataFrame) : Prop :=
  Forall (fun r => List.length r.2 = List.length (columns df)) (rows df).

Definition column (i : nat) (rs : list (Z * list cell)) : Series :=
  map (fun r => (r.1, cell_at i r)) rs.

Definition dated (f : date -> cell) (ds : list (Z * date)) : Series :=
  map (fun id => (id.1, f id.2)) ds.

Definition derived_names : list string :=
  ["period"; "month"; "year"; "dayofweek"; "is_weekend"].

Definition add_column (name : string) (cols : list string) : list string :=
  match col_index name cols with
  | Some _ => cols
  | None => cols ++ [name]
  end.

(** What the loader's loop leaves in a frame read from a file. *)
Record derived (raw df : DataFrame) (ds : list (Z * date)) : Prop := {
  der_index : map fst ds = map fst (rows raw);
  der_rows : map fst (rows df) = map fst (rows raw);
  der_valid : Forall (fun id => valid_date id.2 = true) ds;
  der_wf : wf_frame df;
  der_columns :
    columns df
    = add_column "is_weekend" (add_column "dayofweek" (add_column "year"
        (add_column "month" (add_column "period" (columns raw)))));
  der_period : getitem df "period" = Ok (dated CDate ds);
  der_month : getitem df "month" = Ok (dated (fun d => CInt (d_month d)) ds);
  der_year : getitem df "year" = Ok (dated (fun d => CInt (d_year d)) ds);
  der_dayofweek : getitem df "dayofweek" = Ok (dated (fun d => CStr (date_day_name d)) ds);
  der_is_weekend :
    getitem df "is_weekend"
    = Ok (dated (fun d => CBool (isin_cell [5; 6] (CInt (date_dayofweek d)))) ds);
  der_other : forall m, ~ In m derived_names -> getitem df m = getitem raw m
}.

Definition reread (width : nat) (cells : list cell) : list cell :=
  let rec := map field_of_cell cells in
  map cell_of_field rec ++ replicate (width - List.length rec) NaN.

Definition exportable (Y : list Z) (T : DataFrame) : Prop :=
  (forall n, In n derived_names -> In n (columns T))
  /\ exists ip,
       col_index "period" (columns T) = Some ip
       /\ forall r, In r (rows T) ->
            (List.length r.2 <= List.length (columns T))%nat
            /\ exists d, cell_at ip r = CDate d /\ valid_date d = true /\ In (d_year d) Y.

(** Frames whose period column holds valid dates with a property [P]. *)
Definition dated_frame (P : date -> Prop) (T : DataFrame) : Prop :=
  wf_frame T
  /\ (forall n, In n derived_names -> In n (columns T))
  /\ exists ip,
       col_index "period" (columns T) = Some ip
       /\ forall r, In r (rows T) ->
            exists d, cell_at ip r = CDate d /\ valid_date d = true /\ P d.

(** The rows one primary row gives to the join: one per secondary row with
    the same timestamp. *)
Definition join_rows (ps rs pg rg : nat) (right : list (Z * list cell))
    (a : Z * list cell) : list (list cell) :=
  map (fun b => [cell_at ps a; cell_at rs a; cell_at rg b])
      (List.filter (fun b => cell_eqb (cell_at ps a) (cell_at pg b)) right).

(** The search of the specification.

    "Contains the query as a literal substring, compared
    case-insensitively": some part of the text is the query up to the case
    of letters. *)
Definition literal_substring_ci (q s : string) : Prop :=
  exists pre mid post,
    list_ascii_of_string s = pre ++ mid ++ post
    /\ map lower mid = map lower (list_ascii_of_string q).

Fixpoint ci_prefix (q s : list ascii) : bool :=
  match q, s with
  | [], _ => true
  | c :: q', x :: s' => Ascii.eqb (lower c) (lower x) && ci_prefix q' s'
  | _ :: _, [] => false
  end.

Fixpoint ci_substring (q s : list ascii) : bool :=
  ci_prefix q s || match s with [] => false | _ :: s' => ci_substring q s' end.

(** The decidable form of [literal_substring_ci]. *)
Definition literal_substring_cib (q s : string) : bool :=
  ci_substring (list_ascii_of_string q) (list_ascii_of_string s).

Definition row_has `{PyFormat} (q : string) (r : Z * list cell) : bool :=
  existsb (fun c => literal_substring_cib q (str_of_cell c)) r.2.

(** A query without regular expression operators: ASCII characters other
    than the dot and the special characters. *)
Definition plain_char (c : ascii) : bool :=
  is_ascii c && negb (Ascii.eqb c ".") && negb (existsb (Ascii.eqb c) re_special).

Definition plain_query (q : string) : bool :=
  forallb plain_char (list_ascii_of_string q).

Definition ascii_text (s : string) : bool := forallb is_ascii (list_ascii_of_string s).

(** The states the script runs through after the load: the two loaded
    frames sit at locations 0 and 1 under their names, no other name is
    bound to them, and every object lies below the next free location. *)
Definition script_inv (df_s df_g : DataFrame) (st : State) : Prop :=
  (2 <= next st)%nat
  /\ (forall l, is_Some (heap st !! l) -> (l < next st)%nat)
  /\ vars st !! "df_s" = Some 0%nat /\ vars st !! "df_g" = Some 1%nat
  /\ heap st !! 0%nat = Some df_s /\ heap st !! 1%nat = Some df_g
  /\ (forall x l, vars st !! x = Some l -> (l < 2)%nat -> x = "df_s" \/ x = "df_g").

(** The name a statement binds or changes. *)
Definition target (s : stmt) : option string :=
  match s with
  | Assign x _ => Some x
  | SetColumn x _ => Some x
  | Show _ => None
  end.

Definition keeps_loaded (s : stmt) : bool :=
  match target s with
  | Some x => negb (String.eqb x "df_s") && negb (String.eqb x "df_g")
  | None => true
  end.

(** The date in a row's period cell. *)
Definition date_at (ip : nat) (r : Z * list cell) : date :=
  match cell_at ip r with
  | CDate d => d
  | _ => mkDate 0 0 0
  end.

(** Lines 234 to 247 followed by a load of the downloaded file and the
    year filter. *)
Definition reload (D : DataFrame) (year_filter : list Z) : result DataFrame :=
  raw ← read_csv (to_csv D);
  df ← derive_columns raw;
  filter_years df year_filter.

(** ** Example inputs *)

Definition ex_raw : DataFrame :=
  mkDF ["period"; "ratio"]
       [(0, [CStr "2024-02-28"; CFloat 10%float]);
        (1, [CStr "2024-02-29"; CFloat 20%float]);
        (2, [CStr "2025-03-01"; CFloat 30%float]);
        (3, [CStr "2025-03-02"; CFloat 40%float])].

Definition ex_file : CsvFile :=
  mkCsv ["period"; "ratio"]
        [[FText "2024-02-28"; FNum 10%float];
         [FText "2024-02-29"; FNum 20%float];
         [FText "2025-03-01"; FNum 30%float];
         [FText "2025-03-02"; FNum 40%float]].

Definition ex_df : DataFrame :=
  mkDF ["period"; "ratio"; "month"; "year"; "dayofweek"; "is_weekend"]
       [(0, [CDate (mkDate 2024 2 28); CFloat 10%float; CInt 2; CInt 2024;
             CStr "Wednesday"; CBool false]);
        (1, [CDate (mkDate 2024 2 29); CFloat 20%float; CInt 2; CInt 2024;
             CStr "Thursday"; CBool false]);
        (2, [CDate (mkDate 2025 3 1); CFloat 30%float; CInt 3; CInt 2025;
             CStr "Saturday"; CBool true]);
        (3, [CDate (mkDate 2025 3 2); CFloat 40%float; CInt 3; CInt 2025;
             CStr "Sunday"; CBool true])].

(** Two files of the first series, enumerated newest first. *)
Definition file_2024 : CsvFile :=
  mkCsv ["period"; "ratio"] [[FText "2024-01-01"; FNum 1%float]].

Definition file_2025 : CsvFile :=
  mkCsv ["period"; "ratio"] [[FText "2025-01-01"; FNum 2%float]].

Definition fs_two_files : FileSystem :=
  [("data",
    [("설빙_search_trend_2025-01.csv", file_2025);
     ("설빙 기프티콘_search_trend_2025-01.csv", ex_file);
     ("설빙_search_trend_2024-01.csv", file_2024)])].

(** Two series over disjoint days. *)
Definition file_january : CsvFile :=
  mkCsv ["period"; "ratio"]
        [[FText "2024-01-01"; FNum 13%float];
         [FText "2024-01-02"; FNum 15%float];
         [FText "2024-01-03"; FNum 2%float]].

Definition file_february : CsvFile :=
  mkCsv ["period"; "ratio"]
        [[FText "2024-02-01"; FNum 13%float];
         [FText "2024-02-02"; FNum 15%float];
         [FText "2024-02-03"; FNum 2%float]].

Definition fs_disjoint_days : FileSystem :=
  [("data",
    [("설빙_search_trend_2024.csv", file_january);
     ("설빙 기프티콘_search_trend_2024.csv", file_february)])].

(** A format of floats for the examples: every float prints as 1.0. *)
Definition ex_format : PyFormat :=
  {| repr_float := fun _ => "1.0"; format_fixed := fun _ _ => "1.0" |}.

Definition ex_filtered : DataFrame :=
  Eval vm_compute in
    match filter_years ex_df [2025] with Ok s => s | Err _ => mkDF [] [] end.

Definition ex_quartered : DataFrame :=
  Eval vm_compute in
    match assign_quarter ex_filtered with Ok s => s | Err _ => mkDF [] [] end.

(** The explorer's table for the example file, the year 2025 and no query. *)
Definition ex_display : DataFrame :=
  Eval vm_compute in
    match (s ← filter_years ex_df [2025];
           g ← filter_years ex_df [2025];
           s' ← assign_quarter s;
           @display_df_of ex_format s' g "") with
    | Ok D => D
    | Err _ => mkDF [] []
    end.

(** ** Further example inputs *)

(** The first candidate directory exists and is empty, the second one holds
    both series. *)
Definition fs_empty_first : FileSystem :=
  [("data", []);
   ("naverapieda/data",
    [("설빙_search_trend_2025-01.csv", file_2025);
     ("설빙 기프티콘_search_trend_2025-01.csv", ex_file)])].

Definition error_body : string :=
  "데이터를 찾을 수 없습니다. 'data' 폴더와 CSV 파일들이 올바른 위치에 있는지 확인해주세요.".

(** A file with a day that does not exist: 2023 is no leap year. *)
Definition file_bad_day : CsvFile :=
  mkCsv ["period"; "ratio"]
        [[FText "2023-02-28"; FNum 1%float];
         [FText "2023-02-29"; FNum 2%float]].

(** A file without the value column. *)
Definition file_no_ratio : CsvFile :=
  mkCsv ["period"; "clicks"] [[FText "2024-01-01"; FNum 1%float]].

Definition fs_bad_day : FileSystem :=
  [("data",
    [("설빙_search_trend_2023.csv", file_bad_day);
     ("설빙 기프티콘_search_trend_2023.csv", ex_file)])].

Definition fs_no_ratio : FileSystem :=
  [("data",
    [("설빙_search_trend_2024.csv", file_no_ratio);
     ("설빙 기프티콘_search_trend_2024.csv", ex_file)])].

(** A file whose days lie in the third and the first quarter. *)
Definition file_two_quarters : CsvFile :=
  mkCsv ["period"; "ratio"]
        [[FText "2024-08-15"; FNum 1%float];
         [FText "2024-02-10"; FNum 2%float];
         [FText "2024-09-01"; FNum 4%float]].

Definition ex_two_quarters : DataFrame :=
  Eval vm_compute in
    match (raw ← read_csv file_two_quarters; df ← derive_columns raw; assign_quarter df) with
    | Ok s => s
    | Err _ => mkDF [] []
    end.

(* ================================================================== *)
(** * Properties *)

(** ** The result monad *)

Lemma bind_Ok {A B} (m : result A) (f : A -> result B) (b : B) :
  (m ≫= f) = Ok b <-> exists a, m = Ok a /\ f a = Ok b.
Proof.
  destruct m as [a|e]; simpl; split.
  - intros Hf. exists a. split; [reflexivity | exact Hf].
  - intros (a' & Ha & Hf). injection Ha as ->. exact Hf.
  - discriminate.
  - intros (a' & Ha & _). discriminate.
Qed.

Lemma bind_ret_l {A B} (a : A) (f : A -> result B) : (Ok a ≫= f) = f a.
Proof. reflexivity. Qed.

Ltac bindR H :=
  let a := fresh "a" in
  let Ha := fresh "E" in
  apply bind_Ok in H; destruct H as (a & Ha & H).

Ltac okR H := injection H as H.

Lemma mapR_Forall2 {A B} (f : A -> result B) (l : list A) (l' : list B) :
  mapR f l = Ok l' <-> Forall2 (fun x y => f x = Ok y) l l'.
Proof.
  revert l'. induction l as [|x l IH]; intros l'; simpl.
  - split.
    + intros [= <-]. constructor.
    + intros Hl. inversion Hl. reflexivity.
  - split.
    + intros Hm. bindR Hm. bindR Hm. injection Hm as <-.
      constructor; [assumption | now apply IH].
    + intros Hl. inversion Hl as [|? y ? ys Hy Hys]; subst.
      rewrite Hy. simpl. apply IH in Hys. rewrite Hys. reflexivity.
Qed.

Lemma mapR_total {A B} (f : A -> result B) (l : list A) :
  Forall (fun x => exists y, f x = Ok y) l -> exists l', mapR f l = Ok l'.
Proof.
  induction 1 as [|x l [y Hy] _ [l' Hl']]; simpl.
  - eexists; reflexivity.
  - rewrite Hy. simpl. rewrite Hl'. simpl. eexists; reflexivity.
Qed.

(** ** Weekdays *)

Lemma dayofweek_range (y m d : Z) : -7 < dayofweek y m d < 7.
Proof.
  unfold dayofweek.
  match goal with |- _ < Z.rem ?a 7 < _ => generalize a end.
  intros a. pose proof (Z.rem_bound_abs a 7 ltac:(lia)). lia.
Qed.

Lemma weekend_iff_name (d : date) :
  isin_cell [5; 6] (CInt (date_dayofweek d)) = true
  <-> date_day_name d = "Saturday" \/ date_day_name d = "Sunday".
Proof.
  unfold date_day_name, date_dayofweek.
  pose proof (dayofweek_range (d_year d) (d_month d) (d_day d)) as Hr.
  set (w := dayofweek _ _ _) in *. clearbody w.
  assert (Hw : w < 0 \/ w = 0 \/ w = 1 \/ w = 2 \/ w = 3 \/ w = 4 \/ w = 5 \/ w = 6)
    by lia.
  destruct Hw as [Hn | [-> | [-> | [-> | [-> | [-> | [-> | ->]]]]]]].
  - destruct w as [|p|p]; try lia. simpl.
    split; [discriminate | intros [?|?]; discriminate].
  - simpl; split; [discriminate | intros [?|?]; discriminate].
  - simpl; split; [discriminate | intros [?|?]; discriminate].
  - simpl; split; [discriminate | intros [?|?]; discriminate].
  - simpl; split; [discriminate | intros [?|?]; discriminate].
  - simpl; split; [discriminate | intros [?|?]; discriminate].
  - simpl; split; auto.
  - simpl; split; auto.
Qed.

(** ** Columns of a frame *)

Lemma col_index_lt name cols i :
  col_index name cols = Some i -> (i < List.length cols)%nat.
Proof.
  revert i. induction cols as [|c cs IH]; intros i; simpl; [discriminate|].
  destruct (String.eqb c name).
  - intros [= <-]. lia.
  - destruct (col_index name cs) as [k|]; simpl; [|discriminate].
    intros [= <-]. specialize (IH k eq_refl). lia.
Qed.

Lemma col_index_lookup name cols i :
  col_index name cols = Some i -> cols !! i = Some name.
Proof.
  revert i. induction cols as [|c cs IH]; intros i; simpl; [discriminate|].
  destruct (String.eqb_spec c name) as [->|Hne].
  - intros [= <-]. reflexivity.
  - destruct (col_index name cs) as [k|]; simpl; [|discriminate].
    intros [= <-]. simpl. now apply IH.
Qed.

Lemma col_index_None name cols :
  col_index name cols = None <-> ~ In name cols.
Proof.
  induction cols as [|c cs IH]; simpl.
  - tauto.
  - destruct (String.eqb_spec c name) as [->|Hne].
    + split; [discriminate | tauto].
    + destruct (col_index name cs) as [k|]; simpl.
      * split; [discriminate|]. intros Hn. exfalso. apply Hn. right.
        destruct (in_dec string_dec name cs) as [Hi|Hi]; [exact Hi|].
        apply IH in Hi. discriminate.
      * split; [|reflexivity]. intros _ [Hc|Hc]; [congruence|].
        now apply IH in Hc.
Qed.

Lemma col_index_Some_In name cols i : col_index name cols = Some i -> In name cols.
Proof.
  intros Hi. destruct (in_dec string_dec name cols) as [Hin|Hin]; [exact Hin|].
  apply col_index_None in Hin. congruence.
Qed.

Lemma col_index_In name cols : In name cols -> exists i, col_index name cols = Some i.
Proof.
  intros Hin. destruct (col_index name cols) as [i|] eqn:E; [now exists i|].
  apply col_index_None in E. contradiction.
Qed.

Lemma col_index_app_l name cols more i :
  col_index name cols = Some i -> col_index name (cols ++ more) = Some i.
Proof.
  revert i. induction cols as [|c cs IH]; intros i; simpl; [discriminate|].
  destruct (String.eqb c name); [auto|].
  destruct (col_index name cs) as [k|]; simpl; [|discriminate].
  intros [= <-]. now rewrite (IH k eq_refl).
Qed.

Lemma col_index_app_r name cols more :
  col_index name cols = None ->
  col_index name (cols ++ more) = (fun k => (List.length cols + k)%nat) <$> col_index name more.
Proof.
  induction cols as [|c cs IH]; simpl.
  - intros _. destruct (col_index name more); reflexivity.
  - destruct (String.eqb c name); [discriminate|].
    destruct (col_index name cs) as [k|]; simpl; [discriminate|].
    intros _. rewrite IH by reflexivity.
    destruct (col_index name more); reflexivity.
Qed.

Lemma col_index_snoc name cols :
  col_index name cols = None -> col_index name (cols ++ [name]) = Some (List.length cols).
Proof.
  intros Hn. rewrite col_index_app_r by exact Hn. simpl.
  rewrite String.eqb_refl. simpl. f_equal. lia.
Qed.

Lemma col_index_snoc_ne name m cols :
  m <> name -> col_index m (cols ++ [name]) = col_index m cols.
Proof.
  intros Hne. destruct (col_index m cols) as [i|] eqn:E.
  - now apply col_index_app_l.
  - rewrite col_index_app_r by exact E. simpl.
    destruct (String.eqb_spec name m); [congruence | reflexivity].
Qed.

Lemma col_index_inj n m cols i :
  col_index n cols = Some i -> col_index m cols = Some i -> n = m.
Proof.
  intros Hn%col_index_lookup Hm%col_index_lookup. congruence.
Qed.

(** ** Reading and writing columns *)

Lemma getitem_column df name i :
  col_index name (columns df) = Some i -> getitem df name = Ok (column i (rows df)).
Proof. unfold getitem. now intros ->. Qed.

Lemma getitem_Ok df name s :
  getitem df name = Ok s ->
  exists i, col_index name (columns df) = Some i /\ s = column i (rows df).
Proof.
  unfold getitem. destruct (col_index name (columns df)) as [i|]; [|discriminate].
  intros [= <-]. now exists i.
Qed.

Lemma column_index i rs : map fst (column i rs) = map fst rs.
Proof. unfold column. rewrite map_map. reflexivity. Qed.

Lemma getitem_index df name s : getitem df name = Ok s -> map fst s = map fst (rows df).
Proof. intros (i & _ & ->)%getitem_Ok. apply column_index. Qed.

Lemma cell_at_insert_eq i (r : Z * list cell) v :
  (i < List.length r.2)%nat -> cell_at i (r.1, <[i := v]> r.2) = v.
Proof.
  intros Hi. unfold cell_at. simpl. rewrite nth_lookup.
  rewrite list_lookup_insert_eq by exact Hi. reflexivity.
Qed.

Lemma cell_at_insert_ne i j (r : Z * list cell) v :
  i <> j -> cell_at j (r.1, <[i := v]> r.2) = cell_at j r.
Proof.
  intros Hne. unfold cell_at. simpl. rewrite !nth_lookup.
  rewrite list_lookup_insert_ne by exact Hne. reflexivity.
Qed.

Lemma cell_at_snoc_eq (r : Z * list cell) v :
  cell_at (List.length r.2) (r.1, r.2 ++ [v]) = v.
Proof.
  unfold cell_at. simpl. rewrite nth_lookup.
  rewrite lookup_app_r by lia. rewrite Nat.sub_diag. reflexivity.
Qed.

Lemma cell_at_snoc_ne j (r : Z * list cell) v :
  (j < List.length r.2)%nat -> cell_at j (r.1, r.2 ++ [v]) = cell_at j r.
Proof.
  intros Hj. unfold cell_at. simpl. rewrite !nth_lookup.
  rewrite lookup_app_l by exact Hj. reflexivity.
Qed.

Lemma zip_rows_index {A} (f : Z * list cell -> A -> Z * list cell) rs (s : list A) :
  (forall r v, (f r v).1 = r.1) -> List.length s = List.length rs ->
  map fst (zip_rows f rs s) = map fst rs.
Proof.
  intros Hf. revert s. induction rs as [|r rs IH]; intros [|v s]; simpl; try discriminate.
  - reflexivity.
  - intros [= Hl]. rewrite Hf, IH by exact Hl. reflexivity.
Qed.

Lemma zip_rows_column {A} (f : Z * list cell -> Z * A -> Z * list cell) (g : A -> cell)
    j rs (s : list (Z * A)) :
  map fst s = map fst rs ->
  Forall (fun r => forall v, (f r v).1 = r.1 /\ cell_at j (f r v) = g v.2) rs ->
  column j (zip_rows f rs s) = map (fun v => (v.1, g v.2)) s.
Proof.
  revert s. induction rs as [|r rs IH]; intros [|v s]; simpl; try discriminate.
  - reflexivity.
  - intros [= Hv Hs] Hall. inversion Hall as [|? ? Hr Hrs]; subst.
    destruct (Hr v) as [H1 H2]. unfold column in *. simpl.
    rewrite H1, H2, Hv. f_equal. now apply IH.
Qed.

Lemma zip_rows_column_other {A} (f : Z * list cell -> A -> Z * list cell)
    j rs (s : list A) :
  List.length s = List.length rs ->
  Forall (fun r => forall v, (f r v).1 = r.1 /\ cell_at j (f r v) = cell_at j r) rs ->
  column j (zip_rows f rs s) = column j rs.
Proof.
  revert s. induction rs as [|r rs IH]; intros [|v s]; simpl; try discriminate.
  - reflexivity.
  - intros [= Hs] Hall. inversion Hall as [|? ? Hr Hrs]; subst.
    destruct (Hr v) as [H1 H2]. unfold column in *. simpl.
    rewrite H1, H2. f_equal. now apply IH.
Qed.

Lemma setitem_columns df name s :
  columns (setitem df name s)
  = match col_index name (columns df) with
    | Some _ => columns df
    | None => columns df ++ [name]
    end.
Proof. unfold setitem. destruct (col_index name (columns df)); reflexivity. Qed.

Lemma setitem_index df name s :
  List.length s = List.length (rows df) ->
  map fst (rows (setitem df name s)) = map fst (rows df).
Proof.
  intros Hl. unfold setitem.
  destruct (col_index name (columns df)); simpl; now apply zip_rows_index.
Qed.

Lemma zip_rows_Forall {A} (f : Z * list cell -> A -> Z * list cell)
    (P Q : Z * list cell -> Prop) rs (s : list A) :
  (forall r v, P r -> Q (f r v)) -> Forall P rs -> Forall Q (zip_rows f rs s).
Proof.
  intros Hf Hall. revert s. induction Hall as [|r rs Hr _ IH]; intros [|v s]; simpl;
    constructor; auto.
Qed.

Lemma setitem_wf df name s : wf_frame df -> wf_frame (setitem df name s).
Proof.
  unfold wf_frame, setitem. intros Hwf.
  destruct (col_index name (columns df)) as [i|]; simpl.
  - eapply zip_rows_Forall; [|exact Hwf]. intros r v Hr. simpl.
    now rewrite length_insert.
  - eapply zip_rows_Forall; [|exact Hwf]. intros r v Hr. simpl.
    rewrite !length_app, Hr. reflexivity.
Qed.

Lemma series_map_id (s : Series) : map (fun v => (v.1, v.2)) s = s.
Proof. rewrite <- (map_id s) at 2. apply map_ext. now intros []. Qed.

Lemma getitem_setitem_eq df name s :
  wf_frame df -> map fst s = map fst (rows df) ->
  getitem (setitem df name s) name = Ok s.
Proof.
  intros Hwf Hix.
  destruct (col_index name (columns df)) as [i|] eqn:Ei.
  - rewrite (getitem_column _ _ i) by (now rewrite setitem_columns, Ei).
    f_equal. unfold setitem. rewrite Ei. simpl.
    rewrite (zip_rows_column _ (fun c => c) i); [apply series_map_id | exact Hix |].
    eapply Forall_impl; [exact Hwf|]. intros r Hr v. simpl.
    split; [reflexivity|]. apply cell_at_insert_eq. rewrite Hr.
    eapply col_index_lt, Ei.
  - rewrite (getitem_column _ _ (List.length (columns df)))
      by (rewrite setitem_columns, Ei; now apply col_index_snoc).
    f_equal. unfold setitem. rewrite Ei. simpl.
    rewrite (zip_rows_column _ (fun c => c) _); [apply series_map_id | exact Hix |].
    eapply Forall_impl; [exact Hwf|]. intros r Hr v. simpl.
    split; [reflexivity|]. rewrite <- Hr. apply cell_at_snoc_eq.
Qed.

Lemma getitem_setitem_ne df name m s :
  wf_frame df -> List.length s = List.length (rows df) -> m <> name ->
  getitem (setitem df name s) m = getitem df m.
Proof.
  intros Hwf Hl Hne. unfold getitem. rewrite setitem_columns. unfold setitem.
  destruct (col_index name (columns df)) as [i|] eqn:Ei.
  - destruct (col_index m (columns df)) as [j|] eqn:Ej; [|reflexivity].
    simpl. f_equal. apply (zip_rows_column_other _ j); [exact Hl|].
    eapply Forall_impl; [exact Hwf|]. intros r Hr v. simpl.
    split; [reflexivity|]. apply cell_at_insert_ne.
    intros ->. apply Hne. eapply col_index_inj; eassumption.
  - rewrite col_index_snoc_ne by exact Hne.
    destruct (col_index m (columns df)) as [j|] eqn:Ej; [|reflexivity].
    simpl. f_equal. apply (zip_rows_column_other _ j); [exact Hl|].
    eapply Forall_impl; [exact Hwf|]. intros r Hr v. simpl.
    split; [reflexivity|]. apply cell_at_snoc_ne. rewrite Hr.
    eapply col_index_lt, Ej.
Qed.

(** ** The derived columns *)

Lemma dated_index f ds : map fst (dated f ds) = map fst ds.
Proof. unfold dated. rewrite map_map. reflexivity. Qed.

Lemma to_datetime_dated s s' :
  to_datetime s = Ok s' ->
  exists ds, s' = dated CDate ds /\ map fst ds = map fst s
             /\ Forall (fun id => valid_date id.2 = true) ds.
Proof.
  unfold to_datetime, map_series. revert s'.
  induction s as [|[i c] s IH]; intros s' Hs; simpl in Hs.
  - injection Hs as <-. exists []. repeat split; constructor.
  - bindR Hs. bindR Hs. injection Hs as <-.
    bindR E. injection E as <-. simpl in E1.
    destruct (IH _ E0) as (ds & -> & Hix & Hv).
    unfold to_datetime_cell in E1. destruct c; try discriminate.
    destruct (parse_iso s0) as [d|]; [|discriminate].
    destruct (negb (year_in_bounds (d_year d))); [discriminate|].
    destruct (valid_date d) eqn:Hd; [|discriminate].
    injection E1 as <-. exists ((i, d) :: ds). simpl.
    repeat split; [now rewrite Hix | now constructor].
Qed.

Lemma dt_dated f ds : dt f (dated CDate ds) = Ok (dated f ds).
Proof.
  unfold dt, map_series, dated. induction ds as [|[i d] ds IH]; simpl.
  - reflexivity.
  - rewrite IH. reflexivity.
Qed.

Lemma isin_dated g values ds :
  isin (dated g ds) values = dated (fun d => CBool (isin_cell values (g d))) ds.
Proof. unfold isin, dated. rewrite map_map. reflexivity. Qed.

Lemma dated_length f ds : List.length (dated f ds) = List.length ds.
Proof. unfold dated. apply length_map. Qed.

Lemma map_fst_length {A B} (l : list (A * B)) {C} (l' : list (A * C)) :
  map fst l = map fst l' -> List.length l = List.length l'.
Proof. intros Hl. rewrite <- (length_map fst l), Hl. apply length_map. Qed.

Lemma derive_columns_dated raw p ds :
  wf_frame raw -> getitem raw "period" = Ok p -> to_datetime p = Ok (dated CDate ds) ->
  map fst ds = map fst (rows raw) -> Forall (fun id => valid_date id.2 = true) ds ->
  exists df, derive_columns raw = Ok df /\ derived raw df ds.
Proof.
  intros Hwf Ep0 Ep Hix Hval. unfold derive_columns.
  unfold dt_month, dt_year, dt_day_name, dt_dayofweek.
  rewrite Ep0, bind_ret_l, Ep, bind_ret_l.
  assert (Hlen : List.length ds = List.length (rows raw)) by (eapply map_fst_length, Hix).
  set (df1 := setitem raw "period" (dated CDate ds)) in *.
  assert (Hwf1 : wf_frame df1) by now apply setitem_wf.
  assert (Hr1 : map fst (rows df1) = map fst (rows raw))
    by (apply setitem_index; now rewrite dated_length).
  assert (Hp1 : getitem df1 "period" = Ok (dated CDate ds))
    by (apply getitem_setitem_eq; [exact Hwf | now rewrite dated_index]).
  rewrite Hp1. rewrite bind_ret_l, dt_dated, bind_ret_l.
  set (df2 := setitem df1 "month" _) in *.
  assert (Hl1 : forall f, List.length (dated f ds) = List.length (rows df1))
    by (intros f; rewrite dated_length, Hlen; eapply map_fst_length; now rewrite Hr1).
  assert (Hwf2 : wf_frame df2) by now apply setitem_wf.
  assert (Hr2 : map fst (rows df2) = map fst (rows raw))
    by (unfold df2; rewrite setitem_index by apply Hl1; exact Hr1).
  assert (Hp2 : getitem df2 "period" = Ok (dated CDate ds))
    by (unfold df2; rewrite getitem_setitem_ne by (auto; discriminate); exact Hp1).
  rewrite Hp2. rewrite bind_ret_l, dt_dated, bind_ret_l.
  set (df3 := setitem df2 "year" _) in *.
  assert (Hl2 : forall f, List.length (dated f ds) = List.length (rows df2))
    by (intros f; rewrite dated_length, Hlen; eapply map_fst_length; now rewrite Hr2).
  assert (Hwf3 : wf_frame df3) by now apply setitem_wf.
  assert (Hr3 : map fst (rows df3) = map fst (rows raw))
    by (unfold df3; rewrite setitem_index by apply Hl2; exact Hr2).
  assert (Hp3 : getitem df3 "period" = Ok (dated CDate ds))
    by (unfold df3; rewrite getitem_setitem_ne by (auto; discriminate); exact Hp2).
  rewrite Hp3. rewrite bind_ret_l, dt_dated, bind_ret_l.
  set (df4 := setitem df3 "dayofweek" _) in *.
  assert (Hl3 : forall f, List.length (dated f ds) = List.length (rows df3))
    by (intros f; rewrite dated_length, Hlen; eapply map_fst_length; now rewrite Hr3).
  assert (Hwf4 : wf_frame df4) by now apply setitem_wf.
  assert (Hr4 : map fst (rows df4) = map fst (rows raw))
    by (unfold df4; rewrite setitem_index by apply Hl3; exact Hr3).
  assert (Hp4 : getitem df4 "period" = Ok (dated CDate ds))
    by (unfold df4; rewrite getitem_setitem_ne by (auto; discriminate); exact Hp3).
  rewrite Hp4. rewrite bind_ret_l, dt_dated, bind_ret_l.
  rewrite isin_dated.
  set (df5 := setitem df4 "is_weekend" _).
  assert (Hl4 : forall f, List.length (dated f ds) = List.length (rows df4))
    by (intros f; rewrite dated_length, Hlen; eapply map_fst_length; now rewrite Hr4).
  exists df5. split; [reflexivity|]. constructor.
  - exact Hix.
  - unfold df5. rewrite setitem_index by apply Hl4. exact Hr4.
  - exact Hval.
  - now apply setitem_wf.
  - unfold df5, df4, df3, df2, df1. rewrite !setitem_columns. reflexivity.
  - unfold df5. rewrite getitem_setitem_ne by (auto; discriminate). exact Hp4.
  - unfold df5. rewrite getitem_setitem_ne by (auto; discriminate).
    unfold df4. rewrite getitem_setitem_ne by (auto; discriminate).
    unfold df3. rewrite getitem_setitem_ne by (auto; discriminate).
    unfold df2. apply getitem_setitem_eq; [exact Hwf1 | now rewrite dated_index, Hr1].
  - unfold df5. rewrite getitem_setitem_ne by (auto; discriminate).
    unfold df4. rewrite getitem_setitem_ne by (auto; discriminate).
    unfold df3. apply getitem_setitem_eq; [exact Hwf2 | now rewrite dated_index, Hr2].
  - unfold df5. rewrite getitem_setitem_ne by (auto; discriminate).
    unfold df4. apply getitem_setitem_eq; [exact Hwf3 | now rewrite dated_index, Hr3].
  - unfold df5. apply getitem_setitem_eq; [exact Hwf4 | now rewrite dated_index, Hr4].
  - intros m Hm. unfold derived_names in Hm. simpl in Hm.
    unfold df5. rewrite getitem_setitem_ne by (auto; intros ->; tauto).
    unfold df4. rewrite getitem_setitem_ne by (auto; intros ->; tauto).
    unfold df3. rewrite getitem_setitem_ne by (auto; intros ->; tauto).
    unfold df2. rewrite getitem_setitem_ne by (auto; intros ->; tauto).
    unfold df1. rewrite getitem_setitem_ne;
      [reflexivity | exact Hwf | now rewrite dated_length | intros ->; tauto].
Qed.

Lemma derive_columns_derived raw df :
  wf_frame raw -> derive_columns raw = Ok df -> exists ds, derived raw df ds.
Proof.
  intros Hwf Hd. pose proof Hd as Hd0. unfold derive_columns in Hd.
  bindR Hd. bindR Hd. rename a into p0, a0 into p, E into Ep0, E0 into Ep.
  destruct (to_datetime_dated _ _ Ep) as (ds & -> & Hix & Hval).
  pose proof (getitem_index _ _ _ Ep0) as Hix0. rewrite Hix0 in Hix.
  destruct (derive_columns_dated raw p0 ds Hwf Ep0 Ep Hix Hval) as (df' & Hdf' & D).
  rewrite Hd0 in Hdf'. injection Hdf' as <-. now exists ds.
Qed.

Lemma imap_snd {A B} (f : nat -> A -> B * A) (l : list A) :
  (forall i x, (f i x).2 = x) -> map snd (imap f l) = l.
Proof.
  revert f. induction l as [|x l IH]; intros f Hf; simpl; [reflexivity|].
  rewrite Hf, IH; [reflexivity|]. intros i y. apply Hf.
Qed.

Lemma range_index_snd {A} (l : list A) : map snd (range_index l) = l.
Proof. unfold range_index. now apply imap_snd. Qed.

Lemma range_index_length {A} (l : list A) : List.length (range_index l) = List.length l.
Proof. unfold range_index. apply length_imap. Qed.

Lemma read_csv_wf file df : read_csv file = Ok df -> wf_frame df.
Proof.
  unfold read_csv. intros Hr. bindR Hr. injection Hr as <-. rename a into body.
  unfold wf_frame. simpl.
  apply mapR_Forall2 in E.
  assert (Hb : Forall (fun c => List.length c = List.length (header file)) body).
  { clear -E. induction E as [|rec c recs cs Hc _ IH]; constructor; [|exact IH].
    unfold read_record in Hc.
    destruct (Nat.ltb_spec (List.length (header file)) (List.length rec)); [discriminate|].
    injection Hc as <-. rewrite length_app, length_map, length_replicate. lia. }
  rewrite <- (range_index_snd body) in Hb. apply Forall_map in Hb. exact Hb.
Qed.

Lemma lookup_map {A B} (f : A -> B) (l : list A) (k : nat) :
  map f l !! k = f <$> (l !! k).
Proof.
  revert k. induction l as [|x l IH]; intros [|k]; simpl; try reflexivity. apply IH.
Qed.

Lemma column_dated i rs f ds k r :
  column i rs = dated f ds -> rs !! k = Some r ->
  exists id, ds !! k = Some id /\ id.1 = r.1 /\ cell_at i r = f id.2.
Proof.
  intros Hc Hr.
  assert (Hk : column i rs !! k = Some (r.1, cell_at i r)).
  { unfold column. rewrite lookup_map, Hr. reflexivity. }
  rewrite Hc in Hk. unfold dated in Hk.
  rewrite lookup_map in Hk. destruct (ds !! k) as [id|]; [|discriminate].
  simpl in Hk. injection Hk as H1 H2. now exists id.
Qed.

(** C9: in every table the loader builds, a row's [is_weekend] flag is
    true exactly when its weekday name is Saturday or Sunday; the leap day
    2024-02-29 is a Thursday and not a weekend day. *)
Theorem C9_is_weekend_iff_saturday_or_sunday :
  (forall file raw df,
     read_csv file = Ok raw -> derive_columns raw = Ok df ->
     exists i j,
       col_index "dayofweek" (columns df) = Some i
       /\ col_index "is_weekend" (columns df) = Some j
       /\ forall r, In r (rows df) ->
            exists name b,
              cell_at i r = CStr name /\ cell_at j r = CBool b
              /\ (b = true <-> name = "Saturday" \/ name = "Sunday"))
  /\ date_day_name (mkDate 2024 2 29) = "Thursday"
  /\ isin_cell [5; 6] (CInt (date_dayofweek (mkDate 2024 2 29))) = false.
Proof.
  split; [|split; reflexivity].
  intros file raw df Hread Hder.
  destruct (derive_columns_derived raw df (read_csv_wf _ _ Hread) Hder) as [ds D].
  destruct (getitem_Ok _ _ _ (der_dayofweek _ _ _ D)) as (i & Hi & Hci).
  destruct (getitem_Ok _ _ _ (der_is_weekend _ _ _ D)) as (j & Hj & Hcj).
  exists i, j. split; [exact Hi|]. split; [exact Hj|].
  intros r Hr. apply list_elem_of_In, list_elem_of_lookup in Hr. destruct Hr as [k Hk].
  destruct (column_dated _ _ _ _ _ _ (eq_sym Hci) Hk) as (id & Hid & _ & Hn).
  destruct (column_dated _ _ _ _ _ _ (eq_sym Hcj) Hk) as (id' & Hid' & _ & Hb).
  rewrite Hid in Hid'. injection Hid' as <-.
  eexists _, _. split; [exact Hn|]. split; [exact Hb|].
  apply weekend_iff_name.
Qed.

Lemma C9_witness :
  exists i j,
    col_index "dayofweek" (columns ex_df) = Some i
    /\ col_index "is_weekend" (columns ex_df) = Some j.
Proof.
  destruct (proj1 C9_is_weekend_iff_saturday_or_sunday ex_file ex_raw ex_df
              ltac:(vm_compute; reflexivity) ltac:(vm_compute; reflexivity))
    as (i & j & Hi & Hj & _).
  exists i, j. split; [exact Hi | exact Hj].
Defined.

(** ** The filter stage *)

Lemma isin_cell_true values c :
  isin_cell values c = true <-> exists y, c = CInt y /\ In y values.
Proof.
  destruct c; simpl; try (split; [discriminate | intros (y & Hy & _); discriminate]).
  rewrite existsb_exists. split.
  - intros (y & Hin & Hy%Z.eqb_eq). subst. now exists y.
  - intros (y & [= ->] & Hin). exists y. split; [exact Hin | apply Z.eqb_refl].
Qed.

Lemma mask_rows_isin i values rs :
  mask_rows rs (isin (column i rs) values)
  = List.filter (fun r => isin_cell values (cell_at i r)) rs.
Proof.
  induction rs as [|r rs IH]; simpl; [reflexivity|].
  destruct (isin_cell values (cell_at i r)); simpl; now rewrite IH.
Qed.

Lemma filter_sublist {A} (p : A -> bool) (l : list A) : sublist (List.filter p l) l.
Proof.
  induction l as [|x l IH]; simpl; [constructor|].
  destruct (p x); now constructor.
Qed.

Lemma filter_years_rows df Y i :
  col_index "year" (columns df) = Some i ->
  filter_years df Y
  = Ok (mkDF (columns df) (List.filter (fun r => isin_cell Y (cell_at i r)) (rows df))).
Proof.
  intros Hi. unfold filter_years. rewrite (getitem_column _ _ _ Hi), bind_ret_l.
  unfold getitem_mask. now rewrite mask_rows_isin.
Qed.

(** C6: on a table with a year column, filtering by a list of years returns
    the same columns and exactly the rows whose year is in the list, in
    their original order; the empty list gives the empty table. *)
Theorem C6_filter_by_years (df : DataFrame) (Y : list Z) (i : nat) :
  col_index "year" (columns df) = Some i ->
  exists out,
    filter_years df Y = Ok out
    /\ columns out = columns df
    /\ rows out = List.filter (fun r => isin_cell Y (cell_at i r)) (rows df)
    /\ sublist (rows out) (rows df)
    /\ (forall r, In r (rows out)
                  <-> In r (rows df) /\ exists y, cell_at i r = CInt y /\ In y Y)
    /\ (Y = [] -> rows out = []).
Proof.
  intros Hi. eexists. split; [exact (filter_years_rows _ _ _ Hi)|]. simpl.
  split; [reflexivity|]. split; [reflexivity|].
  split; [apply filter_sublist|]. split.
  - intros r. rewrite filter_In, isin_cell_true. reflexivity.
  - intros ->. induction (rows df) as [|r rs IH]; simpl; [reflexivity|].
    destruct (cell_at i r); simpl; exact IH.
Qed.

Lemma C6_witness :
  exists out,
    filter_years ex_df [2025] = Ok out
    /\ rows out = [(2, [CDate (mkDate 2025 3 1); CFloat 30%float; CInt 3; CInt 2025;
                        CStr "Saturday"; CBool true]);
                   (3, [CDate (mkDate 2025 3 2); CFloat 40%float; CInt 3; CInt 2025;
                        CStr "Sunday"; CBool true])].
Proof.
  destruct (C6_filter_by_years ex_df [2025] 3 eq_refl) as (out & Ho & _ & Hr & _).
  exists out. split; [exact Ho | exact Hr].
Defined.

(** ** The loader's choice of file *)

(** C1: with the 2025 file enumerated before the 2024 file, the loader
    parses the 2024 file, the last one of the enumeration, although the
    2025 file has the greater name. *)
Theorem C1_loader_reads_last_enumerated_file :
  glob fs_two_files "data" s_pattern ".csv"
  = ["data/설빙_search_trend_2025-01.csv"; "data/설빙_search_trend_2024-01.csv"]
  /\ String.ltb "data/설빙_search_trend_2024-01.csv" "data/설빙_search_trend_2025-01.csv"
     = true
  /\ exists df_s df_g raw_2024 raw_2025 df_2025,
       load_sulbing_data fs_two_files = Ok (Some (df_s, df_g))
       /\ read_csv file_2024 = Ok raw_2024 /\ derive_columns raw_2024 = Ok df_s
       /\ read_csv file_2025 = Ok raw_2025 /\ derive_columns raw_2025 = Ok df_2025
       /\ df_s <> df_2025.
Proof.
  split; [vm_compute; reflexivity|]. split; [vm_compute; reflexivity|].
  eexists _, _, _, _, _.
  split; [vm_compute; reflexivity|]. split; [vm_compute; reflexivity|].
  split; [vm_compute; reflexivity|]. split; [vm_compute; reflexivity|].
  split; [vm_compute; reflexivity|]. discriminate.
Qed.

(** ** The metric cards *)

Lemma filter_years_columns df Y out : filter_years df Y = Ok out -> columns out = columns df.
Proof. unfold filter_years. intros Hf. bindR Hf. now injection Hf as <-. Qed.

(** Without a common index label the correlation is NaN. *)
Lemma Series_corr_no_common_label (a b : Series) :
  align_inner a b = [] -> Series_corr a b = Ok nan.
Proof. intros Hp. unfold Series_corr. now rewrite Hp. Qed.

Section Metrics.
Context `{PyFormat}.

(** C2, as the code has it: on a table that is empty after year filtering
    the mean and the maximum are the float NaN (not zero, not an exception),
    and the metric cards show the text nan. *)
Theorem C2_empty_table_metrics_are_nan (df out : DataFrame) (Y : list Z) :
  filter_years df Y = Ok out -> rows out = [] -> In "ratio" (columns df) ->
  getitem out "ratio" = Ok []
  /\ Series_mean [] = Ok nan
  /\ Series_max [] = Ok nan
  /\ PrimFloat.is_nan nan = true
  /\ PrimFloat.eqb nan 0 = false
  /\ forall st x label,
       read_var st x = Ok out ->
       exec (metric_of label x Series_mean 2) st
       = Ok (mkState (heap st) (vars st) (next st) (page st ++ [Metric label "nan"]))
       /\ exec (metric_of label x Series_max 1) st
          = Ok (mkState (heap st) (vars st) (next st) (page st ++ [Metric label "nan"])).
Proof.
  intros Hf Hrows Hin.
  assert (Hg : getitem out "ratio" = Ok []).
  { destruct (col_index_In _ _ Hin) as [i Hi].
    rewrite <- (filter_years_columns _ _ _ Hf) in Hi.
    rewrite (getitem_column _ _ _ Hi), Hrows. reflexivity. }
  split; [exact Hg|]. repeat (split; [reflexivity|]).
  intros st x label Hx. unfold metric_of, exec.
  rewrite Hx, !bind_ret_l, Hg, !bind_ret_l. split; reflexivity.
Qed.

(** C4, at two series over disjoint days: the correlation card pairs the
    rows by index label and shows the number 1, while the join on the
    timestamp has no row. *)
Theorem C4_corr_pairs_rows_without_common_timestamp :
  exists df_s df_g s g a b,
    load_sulbing_data fs_disjoint_days = Ok (Some (df_s, df_g))
    /\ filter_years df_s [2024; 2025] = Ok s
    /\ filter_years df_g [2024; 2025] = Ok g
    /\ combined_of s g = Ok (mkDF ["period"; "ratio_s"; "ratio_g"] [])
    /\ getitem s "ratio" = Ok a /\ getitem g "ratio" = Ok b
    /\ Series_corr a b = Ok 1%float
    /\ PrimFloat.is_nan 1 = false
    /\ exists st, run (take 6 (dashboard [2024; 2025] "")) (loaded df_s df_g) = Ok st
                  /\ nth 3 (page st) (ErrorMessage "")
                     = Metric "상관계수 (R)" (format_f 3 1%float).
Proof.
  eexists _, _, _, _, _, _.
  split; [vm_compute; reflexivity|]. split; [vm_compute; reflexivity|].
  split; [vm_compute; reflexivity|]. split; [vm_compute; reflexivity|].
  split; [vm_compute; reflexivity|]. split; [vm_compute; reflexivity|].
  split; [vm_compute; reflexivity|]. split; [reflexivity|].
  eexists. split; [vm_compute; reflexivity|]. vm_compute. reflexivity.
Qed.

End Metrics.

Lemma C2_witness :
  getitem (mkDF (columns ex_df) []) "ratio" = Ok [] /\ Series_mean [] = Ok nan.
Proof.
  destruct (@C2_empty_table_metrics_are_nan ex_format ex_df (mkDF (columns ex_df) []) []
              eq_refl eq_refl ltac:(simpl; tauto)) as (Hg & Hm & _).
  split; [exact Hg | exact Hm].
Defined.

(** C2 as stated fails: the mean and the maximum of the table left by the
    empty year selection are NaN. *)
Lemma C2_counterexample :
  exists out r m x,
    filter_years ex_df [] = Ok out /\ rows out = []
    /\ getitem out "ratio" = Ok r
    /\ Series_mean r = Ok m /\ Series_max r = Ok x
    /\ PrimFloat.is_nan m = true /\ PrimFloat.is_nan x = true.
Proof.
  eexists _, _, _, _.
  split; [vm_compute; reflexivity|]. split; [reflexivity|].
  split; [vm_compute; reflexivity|]. split; [vm_compute; reflexivity|].
  split; [vm_compute; reflexivity|]. split; reflexivity.
Qed.

(** ** Grouping by weekday *)

Lemma mapR_In_r {A B} (f : A -> result B) l l' y :
  mapR f l = Ok l' -> In y l' -> exists x, In x l /\ f x = Ok y.
Proof.
  intros Hm%mapR_Forall2. induction Hm as [|x y' l l' Hxy _ IH]; simpl; [tauto|].
  intros [<-|Hy].
  - exists x. auto.
  - destruct (IH Hy) as (x' & Hx' & Hf). exists x'. auto.
Qed.

Lemma mapR_In_l {A B} (f : A -> result B) l l' x :
  mapR f l = Ok l' -> In x l -> exists y, In y l' /\ f x = Ok y.
Proof.
  intros Hm%mapR_Forall2. induction Hm as [|x' y l l' Hxy _ IH]; simpl; [tauto|].
  intros [<-|Hx].
  - exists y. auto.
  - destruct (IH Hx) as (y' & Hy' & Hf). exists y'. auto.
Qed.

Lemma cell_eqb_CStr c name : cell_eqb c (CStr name) = true <-> c = CStr name.
Proof.
  destruct c; simpl; try (split; discriminate).
  rewrite String.eqb_eq. split; congruence.
Qed.

Lemma insert_key_In g k ks : In g (insert_key k ks) -> g = k \/ In g ks.
Proof.
  induction ks as [|k' ks IH]; simpl.
  - intros [<-|[]]. now left.
  - destruct (cell_eqb k k'); [now right|].
    destruct (cell_leb k k'); simpl.
    + intros [<-|H]; auto.
    + intros [<-|H]; [auto|]. destruct (IH H); auto.
Qed.

Lemma insert_key_keeps g k ks : In g ks -> In g (insert_key k ks).
Proof.
  induction ks as [|k' ks IH]; simpl; [tauto|].
  intros Hg. destruct (cell_eqb k k'); [exact Hg|].
  destruct (cell_leb k k'); simpl; [now right|].
  destruct Hg as [->|Hg]; [now left | right; now apply IH].
Qed.

Lemma insert_key_has name ks : In (CStr name) (insert_key (CStr name) ks).
Proof.
  induction ks as [|k' ks IH]; simpl; [now left|].
  destruct k' as [y| | | |]; simpl; try (now left).
  destruct (String.eqb_spec name y) as [->|Hne]; [now left|].
  destruct (String.leb name y); simpl; [now left | now right].
Qed.

Lemma group_keys_In g l : In g (group_keys l) -> In g l.
Proof.
  unfold group_keys. induction l as [|c l IH]; simpl; [tauto|].
  destruct (negb (isna c)); simpl.
  - intros [->|Hg]%insert_key_In; auto.
  - auto.
Qed.

Lemma group_keys_has name l : In (CStr name) l -> In (CStr name) (group_keys l).
Proof.
  unfold group_keys. induction l as [|c l IH]; simpl; [tauto|].
  intros [->|Hin]; simpl.
  - apply insert_key_has.
  - destruct (negb (isna c)); simpl; [apply insert_key_keeps|]; now apply IH.
Qed.

Lemma zip_In_r {A B} (l : list A) (l' : list B) x : In x (zip l l') -> In x.2 l'.
Proof.
  revert l'. induction l as [|a l IH]; intros [|b l']; simpl; try tauto.
  intros [<-|Hx]; [now left | right; now apply IH].
Qed.

Lemma group_values_In g k v x : In x (group_values g k v) -> In x v.
Proof.
  unfold group_values. rewrite in_map_iff. intros (kv & <- & Hkv).
  apply filter_In in Hkv. destruct Hkv as [Hkv _]. exact (zip_In_r _ _ _ Hkv).
Qed.

Lemma values_float_total (s : Series) :
  (forall ic, In ic s -> exists f, to_float ic.2 = Ok f) ->
  exists fs, values_float s = Ok fs.
Proof.
  intros Hs. apply mapR_total. apply Forall_forall. intros ic Hic.
  apply Hs. now apply list_elem_of_In.
Qed.

Lemma Series_mean_total (s : Series) :
  (forall ic, In ic s -> exists f, to_float ic.2 = Ok f) ->
  exists m, Series_mean s = Ok m.
Proof.
  intros (fs & Hfs)%values_float_total. unfold Series_mean.
  rewrite Hfs, bind_ret_l. eexists. reflexivity.
Qed.

Lemma range_index_lookup {A} (l : list A) k :
  range_index l !! k = (fun x => (Z.of_nat k, x)) <$> (l !! k).
Proof. unfold range_index. rewrite list_lookup_imap. reflexivity. Qed.

(** C7: on a table with a weekday column and a numeric value column, the
    weekday means are seven rows, Monday to Sunday in this order; a weekday
    with no row has the missing value NaN, a weekday with rows the mean of
    their values. *)
Theorem C7_weekday_means_have_seven_ordered_buckets (df : DataFrame) (i j : nat) :
  col_index "dayofweek" (columns df) = Some i ->
  col_index "ratio" (columns df) = Some j ->
  (forall r, In r (rows df) -> exists f, to_float (cell_at j r) = Ok f) ->
  exists out,
    day_avg df = Ok out
    /\ columns out = ["dayofweek"; "ratio"]
    /\ List.length (rows out) = 7%nat
    /\ map (cell_at 0) (rows out)
       = [CStr "Monday"; CStr "Tuesday"; CStr "Wednesday"; CStr "Thursday";
          CStr "Friday"; CStr "Saturday"; CStr "Sunday"]
    /\ forall k name,
         DAYS_FULL !! k = Some name ->
         exists v,
           rows out !! k = Some (Z.of_nat k, [CStr name; v])
           /\ ((forall r, In r (rows df) -> cell_at i r <> CStr name) -> v = NaN)
           /\ ((exists r, In r (rows df) /\ cell_at i r = CStr name) ->
               exists m,
                 Series_mean (group_values (CStr name) (column i (rows df))
                                           (column j (rows df))) = Ok m
                 /\ v = CFloat m).
Proof.
  intros Hi Hj Hnum. unfold day_avg, groupby_agg.
  rewrite (getitem_column _ _ _ Hi), (getitem_column _ _ _ Hj), !bind_ret_l.
  set (kc := column i (rows df)). set (vc := column j (rows df)).
  assert (Hvc : forall ic, In ic vc -> exists f, to_float ic.2 = Ok f).
  { intros ic Hic. unfold vc, column in Hic. apply in_map_iff in Hic.
    destruct Hic as (r & <- & Hr). simpl. now apply Hnum. }
  destruct (mapR_total
              (fun g => x ← Series_mean (group_values g kc vc); Ok (g, CFloat x))
              (group_keys (map snd kc))) as [s Hs].
  { apply Forall_forall. intros g _.
    destruct (Series_mean_total (group_values g kc vc)) as [m Hm].
    - intros ic Hic. apply Hvc. eapply group_values_In, Hic.
    - rewrite Hm. eexists. reflexivity. }
  rewrite Hs, bind_ret_l. eexists. split; [reflexivity|]. simpl.
  split; [reflexivity|]. split; [reflexivity|]. split; [reflexivity|].
  intros k name Hk.
  exists (default NaN (lookup_key (CStr name) s)). split.
  - unfold reset_index. simpl rows. rewrite range_index_lookup.
    do 7 (destruct k as [|k]; [injection Hk as <-; reflexivity|]). discriminate.
  - assert (Hkeys : forall r, In r (rows df) -> In (cell_at i r) (map snd kc)).
    { intros r Hr. unfold kc, column. rewrite map_map. simpl.
      apply in_map_iff. now exists r. }
    split.
    + intros Hnone. unfold lookup_key.
      destruct (List.find _ s) as [kv|] eqn:Ef; [|reflexivity].
      exfalso. apply find_some in Ef. destruct Ef as [Hin Heq].
      apply cell_eqb_CStr in Heq.
      destruct (mapR_In_r _ _ _ _ Hs Hin) as (g & Hg & Hkv).
      bindR Hkv. injection Hkv as <-. simpl in Heq. subst g.
      apply group_keys_In in Hg. unfold kc, column in Hg. rewrite map_map in Hg.
      apply in_map_iff in Hg. destruct Hg as (r & Hr1 & Hr2). simpl in Hr1.
      now apply (Hnone r).
    + intros (r & Hr & Hname). unfold lookup_key.
      assert (Hg : In (CStr name) (group_keys (map snd kc))).
      { apply group_keys_has. rewrite <- Hname. now apply Hkeys. }
      destruct (mapR_In_l _ _ _ _ Hs Hg) as (kv & Hkv & Hf).
      bindR Hf. injection Hf as <-. rename a into m.
      destruct (List.find _ s) as [kv'|] eqn:Ef.
      * apply find_some in Ef. destruct Ef as [Hin Heq].
        apply cell_eqb_CStr in Heq.
        destruct (mapR_In_r _ _ _ _ Hs Hin) as (g & _ & Hkv').
        bindR Hkv'. injection Hkv' as <-. simpl in Heq. subst g.
        exists a. split; [exact E0 | reflexivity].
      * exfalso. apply (find_none _ _ Ef) in Hkv. simpl in Hkv.
        now rewrite String.eqb_refl in Hkv.
Qed.

Lemma C7_witness :
  exists out,
    day_avg ex_df = Ok out
    /\ rows out !! 0%nat = Some (0, [CStr "Monday"; NaN])
    /\ rows out !! 2%nat = Some (2, [CStr "Wednesday"; CFloat 10%float]).
Proof.
  destruct (C7_weekday_means_have_seven_ordered_buckets ex_df 4 1 eq_refl eq_refl)
    as (out & Ho & _ & _ & _ & Hb).
  - intros r Hr. simpl in Hr.
    destruct Hr as [<-|[<-|[<-|[<-|[]]]]]; eexists; reflexivity.
  - exists out. split; [exact Ho|].
    vm_compute in Ho. injection Ho as <-. split; reflexivity.
Defined.

(** ** The join behind the scatter chart *)

Lemma date_eqb_eq (a b : date) : date_eqb a b = true <-> a = b.
Proof.
  destruct a as [y m d], b as [y' m' d']. unfold date_eqb. simpl.
  rewrite !andb_true_iff, !Z.eqb_eq. split.
  - intros [[-> ->] ->]. reflexivity.
  - intros [= -> -> ->]. auto.
Qed.

Lemma select_two df x y i j :
  col_index x (columns df) = Some i -> col_index y (columns df) = Some j ->
  select df [x; y]
  = Ok (mkDF [x; y] (map (fun r => (r.1, [cell_at i r; cell_at j r])) (rows df))).
Proof. intros Hi Hj. unfold select. simpl. rewrite Hi, Hj. reflexivity. Qed.

Lemma combined_of_rows s g ps rs pg rg :
  col_index "period" (columns s) = Some ps -> col_index "ratio" (columns s) = Some rs ->
  col_index "period" (columns g) = Some pg -> col_index "ratio" (columns g) = Some rg ->
  combined_of s g
  = Ok (mkDF ["period"; "ratio_s"; "ratio_g"]
          (range_index (flat_map (join_rows ps rs pg rg (rows g)) (rows s)))).
Proof.
  intros Hps Hrs Hpg Hrg. unfold combined_of.
  rewrite (select_two _ _ _ _ _ Hps Hrs), (select_two _ _ _ _ _ Hpg Hrg), !bind_ret_l.
  unfold merge. simpl. do 3 f_equal.
  generalize (rows g) as right. intros right.
  induction (rows s) as [|a l IH]; simpl; [reflexivity|].
  rewrite IH. f_equal. unfold join_rows. clear IH.
  induction right as [|b l' IH']; simpl; [reflexivity|].
  change (cell_at 0 (a.1, [cell_at ps a; cell_at rs a])) with (cell_at ps a) in *.
  change (cell_at 0 (b.1, [cell_at pg b; cell_at rg b])) with (cell_at pg b).
  destruct (cell_eqb (cell_at ps a) (cell_at pg b)); simpl.
  - f_equal. apply IH'.
  - apply IH'.
Qed.

Lemma join_rows_In ps rs pg rg s g cells :
  In cells (flat_map (join_rows ps rs pg rg g) s)
  <-> exists a b, In a s /\ In b g
                  /\ cell_eqb (cell_at ps a) (cell_at pg b) = true
                  /\ cells = [cell_at ps a; cell_at rs a; cell_at rg b].
Proof.
  rewrite in_flat_map. unfold join_rows. split.
  - intros (a & Ha & Hc). apply in_map_iff in Hc. destruct Hc as (b & <- & Hb).
    apply filter_In in Hb. destruct Hb as [Hb He]. exists a, b. auto.
  - intros (a & b & Ha & Hb & He & ->). exists a. split; [exact Ha|].
    apply in_map_iff. exists b. split; [reflexivity|]. apply filter_In. auto.
Qed.

Lemma join_rows_none ps rs pg rg g a :
  (forall b, In b g -> cell_eqb (cell_at ps a) (cell_at pg b) = false) ->
  join_rows ps rs pg rg g a = [].
Proof.
  intros Hnone. unfold join_rows. induction g as [|b g IH]; simpl; [reflexivity|].
  rewrite (Hnone b) by now left. apply IH. intros b' Hb'. apply Hnone. now right.
Qed.

(** C10: the table of the scatter chart is the inner join of the two
    filtered tables on [period]: its rows are exactly the triples of a
    timestamp with a primary and a secondary value that carry it (equal
    dates, for date cells), and a row whose timestamp the other table lacks
    gives nothing; the correlation card instead pairs the values by index
    label, as the two series over disjoint days show. *)
Theorem C10_scatter_table_is_inner_join_on_period (s g : DataFrame) (ps rs pg rg : nat) :
  col_index "period" (columns s) = Some ps -> col_index "ratio" (columns s) = Some rs ->
  col_index "period" (columns g) = Some pg -> col_index "ratio" (columns g) = Some rg ->
  (exists out,
     combined_of s g = Ok out
     /\ columns out = ["period"; "ratio_s"; "ratio_g"]
     /\ map snd (rows out) = flat_map (join_rows ps rs pg rg (rows g)) (rows s)
     /\ (forall cells,
           In cells (map snd (rows out))
           <-> exists a b,
                 In a (rows s) /\ In b (rows g)
                 /\ cell_eqb (cell_at ps a) (cell_at pg b) = true
                 /\ cells = [cell_at ps a; cell_at rs a; cell_at rg b])
     /\ (forall a,
           (forall b, In b (rows g) -> cell_eqb (cell_at ps a) (cell_at pg b) = false) ->
           join_rows ps rs pg rg (rows g) a = []))
  /\ (forall d d', cell_eqb (CDate d) (CDate d') = true <-> d = d')
  /\ (exists df_s df_g s' g' a b,
        load_sulbing_data fs_disjoint_days = Ok (Some (df_s, df_g))
        /\ filter_years df_s [2024; 2025] = Ok s'
        /\ filter_years df_g [2024; 2025] = Ok g'
        /\ combined_of s' g' = Ok (mkDF ["period"; "ratio_s"; "ratio_g"] [])
        /\ getitem s' "ratio" = Ok a /\ getitem g' "ratio" = Ok b
        /\ align_inner a b
           = [(CFloat 13%float, CFloat 13%float); (CFloat 15%float, CFloat 15%float);
              (CFloat 2%float, CFloat 2%float)]).
Proof.
  intros Hps Hrs Hpg Hrg. split; [|split].
  - eexists. split; [exact (combined_of_rows _ _ _ _ _ _ Hps Hrs Hpg Hrg)|].
    simpl. split; [reflexivity|]. rewrite range_index_snd.
    split; [reflexivity|]. split; [intros cells; apply join_rows_In|].
    intros a. apply join_rows_none.
  - intros d d'. simpl. apply date_eqb_eq.
  - eexists _, _, _, _, _, _.
    split; [vm_compute; reflexivity|]. split; [vm_compute; reflexivity|].
    split; [vm_compute; reflexivity|]. split; [vm_compute; reflexivity|].
    split; [vm_compute; reflexivity|]. split; [vm_compute; reflexivity|].
    vm_compute. reflexivity.
Qed.

Lemma C10_witness :
  exists out,
    combined_of ex_df ex_df = Ok out /\ List.length (rows out) = 4%nat.
Proof.
  destruct (C10_scatter_table_is_inner_join_on_period ex_df ex_df 0 1 0 1
              eq_refl eq_refl eq_refl eq_refl) as [(out & Ho & _) _].
  exists out. split; [exact Ho|].
  vm_compute in Ho. injection Ho as <-. reflexivity.
Defined.

(** ** The search box *)

Lemma ci_prefix_spec q s :
  ci_prefix q s = true <-> exists mid post, s = mid ++ post /\ map lower mid = map lower q.
Proof.
  revert s. induction q as [|c q IH]; intros s; simpl.
  - split; [|reflexivity]. intros _. exists [], s. auto.
  - destruct s as [|x s].
    + split; [discriminate|]. intros (mid & post & Hs & Hm).
      destruct mid; [discriminate | discriminate].
    + rewrite andb_true_iff, Ascii.eqb_eq, IH. split.
      * intros (Hc & mid & post & -> & Hm). exists (x :: mid), post.
        simpl. split; [reflexivity | congruence].
      * intros (mid & post & Hs & Hm). destruct mid as [|y mid]; [discriminate|].
        simpl in Hs, Hm. injection Hs as -> ->. injection Hm as Hy Hm.
        split; [congruence|]. eauto.
Qed.

Lemma ci_substring_spec q s :
  ci_substring q s = true
  <-> exists pre mid post, s = pre ++ mid ++ post /\ map lower mid = map lower q.
Proof.
  induction s as [|x s IH]; simpl.
  - rewrite orb_false_r, ci_prefix_spec. split.
    + intros (mid & post & Hs & Hm). exists [], mid, post. auto.
    + intros (pre & mid & post & Hs & Hm).
      destruct pre; [|discriminate]. exists mid, post. auto.
  - rewrite orb_true_iff, ci_prefix_spec, IH. split.
    + intros [(mid & post & Hs & Hm) | (pre & mid & post & -> & Hm)].
      * exists [], mid, post. auto.
      * exists (x :: pre), mid, post. auto.
    + intros (pre & mid & post & Hs & Hm). destruct pre as [|y pre].
      * left. exists mid, post. auto.
      * right. simpl in Hs. injection Hs as -> ->. exists pre, mid, post. auto.
Qed.

Lemma literal_substring_cib_spec q s :
  literal_substring_cib q s = true <-> literal_substring_ci q s.
Proof. unfold literal_substring_cib, literal_substring_ci. apply ci_substring_spec. Qed.

Lemma mapR_map {A B} (f : A -> result B) (g : A -> B) (l : list A) :
  (forall x, In x l -> f x = Ok (g x)) -> mapR f l = Ok (map g l).
Proof.
  induction l as [|x l IH]; intros Hf; simpl; [reflexivity|].
  rewrite Hf by now left. rewrite bind_ret_l, IH; [reflexivity|].
  intros y Hy. apply Hf. now right.
Qed.

Lemma re_compile_plain q :
  plain_query q = true -> re_compile q = Ok (map Lit (list_ascii_of_string q)).
Proof.
  unfold plain_query, re_compile. intros Hq. apply mapR_map. intros c Hc.
  rewrite forallb_forall in Hq. specialize (Hq c Hc). unfold plain_char in Hq.
  apply andb_true_iff in Hq. destruct Hq as [Hq Hs].
  apply andb_true_iff in Hq. destruct Hq as [Ha Hd].
  unfold re_compile_char.
  destruct (Ascii.eqb c "."); [discriminate|].
  destruct (existsb (Ascii.eqb c) re_special); [discriminate|].
  now rewrite Ha.
Qed.

Lemma match_here_Lit q s : match_here (map Lit q) s = ci_prefix q s.
Proof.
  revert s. induction q as [|c q IH]; intros [|x s]; simpl; try reflexivity.
  now rewrite IH.
Qed.

Lemma re_search_Lit q s : re_search (map Lit q) s = ci_substring q s.
Proof.
  induction s as [|x s IH]; simpl; rewrite match_here_Lit; [reflexivity|].
  now rewrite IH.
Qed.

Lemma mask_rows_map (f : Z * list cell -> bool) rs :
  mask_rows rs (map (fun r => (r.1, CBool (f r))) rs) = List.filter f rs.
Proof.
  induction rs as [|r rs IH]; simpl; [reflexivity|].
  destruct (f r); now rewrite IH.
Qed.

Section Search.
Context `{PyFormat}.

Lemma contains_any_plain T q :
  plain_query q = true ->
  (forall r c, In r (rows T) -> In c r.2 -> ascii_text (str_of_cell c) = true) ->
  contains_any T q = Ok (map (fun r => (r.1, CBool (row_has q r))) (rows T)).
Proof.
  intros Hq Hascii. unfold contains_any.
  rewrite (re_compile_plain _ Hq), bind_ret_l.
  apply mapR_map. intros r Hr.
  rewrite (mapR_map _ (fun c => literal_substring_cib q (str_of_cell c))).
  - rewrite bind_ret_l. unfold row_has. do 3 f_equal.
    induction r.2 as [|c l IH]; simpl; [reflexivity|]. now rewrite IH.
  - intros c Hc. unfold str_contains.
    specialize (Hascii r c Hr Hc). unfold ascii_text in Hascii. rewrite Hascii.
    unfold literal_substring_cib. now rewrite re_search_Lit.
Qed.


End Search.

Lemma ascii_table_forallb `{PyFormat} (T : DataFrame) :
  forallb (fun r => forallb (fun c => ascii_text (str_of_cell c)) r.2) (rows T) = true ->
  forall r c, In r (rows T) -> In c r.2 -> ascii_text (str_of_cell c) = true.
Proof.
  intros HT r c Hr Hc. rewrite forallb_forall in HT. specialize (HT r Hr).
  rewrite forallb_forall in HT. now apply HT.
Qed.



(** ** Objects of the script *)

Lemma script_inv_loaded df_s df_g : script_inv df_s df_g (loaded df_s df_g).
Proof.
  unfold script_inv, loaded. simpl.
  split; [lia|]. split.
  { intros l [df Hl].
    destruct (decide (l = 1%nat)) as [->|H1]; [lia|].
    rewrite lookup_insert_ne in Hl by congruence.
    destruct (decide (l = 0%nat)) as [->|H0]; [lia|].
    rewrite lookup_insert_ne in Hl by congruence.
    rewrite lookup_empty in Hl. discriminate. }
  split; [reflexivity|]. split; [reflexivity|].
  split; [reflexivity|]. split; [reflexivity|].
  intros x l Hx _.
  destruct (decide (x = "df_g")) as [->|Hg]; [now right|].
  rewrite lookup_insert_ne in Hx by congruence.
  destruct (decide (x = "df_s")) as [->|Hs]; [now left|].
  rewrite lookup_insert_ne in Hx by congruence.
  rewrite lookup_empty in Hx. discriminate.
Qed.

Lemma keeps_loaded_target s x :
  keeps_loaded s = true -> target s = Some x -> x <> "df_s" /\ x <> "df_g".
Proof.
  unfold keeps_loaded. intros Hk Ht. rewrite Ht in Hk.
  apply andb_true_iff in Hk. destruct Hk as [Hs Hg].
  split; intros ->; simpl in *; discriminate.
Qed.

Lemma read_var_Ok st x df :
  read_var st x = Ok df -> exists l, vars st !! x = Some l /\ heap st !! l = Some df.
Proof.
  unfold read_var. destruct (vars st !! x) as [l|]; [|discriminate].
  destruct (heap st !! l) as [df'|] eqn:E; [|discriminate].
  intros [= <-]. now exists l.
Qed.

Lemma exec_inv df_s df_g s st st' :
  keeps_loaded s = true -> script_inv df_s df_g st -> exec s st = Ok st' ->
  script_inv df_s df_g st'.
Proof.
  intros Hk (Hn & Hfresh & Hvs & Hvg & Hhs & Hhg & Halias) Hex.
  destruct s as [x e | x f | e]; simpl in Hex.
  - destruct (keeps_loaded_target _ x Hk eq_refl) as [Hxs Hxg].
    bindR Hex. injection Hex as <-. unfold script_inv. simpl.
    split; [lia|]. split.
    { intros l Hl. destruct (decide (l = next st)) as [->|Hne]; [lia|].
      rewrite lookup_insert_ne in Hl by congruence. specialize (Hfresh l Hl). lia. }
    rewrite !lookup_insert_ne by congruence.
    rewrite !lookup_insert_ne by lia.
    repeat (split; [assumption|]).
    intros y l Hy Hl. destruct (decide (y = x)) as [->|Hyx].
    + rewrite lookup_insert_eq in Hy. injection Hy as <-. lia.
    + rewrite lookup_insert_ne in Hy by congruence. eapply Halias; eassumption.
  - destruct (keeps_loaded_target _ x Hk eq_refl) as [Hxs Hxg].
    destruct (vars st !! x) as [l|] eqn:Hx; [|discriminate].
    bindR Hex. bindR Hex. injection Hex as <-. unfold script_inv. simpl.
    assert (Hl : (2 <= l)%nat).
    { destruct (le_lt_dec 2 l) as [?|Hlt]; [assumption|].
      destruct (Halias x l Hx Hlt); congruence. }
    split; [lia|]. split.
    { intros l' Hl'. destruct (decide (l' = l)) as [->|Hne].
      - apply Hfresh. apply read_var_Ok in E. destruct E as (l0 & Hl0 & Hdf).
        rewrite Hx in Hl0. injection Hl0 as <-. eauto.
      - rewrite lookup_insert_ne in Hl' by congruence. now apply Hfresh. }
    rewrite !lookup_insert_ne by lia.
    repeat (split; [assumption|]). exact Halias.
  - bindR Hex. injection Hex as <-. unfold script_inv. simpl.
    repeat (split; [assumption|]). exact Halias.
Qed.

Lemma run_inv df_s df_g script st st' :
  Forall (fun s => keeps_loaded s = true) script ->
  script_inv df_s df_g st -> run script st = Ok st' -> script_inv df_s df_g st'.
Proof.
  intros Hall. revert st. induction Hall as [|s script Hs _ IH]; intros st Hinv Hrun.
  - simpl in Hrun. now injection Hrun as <-.
  - simpl in Hrun. bindR Hrun. eapply IH; [|exact Hrun].
    eapply exec_inv; eassumption.
Qed.

(** The two column assignments set the column [quarter] to a Series over
    the index of the frame. *)
Lemma quarter_assignment df df' f :
  f = assign_quarter \/ f = label_quarter ->
  f df = Ok df' ->
  exists qs, df' = setitem df "quarter" qs /\ map fst qs = map fst (rows df).
Proof.
  intros [-> | ->] Hf.
  - unfold assign_quarter in Hf. bindR Hf. bindR Hf. injection Hf as <-.
    exists a0. split; [reflexivity|].
    unfold dt_quarter, dt, map_series in E0.
    apply getitem_index in E. rewrite <- E.
    clear -E0. apply mapR_Forall2 in E0.
    induction E0 as [|x y l l' Hxy _ IH]; simpl; [reflexivity|].
    bindR Hxy. injection Hxy as <-. simpl. now rewrite IH.
  - unfold label_quarter in Hf. bindR Hf. bindR Hf. injection Hf as <-.
    exists a0. split; [reflexivity|].
    unfold map_series in E0.
    apply getitem_index in E. rewrite <- E.
    clear -E0. apply mapR_Forall2 in E0.
    induction E0 as [|x y l l' Hxy _ IH]; simpl; [reflexivity|].
    bindR Hxy. injection Hxy as <-. simpl. now rewrite IH.
Qed.

Section Objects.
Context `{PyFormat}.
Variable year_filter : list Z.
Variable search_query : string.

Lemma dashboard_keeps_loaded :
  Forall (fun s => keeps_loaded s = true) (dashboard year_filter search_query).
Proof. unfold dashboard, metric_of, plot_of. repeat constructor. Qed.

Lemma dashboard_column_assignments n x f :
  dashboard year_filter search_query !! n = Some (SetColumn x f) ->
  (n = 10%nat /\ x = "df_s_filtered" /\ f = assign_quarter)
  \/ (n = 12%nat /\ x = "q_sum" /\ f = label_quarter).
Proof.
  unfold dashboard, metric_of, plot_of.
  do 23 (destruct n as [|n]; [simpl; intros [=]; subst; auto|]).
  simpl. discriminate.
Qed.

(** C5, as the code has it: after the load, the loaded tables [df_s] and
    [df_g] are never changed and every assignment of a table binds a new
    object; the only changes in place are the column assignments of lines
    191 and 193, which set the column [quarter] of the derived tables
    [df_s_filtered] and [q_sum], keeping their index and their other
    columns. *)
Theorem C5_tables_change_only_by_two_column_assignments
    (df_s df_g : DataFrame) (n : nat) (st st' : State) (s : stmt) :
  run (take n (dashboard year_filter search_query)) (loaded df_s df_g) = Ok st ->
  dashboard year_filter search_query !! n = Some s ->
  exec s st = Ok st' ->
  read_var st' "df_s" = Ok df_s
  /\ read_var st' "df_g" = Ok df_g
  /\ (forall x e, s = Assign x e ->
        heap st !! next st = None
        /\ vars st' !! x = Some (next st)
        /\ exists df, e st = Ok df /\ heap st' !! next st = Some df)
  /\ forall l df, heap st !! l = Some df ->
       heap st' !! l = Some df
       \/ exists x f df',
            s = SetColumn x f /\ vars st !! x = Some l
            /\ f df = Ok df' /\ heap st' !! l = Some df'
            /\ ((n = 10%nat /\ x = "df_s_filtered" /\ f = assign_quarter)
                \/ (n = 12%nat /\ x = "q_sum" /\ f = label_quarter))
            /\ map fst (rows df') = map fst (rows df)
            /\ (wf_frame df ->
                forall m, m <> "quarter" -> getitem df' m = getitem df m).
Proof.
  intros Hrun Hs Hex.
  assert (Hinv : script_inv df_s df_g st).
  { eapply run_inv; [|apply script_inv_loaded|exact Hrun].
    apply Forall_take, dashboard_keeps_loaded. }
  assert (Hk : keeps_loaded s = true).
  { pose proof dashboard_keeps_loaded as Hall. rewrite Forall_forall in Hall.
    apply Hall. eapply list_elem_of_lookup_2, Hs. }
  pose proof (exec_inv _ _ _ _ _ Hk Hinv Hex) as Hinv'.
  destruct Hinv as (Hn & Hfresh & Hvs & Hvg & Hhs & Hhg & Halias).
  destruct Hinv' as (_ & _ & Hvs' & Hvg' & Hhs' & Hhg' & _).
  split; [unfold read_var; now rewrite Hvs', Hhs'|].
  split; [unfold read_var; now rewrite Hvg', Hhg'|].
  assert (Hnone : heap st !! next st = None).
  { destruct (heap st !! next st) eqn:E; [|reflexivity].
    assert (next st < next st)%nat by (apply Hfresh; eauto). lia. }
  split.
  - intros x e ->. simpl in Hex. bindR Hex. injection Hex as <-. simpl.
    split; [exact Hnone|]. split; [apply lookup_insert_eq|].
    exists a. split; [exact E | apply lookup_insert_eq].
  - intros l df Hl. destruct s as [x e | x f | e]; simpl in Hex.
    + left. bindR Hex. injection Hex as <-. simpl.
      rewrite lookup_insert_ne; [exact Hl|]. intros <-. congruence.
    + destruct (vars st !! x) as [l0|] eqn:Hx; [|discriminate].
      bindR Hex. bindR Hex. injection Hex as <-. simpl.
      destruct (decide (l = l0)) as [->|Hne];
        [|left; rewrite lookup_insert_ne by congruence; exact Hl].
      right. apply read_var_Ok in E. destruct E as (l1 & Hl1 & Hdf).
      rewrite Hx in Hl1. injection Hl1 as <-. rewrite Hl in Hdf. injection Hdf as <-.
      exists x, f, a0. split; [reflexivity|]. split; [exact Hx|].
      split; [exact E0|]. split; [apply lookup_insert_eq|].
      pose proof (dashboard_column_assignments _ _ _ Hs) as Hwhich.
      split; [exact Hwhich|].
      assert (Hf : f = assign_quarter \/ f = label_quarter)
        by (destruct Hwhich as [(_ & _ & ->) | (_ & _ & ->)]; auto).
      destruct (quarter_assignment _ _ _ Hf E0) as (qs & -> & Hqs).
      split.
      * apply setitem_index. eapply map_fst_length, Hqs.
      * intros Hwf m Hm. apply getitem_setitem_ne; [exact Hwf| |exact Hm].
        eapply map_fst_length, Hqs.
    + left. bindR Hex. injection Hex as <-. exact Hl.
Qed.

End Objects.

Lemma C5_witness :
  exists st st',
    run (take 10 (@dashboard ex_format [2024; 2025] "")) (loaded ex_df ex_df) = Ok st
    /\ exec (SetColumn "df_s_filtered" assign_quarter) st = Ok st'
    /\ read_var st' "df_s" = Ok ex_df.
Proof.
  destruct (run (take 10 (@dashboard ex_format [2024; 2025] "")) (loaded ex_df ex_df))
    as [st|e] eqn:E1; [|vm_compute in E1; discriminate].
  destruct (exec (SetColumn "df_s_filtered" assign_quarter) st) as [st'|e] eqn:E2.
  - exists st, st'. split; [reflexivity|]. split; [exact E2|].
    exact (proj1 (@C5_tables_change_only_by_two_column_assignments ex_format
                    [2024; 2025] "" ex_df ex_df 10 st st' _ E1 eq_refl E2)).
  - exfalso. vm_compute in E1. injection E1 as <-. vm_compute in E2. discriminate.
Defined.

(** C5 as stated fails: line 191 adds the column [quarter] to the object
    that [df_s_filtered] has been bound to since line 116. *)
Lemma C5_counterexample :
  exists st st' l df df',
    run (take 10 (@dashboard ex_format [2024; 2025] "")) (loaded ex_df ex_df) = Ok st
    /\ @dashboard ex_format [2024; 2025] "" !! 10%nat
       = Some (SetColumn "df_s_filtered" assign_quarter)
    /\ exec (SetColumn "df_s_filtered" assign_quarter) st = Ok st'
    /\ vars st !! "df_s_filtered" = Some l
    /\ vars st' !! "df_s_filtered" = Some l
    /\ heap st !! l = Some df /\ heap st' !! l = Some df'
    /\ columns df = ["period"; "ratio"; "month"; "year"; "dayofweek"; "is_weekend"]
    /\ columns df'
       = ["period"; "ratio"; "month"; "year"; "dayofweek"; "is_weekend"; "quarter"].
Proof.
  eexists _, _, _, _, _.
  split; [vm_compute; reflexivity|]. split; [reflexivity|].
  split; [vm_compute; reflexivity|]. split; [vm_compute; reflexivity|].
  split; [vm_compute; reflexivity|]. split; [vm_compute; reflexivity|].
  split; [vm_compute; reflexivity|]. split; reflexivity.
Qed.

(** ** ISO texts of dates *)

Lemma digit_of_ascii_of_digit k :
  0 <= k <= 9 -> digit_of_ascii (ascii_of_digit k) = Some k.
Proof.
  intros Hk.
  assert (Hc : k = 0 \/ k = 1 \/ k = 2 \/ k = 3 \/ k = 4 \/ k = 5 \/ k = 6 \/ k = 7
               \/ k = 8 \/ k = 9) by lia.
  destruct Hc as [-> | [-> | [-> | [-> | [-> | [-> | [-> | [-> | [-> | ->]]]]]]]]];
    reflexivity.
Qed.

Lemma number_of_two_digits z :
  0 <= z <= 99 -> number_of_digits (two_digits z) = Some z.
Proof.
  intros Hz. unfold number_of_digits, two_digits. simpl.
  rewrite !digit_of_ascii_of_digit by (Z.div_mod_to_equations; lia).
  simpl. f_equal. Z.div_mod_to_equations. lia.
Qed.

Lemma number_of_four_digits z :
  0 <= z <= 9999 -> number_of_digits (four_digits z) = Some z.
Proof.
  intros Hz. unfold number_of_digits, four_digits. simpl.
  rewrite !digit_of_ascii_of_digit by (Z.div_mod_to_equations; lia).
  simpl. f_equal. Z.div_mod_to_equations. lia.
Qed.

Lemma get_days_in_month_le y m : 1 <= m <= 12 -> get_days_in_month y m <= 31.
Proof.
  intros Hm. unfold get_days_in_month.
  destruct ((m =? 2) && is_leapyear y); [lia|].
  assert (Hc : m = 1 \/ m = 2 \/ m = 3 \/ m = 4 \/ m = 5 \/ m = 6 \/ m = 7 \/ m = 8
               \/ m = 9 \/ m = 10 \/ m = 11 \/ m = 12) by lia.
  destruct Hc as [-> | [-> | [-> | [-> | [-> | [-> | [-> | [-> | [-> | [-> | [-> | ->]]]]]]]]]]];
    simpl; lia.
Qed.

Lemma valid_date_bounds d :
  valid_date d = true ->
  1678 <= d_year d <= 2261 /\ 1 <= d_month d <= 12 /\ 1 <= d_day d <= 31.
Proof.
  unfold valid_date, year_in_bounds. rewrite !andb_true_iff, !Z.leb_le.
  intros [[[[[Hy1 Hy2] Hm1] Hm2] Hd1] Hd2].
  pose proof (get_days_in_month_le (d_year d) (d_month d) ltac:(lia)). lia.
Qed.

Lemma parse_iso_isoformat d : valid_date d = true -> parse_iso (isoformat d) = Some d.
Proof.
  intros Hv. destruct (valid_date_bounds d Hv) as (Hy & Hm & Hd).
  unfold parse_iso, isoformat. rewrite list_ascii_of_string_of_list_ascii.
  unfold four_digits, two_digits. cbn [app].
  change ((if ("-" =? "-")%char && ("-" =? "-")%char
           then number_of_digits (four_digits (d_year d))
                  ≫= (fun y => number_of_digits (two_digits (d_month d))
                  ≫= (fun m => number_of_digits (two_digits (d_day d))
                  ≫= (fun d0 => Some (mkDate y m d0))))
           else None) = Some d).
  rewrite number_of_four_digits by lia.
  rewrite !number_of_two_digits by lia.
  destruct d; reflexivity.
Qed.

Lemma to_datetime_cell_isoformat d :
  valid_date d = true -> to_datetime_cell (CStr (isoformat d)) = Ok (CDate d).
Proof.
  intros Hv. unfold to_datetime_cell. rewrite (parse_iso_isoformat d Hv), Hv.
  destruct (valid_date_bounds d Hv) as (Hy & _).
  unfold year_in_bounds.
  destruct (Z.leb_spec 1678 (d_year d)); [|lia].
  destruct (Z.leb_spec (d_year d) 2261); [|lia]. reflexivity.
Qed.

(** ** Export and reload *)

Lemma imap_map_pair {A B} (h : A -> B) (f : nat -> Z) (l : list A) :
  imap (fun i x => (f i, x)) (map h l)
  = map (fun kx => (kx.1, h kx.2)) (imap (fun i x => (f i, x)) l).
Proof.
  revert f. induction l as [|x l IH]; intros f; simpl; [reflexivity|].
  f_equal. apply (IH (fun i => f (S i))).
Qed.

Lemma range_index_map {A B} (h : A -> B) (l : list A) :
  range_index (map h l) = map (fun kx => (kx.1, h kx.2)) (range_index l).
Proof. unfold range_index. apply (imap_map_pair h Z.of_nat). Qed.

Lemma range_index_In {A} (l : list A) kx : In kx (range_index l) -> In kx.2 l.
Proof.
  intros Hin. rewrite <- (range_index_snd l). apply in_map_iff. now exists kx.
Qed.

Lemma map_series_map {A} f (h h' : A -> cell) (L : list (Z * A)) :
  (forall kx, In kx L -> f (h kx.2) = Ok (h' kx.2)) ->
  map_series f (map (fun kx => (kx.1, h kx.2)) L)
  = Ok (map (fun kx => (kx.1, h' kx.2)) L).
Proof.
  unfold map_series. induction L as [|kx L IH]; intros Hf; simpl; [reflexivity|].
  rewrite Hf by now left. rewrite !bind_ret_l, IH; [reflexivity|].
  intros kx' Hkx'. apply Hf. now right.
Qed.

Lemma read_csv_to_csv T :
  (forall r, In r (rows T) -> (List.length r.2 <= List.length (columns T))%nat) ->
  read_csv (to_csv T)
  = Ok (mkDF (columns T)
          (range_index (map (fun r => reread (List.length (columns T)) r.2) (rows T)))).
Proof.
  intros Hlen. unfold read_csv, to_csv. simpl.
  rewrite (mapR_map _ (fun rec => map cell_of_field rec
                          ++ replicate (List.length (columns T) - List.length rec) NaN)).
  - rewrite bind_ret_l, map_map. reflexivity.
  - intros rec Hrec. apply in_map_iff in Hrec. destruct Hrec as (r & <- & Hr).
    unfold read_record. rewrite length_map.
    destruct (Nat.ltb_spec (List.length (columns T)) (List.length r.2)) as [Hlt|_].
    + specialize (Hlen r Hr). lia.
    + reflexivity.
Qed.

Lemma cell_at_date_lookup ip (r : Z * list cell) d :
  cell_at ip r = CDate d -> r.2 !! ip = Some (CDate d).
Proof.
  unfold cell_at. intros Hc.
  destruct (nth_lookup_or_length r.2 ip NaN) as [Hl|Hl].
  - now rewrite Hc in Hl.
  - rewrite nth_overflow in Hc by lia. discriminate.
Qed.

Lemma reread_date w ip (r : Z * list cell) d :
  cell_at ip r = CDate d -> nth ip (reread w r.2) NaN = CStr (isoformat d).
Proof.
  intros Hc%cell_at_date_lookup. unfold reread. rewrite nth_lookup.
  rewrite lookup_app_l.
  - rewrite !lookup_map, Hc. reflexivity.
  - rewrite !length_map. eapply lookup_lt_Some, Hc.
Qed.

Lemma add_column_In n cols : In n cols -> add_column n cols = cols.
Proof.
  intros Hin. unfold add_column. destruct (col_index_In _ _ Hin) as [i ->]. reflexivity.
Qed.

Lemma filter_all {A} (f : A -> bool) (l : list A) :
  (forall x, In x l -> f x = true) -> List.filter f l = l.
Proof.
  induction l as [|x l IH]; intros Hf; simpl; [reflexivity|].
  rewrite Hf by now left. f_equal. apply IH. intros y Hy. apply Hf. now right.
Qed.

Lemma reload_exportable Y T :
  exportable Y T ->
  exists T',
    reload T Y = Ok T'
    /\ List.length (rows T') = List.length (rows T)
    /\ columns T' = columns T.
Proof.
  intros (Hnames & ip & Hip & Hrows).
  assert (Hread := read_csv_to_csv T (fun r Hr => proj1 (Hrows r Hr))).
  unfold reload. rewrite Hread, bind_ret_l.
  set (w := List.length (columns T)) in *.
  set (raw := mkDF (columns T) (range_index (map (fun r => reread w r.2) (rows T)))) in *.
  assert (Hwf : wf_frame raw) by exact (read_csv_wf _ _ Hread).
  set (L := range_index (rows T)).
  assert (Hraw : rows raw = map (fun kx => (kx.1, reread w kx.2.2)) L).
  { unfold raw. simpl. now rewrite range_index_map. }
  assert (Hdate : forall kx, In kx L ->
            cell_at ip kx.2 = CDate (date_at ip kx.2)
            /\ valid_date (date_at ip kx.2) = true
            /\ In (d_year (date_at ip kx.2)) Y).
  { intros kx Hkx. destruct (Hrows kx.2 (range_index_In _ _ Hkx)) as (_ & d & Hd & Hv & Hy).
    unfold date_at. rewrite Hd. auto. }
  set (ds := map (fun kx => (kx.1, date_at ip kx.2)) L).
  assert (Hp : getitem raw "period"
               = Ok (map (fun kx => (kx.1, CStr (isoformat (date_at ip kx.2)))) L)).
  { rewrite (getitem_column raw _ ip Hip). f_equal. unfold column.
    rewrite Hraw, map_map. apply map_ext_in. intros kx Hkx. simpl. f_equal.
    destruct (Hdate kx Hkx) as (Hd & _).
    exact (reread_date w ip kx.2 _ Hd). }
  assert (Ht : to_datetime (map (fun kx => (kx.1, CStr (isoformat (date_at ip kx.2)))) L)
               = Ok (dated CDate ds)).
  { unfold to_datetime, dated, ds. rewrite map_map.
    apply (map_series_map to_datetime_cell
             (fun r => CStr (isoformat (date_at ip r)))
             (fun r => CDate (date_at ip r))).
    intros kx Hkx. apply to_datetime_cell_isoformat. now apply Hdate. }
  destruct (derive_columns_dated raw _ ds Hwf Hp Ht) as (df & Hdf & D).
  { unfold ds. rewrite Hraw, !map_map. reflexivity. }
  { unfold ds. apply Forall_forall. intros id Hid. apply list_elem_of_In in Hid.
    apply in_map_iff in Hid. destruct Hid as (kx & <- & Hkx). now apply Hdate. }
  rewrite Hdf, bind_ret_l.
  destruct (getitem_Ok _ _ _ (der_year _ _ _ D)) as (iy & Hiy & Hcy).
  rewrite (filter_years_rows _ _ _ Hiy). eexists. split; [reflexivity|]. simpl. split.
  - rewrite filter_all.
    + rewrite (map_fst_length _ _ (der_rows _ _ _ D)), Hraw, length_map.
      unfold L. apply range_index_length.
    + intros r Hr. apply list_elem_of_In, list_elem_of_lookup in Hr. destruct Hr as [k Hk].
      destruct (column_dated _ _ _ _ _ _ (eq_sym Hcy) Hk) as (id & Hid & _ & Hc).
      rewrite Hc. apply list_elem_of_lookup_2, list_elem_of_In in Hid.
      unfold ds in Hid. apply in_map_iff in Hid. destruct Hid as (kx & <- & Hkx).
      simpl. apply existsb_exists. exists (d_year (date_at ip kx.2)).
      split; [now apply Hdate | apply Z.eqb_refl].
  - rewrite (der_columns _ _ _ D). simpl columns.
    rewrite (add_column_In "period") by (apply Hnames; simpl; tauto).
    rewrite (add_column_In "month") by (apply Hnames; simpl; tauto).
    rewrite (add_column_In "year") by (apply Hnames; simpl; tauto).
    rewrite (add_column_In "dayofweek") by (apply Hnames; simpl; tauto).
    rewrite (add_column_In "is_weekend") by (apply Hnames; simpl; tauto).
    reflexivity.
Qed.

Lemma derived_names_In raw df ds n :
  derived raw df ds -> In n derived_names -> In n (columns df).
Proof.
  intros D Hn. simpl in Hn.
  destruct Hn as [<-|[<-|[<-|[<-|[<-|[]]]]]].
  - destruct (getitem_Ok _ _ _ (der_period _ _ _ D)) as (i & Hi & _).
    eapply col_index_Some_In, Hi.
  - destruct (getitem_Ok _ _ _ (der_month _ _ _ D)) as (i & Hi & _).
    eapply col_index_Some_In, Hi.
  - destruct (getitem_Ok _ _ _ (der_year _ _ _ D)) as (i & Hi & _).
    eapply col_index_Some_In, Hi.
  - destruct (getitem_Ok _ _ _ (der_dayofweek _ _ _ D)) as (i & Hi & _).
    eapply col_index_Some_In, Hi.
  - destruct (getitem_Ok _ _ _ (der_is_weekend _ _ _ D)) as (i & Hi & _).
    eapply col_index_Some_In, Hi.
Qed.

Lemma filter_years_dated raw df ds Y s :
  derived raw df ds -> filter_years df Y = Ok s ->
  dated_frame (fun d => In (d_year d) Y) s.
Proof.
  intros D Hf.
  destruct (getitem_Ok _ _ _ (der_period _ _ _ D)) as (ip & Hip & Hcp).
  destruct (getitem_Ok _ _ _ (der_year _ _ _ D)) as (iy & Hiy & Hcy).
  rewrite (filter_years_rows _ _ _ Hiy) in Hf. injection Hf as <-.
  unfold dated_frame. simpl. split; [|split].
  - unfold wf_frame. simpl. apply Forall_forall. intros r Hr.
    apply list_elem_of_In, filter_In in Hr. destruct Hr as [Hr _].
    pose proof (der_wf _ _ _ D) as Hwf. unfold wf_frame in Hwf.
    rewrite Forall_forall in Hwf. apply Hwf. now apply list_elem_of_In.
  - intros n Hn. eapply derived_names_In; eassumption.
  - exists ip. split; [exact Hip|]. intros r Hr.
    apply filter_In in Hr. destruct Hr as [Hr Hy].
    apply list_elem_of_In, list_elem_of_lookup in Hr. destruct Hr as [k Hk].
    destruct (column_dated _ _ _ _ _ _ (eq_sym Hcp) Hk) as (id & Hid & _ & Hc).
    destruct (column_dated _ _ _ _ _ _ (eq_sym Hcy) Hk) as (id' & Hid' & _ & Hc').
    rewrite Hid in Hid'. injection Hid' as <-.
    exists id.2. split; [exact Hc|]. split.
    + pose proof (der_valid _ _ _ D) as Hv. rewrite Forall_forall in Hv.
      apply Hv. eapply list_elem_of_lookup_2, Hid.
    + rewrite Hc' in Hy. apply isin_cell_true in Hy.
      destruct Hy as (y & [= <-] & Hin). exact Hin.
Qed.

Lemma assign_quarter_dated P s s' :
  dated_frame P s -> assign_quarter s = Ok s' -> dated_frame P s'.
Proof.
  intros (Hwf & Hnames & ip & Hip & Hrows) Hq.
  destruct (quarter_assignment s s' assign_quarter (or_introl eq_refl) Hq)
    as (qs & -> & Hqs).
  assert (Hlen : List.length qs = List.length (rows s)) by (eapply map_fst_length, Hqs).
  assert (Hcols : forall n, In n (columns s) -> In n (columns (setitem s "quarter" qs))).
  { intros n Hn. rewrite setitem_columns.
    destruct (col_index "quarter" (columns s)); [exact Hn|].
    apply in_or_app. now left. }
  assert (Hip' : col_index "period" (columns (setitem s "quarter" qs)) = Some ip).
  { rewrite setitem_columns. destruct (col_index "quarter" (columns s)); [exact Hip|].
    now apply col_index_app_l. }
  split; [now apply setitem_wf|]. split; [intros n Hn; apply Hcols, Hnames, Hn|].
  exists ip. split; [exact Hip'|]. intros r' Hr'.
  assert (Hcol : column ip (rows (setitem s "quarter" qs)) = column ip (rows s)).
  { pose proof (getitem_setitem_ne s "quarter" "period" qs Hwf Hlen ltac:(discriminate))
      as Hg.
    rewrite (getitem_column _ _ _ Hip'), (getitem_column _ _ _ Hip) in Hg.
    now injection Hg. }
  apply list_elem_of_In, list_elem_of_lookup in Hr'. destruct Hr' as [k Hk].
  assert (Hk' : column ip (rows (setitem s "quarter" qs)) !! k = Some (r'.1, cell_at ip r'))
    by (unfold column; rewrite lookup_map, Hk; reflexivity).
  rewrite Hcol in Hk'. unfold column in Hk'. rewrite lookup_map in Hk'.
  destruct (rows s !! k) as [r|] eqn:Hr; [|discriminate].
  simpl in Hk'. injection Hk' as _ Hc. rewrite <- Hc.
  apply Hrows. eapply list_elem_of_In, list_elem_of_lookup_2, Hr.
Qed.

Lemma concat_columns a b :
  columns (concat a b)
  = columns a ++ List.filter (fun c => negb (has_column (columns a) c)) (columns b).
Proof. reflexivity. Qed.

Lemma concat_exportable Y a b :
  dated_frame (fun d => In (d_year d) Y) a ->
  dated_frame (fun d => In (d_year d) Y) b ->
  exportable Y (concat a b).
Proof.
  intros (Hwfa & Hna & ipa & Hipa & Hra) (Hwfb & Hnb & ipb & Hipb & Hrb).
  unfold exportable. rewrite concat_columns.
  set (extra := List.filter (fun c => negb (has_column (columns a) c)) (columns b)).
  split; [intros n Hn; apply in_or_app; left; now apply Hna|].
  exists ipa. split; [now apply col_index_app_l|].
  pose proof (col_index_lt _ _ _ Hipa) as Hlt.
  pose proof (col_index_lookup _ _ _ Hipa) as Hname.
  intros r Hr. unfold concat in Hr. cbv zeta in Hr. simpl rows in Hr.
  fold extra in Hr. apply in_app_or in Hr. destruct Hr as [Hr|Hr];
    apply in_map_iff in Hr; destruct Hr as (r0 & <- & Hr0).
  - assert (Hl0 : List.length r0.2 = List.length (columns a)).
    { unfold wf_frame in Hwfa. rewrite Forall_forall in Hwfa.
      apply Hwfa. now apply list_elem_of_In. }
    destruct (Hra r0 Hr0) as (d & Hd & Hv & Hy). split.
    + simpl. rewrite !length_app, !length_map, length_zip_with. lia.
    + exists d. split; [|auto]. unfold cell_at. simpl. rewrite nth_lookup.
      rewrite lookup_app_l by (rewrite length_map, length_zip_with; lia).
      rewrite lookup_map, lookup_zip_with, Hname. simpl.
      rewrite (cell_at_date_lookup _ _ _ Hd). simpl.
      destruct (negb (has_column (columns b) "period")
                && negb (Nat.eqb (List.length (rows b)) 0)); reflexivity.
  - destruct (Hrb r0 Hr0) as (d & Hd & Hv & Hy). split.
    + simpl. rewrite !length_app, !length_map. lia.
    + exists d. split; [|auto]. unfold cell_at at 1. simpl. rewrite nth_lookup.
      rewrite lookup_app_l by (rewrite length_map; lia).
      rewrite lookup_map, Hname. simpl. rewrite Hipb. exact Hd.
Qed.

Lemma mask_rows_In r rs mask : In r (mask_rows rs mask) -> In r rs.
Proof.
  revert mask. induction rs as [|r0 rs IH]; intros [|[i c] mask]; simpl; try tauto.
  destruct c as [| | |[|]|]; simpl; intros Hr;
    try (right; eapply IH; exact Hr).
  destruct Hr as [<-|Hr]; [now left | right; eapply IH; exact Hr].
Qed.

Section Download.
Context `{PyFormat}.

Lemma display_df_exportable Y s g q D :
  exportable Y (concat s g) -> display_df_of s g q = Ok D -> exportable Y D.
Proof.
  intros Hex HD. unfold display_df_of in HD.
  destruct (negb (String.eqb q "")); [|now injection HD as <-].
  bindR HD. injection HD as <-.
  destruct Hex as (Hn & ip & Hip & Hr). unfold exportable, getitem_mask. simpl.
  split; [exact Hn|]. exists ip. split; [exact Hip|].
  intros r Hin. apply Hr. eapply mask_rows_In, Hin.
Qed.

(** C8: the table shown in the data explorer, exported with [to_csv] and
    loaded again (read, derived columns, same year filter), comes back with
    the same number of rows and the same columns. *)
Theorem C8_export_then_reload_keeps_rows_and_columns
    (file_s file_g : CsvFile) (raw_s raw_g df_s df_g s g s' D : DataFrame)
    (Y : list Z) (q : string) :
  read_csv file_s = Ok raw_s -> derive_columns raw_s = Ok df_s ->
  read_csv file_g = Ok raw_g -> derive_columns raw_g = Ok df_g ->
  filter_years df_s Y = Ok s -> filter_years df_g Y = Ok g ->
  assign_quarter s = Ok s' ->
  display_df_of s' g q = Ok D ->
  exists D',
    reload D Y = Ok D'
    /\ List.length (rows D') = List.length (rows D)
    /\ columns D' = columns D
    /\ (forall c, In c (columns D') <-> In c (columns D)).
Proof.
  intros Hrs Hds Hrg Hdg Hfs Hfg Hq HD.
  destruct (derive_columns_derived _ _ (read_csv_wf _ _ Hrs) Hds) as [ds_s Ds].
  destruct (derive_columns_derived _ _ (read_csv_wf _ _ Hrg) Hdg) as [ds_g Dg].
  pose proof (filter_years_dated _ _ _ _ _ Ds Hfs) as Hs.
  pose proof (filter_years_dated _ _ _ _ _ Dg Hfg) as Hg.
  pose proof (assign_quarter_dated _ _ _ Hs Hq) as Hs'.
  pose proof (display_df_exportable Y s' g q D (concat_exportable Y s' g Hs' Hg) HD) as HexD.
  destruct (reload_exportable Y D HexD) as (D' & HD' & Hlen & Hcols).
  exists D'. split; [exact HD'|]. split; [exact Hlen|]. split; [exact Hcols|].
  intros c. now rewrite Hcols.
Qed.

End Download.

Lemma C8_witness :
  exists D',
    reload ex_display [2025] = Ok D'
    /\ List.length (rows D') = 4%nat
    /\ columns D'
       = ["period"; "ratio"; "month"; "year"; "dayofweek"; "is_weekend"; "quarter"].
Proof.
  destruct (@C8_export_then_reload_keeps_rows_and_columns ex_format ex_file ex_file
              ex_raw ex_raw ex_df ex_df ex_filtered ex_filtered ex_quartered
              ex_display [2025] ""
              ltac:(vm_compute; reflexivity) ltac:(vm_compute; reflexivity)
              ltac:(vm_compute; reflexivity) ltac:(vm_compute; reflexivity)
              ltac:(vm_compute; reflexivity) ltac:(vm_compute; reflexivity)
              ltac:(vm_compute; reflexivity) ltac:(vm_compute; reflexivity))
    as (D' & H1 & H2 & H3 & _).
  exists D'. split; [exact H1|]. split; [exact H2 | exact H3].
Defined.

Section Explorer.
Context `{PyFormat}.

Lemma read_var_assigned h v n pg x df :
  read_var (mkState (<[n := df]> h) (<[x := n]> v) (S n) pg) x = Ok df.
Proof. unfold read_var. simpl. now rewrite !lookup_insert_eq. Qed.

(** Lines 234 to 236 of the script bind [display_df] to the table that
    [display_df_of] gives for the two filtered tables, or raise as it does. *)
Lemma explorer_binds_display_df Y q st s g :
  read_var st "df_s_filtered" = Ok s -> read_var st "df_g_filtered" = Ok g ->
  (st' ← run (drop 18 (take 20 (dashboard Y q))) st; read_var st' "display_df")
  = display_df_of s g q.
Proof.
  intros Hs Hg. unfold dashboard. cbn [take drop run exec].
  rewrite Hs, Hg, !bind_ret_l.
  rewrite read_var_assigned, bind_ret_l.
  unfold display_df_of.
  destruct (negb (String.eqb q "")).
  - destruct (contains_any (concat s g) q) as [mask|e]; [|reflexivity].
    rewrite !bind_ret_l. apply read_var_assigned.
  - rewrite !bind_ret_l. apply read_var_assigned.
Qed.

(** Lines 104 to 108: without data the page is the error message alone,
    with data the script runs on the two loaded frames. *)
Lemma app_after_load Y q fs :
  (load_sulbing_data fs = Ok None ->
   exists body, app Y q fs = Ok (mkState ∅ ∅ 0 [ErrorMessage body]))
  /\ (forall df_s df_g,
        load_sulbing_data fs = Ok (Some (df_s, df_g)) ->
        app Y q fs = run (dashboard Y q) (loaded df_s df_g)).
Proof.
  unfold app. split.
  - intros ->. eexists. reflexivity.
  - intros df_s df_g ->. reflexivity.
Qed.

End Explorer.

(* ================================================================== *)
(** * Further properties of the script *)

(** ** Locating the data (lines 73 to 88 and 104 to 108) *)

Lemma length_zero_nil {A} (l : list A) : Nat.eqb (List.length l) 0 = true <-> l = [].
Proof. destruct l; simpl; split; congruence. Qed.

(** X1: the loader returns its "no data" pair exactly when no candidate
    directory exists or the first existing one lacks a file of one of the
    two series; the page is then the error message alone. *)
Theorem load_none_iff_no_directory_or_no_file (fs : FileSystem) :
  (load_sulbing_data fs = Ok None
   <-> data_dir fs = None
       \/ exists dir, data_dir fs = Some dir
            /\ (glob fs dir s_pattern ".csv" = [] \/ glob fs dir g_pattern ".csv" = []))
  /\ forall `{PyFormat} Y q,
       load_sulbing_data fs = Ok None ->
       app Y q fs = Ok (mkState ∅ ∅ 0 [ErrorMessage error_body]).
Proof.
  split.
  - unfold load_sulbing_data. destruct (data_dir fs) as [dir|]; [|intuition].
    destruct (Nat.eqb (List.length (glob fs dir s_pattern ".csv")) 0
              || Nat.eqb (List.length (glob fs dir g_pattern ".csv")) 0)%bool eqn:E.
    + split; [intros _|reflexivity]. right. exists dir. split; [reflexivity|].
      apply orb_true_iff in E. rewrite !length_zero_nil in E. exact E.
    + split.
      * intros Hl. exfalso. do 6 bindR Hl. discriminate Hl.
      * intros [Hn | (dir' & Heq & Hg)]; [discriminate|]. exfalso.
        injection Heq as <-.
        apply orb_false_iff in E. destruct E as [E1 E2].
        destruct Hg as [Hg|Hg]; rewrite Hg in *; discriminate.
  - intros fmt Y q Hl. unfold app. rewrite Hl. reflexivity.
Qed.

(** X2: there is no fallback to the second candidate: when [data] exists
    but lacks a file of one series, nothing is loaded, whatever
    [naverapieda/data] holds. *)
Theorem load_does_not_fall_back_to_second_directory (fs : FileSystem) :
  path_exists fs "data" = true ->
  glob fs "data" s_pattern ".csv" = [] \/ glob fs "data" g_pattern ".csv" = [] ->
  load_sulbing_data fs = Ok None.
Proof.
  intros Hd Hg. apply (proj1 (load_none_iff_no_directory_or_no_file fs)).
  right. exists "data". split; [|exact Hg].
  unfold data_dir, possible_paths. simpl. now rewrite Hd.
Qed.

Lemma load_does_not_fall_back_witness :
  load_sulbing_data fs_empty_first = Ok None
  /\ glob fs_empty_first "naverapieda/data" s_pattern ".csv"
     = ["naverapieda/data/설빙_search_trend_2025-01.csv"].
Proof.
  split; [|vm_compute; reflexivity].
  apply (load_does_not_fall_back_to_second_directory fs_empty_first eq_refl).
  left. reflexivity.
Defined.

(** ** The two file patterns (lines 84 and 85) *)

Lemma append_inj_l (a b c : string) : (a ++ b)%string = (a ++ c)%string -> b = c.
Proof. induction a as [|x a IH]; simpl; [auto|]. intros [= Hbc]. now apply IH. Qed.

Lemma glob_In fs dir prefix suffix p :
  In p (glob fs dir prefix suffix) ->
  exists name, p = path_join dir name /\ fnmatch_star prefix suffix name = true.
Proof.
  unfold glob. rewrite in_flat_map. intros (d & _ & Hp).
  destruct (String.eqb d.1 dir); [|destruct Hp].
  apply in_map_iff in Hp. destruct Hp as (e & <- & He).
  apply filter_In in He. destruct He as [_ He]. now exists e.1.
Qed.

Lemma s_pattern_excludes_g_pattern name :
  fnmatch_star s_pattern ".csv" name = true -> fnmatch_star g_pattern ".csv" name = false.
Proof.
  unfold fnmatch_star. intros H. apply andb_true_iff in H. destruct H as [H _].
  apply andb_false_iff. left.
  generalize dependent (list_ascii_of_string name). intros n H.
  unfold s_pattern in H. unfold g_pattern.
  cbn [list_ascii_of_string] in H. cbn [list_ascii_of_string].
  do 7 (destruct n as [|c n]; [discriminate H|];
        cbn [is_prefix] in H; apply andb_true_iff in H; destruct H as [Hc H];
        apply Ascii.eqb_eq in Hc; subst c).
  reflexivity.
Qed.

(** X3: no file name matches both patterns, so no file is ever taken for
    both series. *)
Theorem series_patterns_are_disjoint :
  (forall name,
     fnmatch_star s_pattern ".csv" name = true ->
     fnmatch_star g_pattern ".csv" name = false)
  /\ forall (fs : FileSystem) dir p,
       In p (glob fs dir s_pattern ".csv") -> ~ In p (glob fs dir g_pattern ".csv").
Proof.
  split; [exact s_pattern_excludes_g_pattern|].
  intros fs dir p Hs Hg.
  destruct (glob_In _ _ _ _ _ Hs) as (name & Hp & Hms).
  destruct (glob_In _ _ _ _ _ Hg) as (name' & Hp' & Hmg).
  rewrite Hp in Hp'. unfold path_join in Hp'. apply append_inj_l in Hp'.
  apply append_inj_l in Hp'. subst name'.
  apply s_pattern_excludes_g_pattern in Hms. congruence.
Qed.

Lemma series_patterns_are_disjoint_witness :
  fnmatch_star s_pattern ".csv" "설빙_search_trend_2025-01.csv" = true
  /\ fnmatch_star g_pattern ".csv" "설빙_search_trend_2025-01.csv" = false.
Proof.
  split; [reflexivity|].
  exact (proj1 series_patterns_are_disjoint "설빙_search_trend_2025-01.csv" eq_refl).
Defined.

(** ** What the loader keeps and what it adds (lines 91 to 101) *)

Lemma imap_fst_seq {A} (f : nat -> Z) (l : list A) (k : nat) :
  map fst (imap (fun i x => (f (k + i)%nat, x)) l) = map f (seq k (List.length l)).
Proof.
  revert k. induction l as [|x l IH]; intros k; simpl; [reflexivity|].
  rewrite Nat.add_0_r. f_equal. rewrite <- (IH (S k)). f_equal.
  apply imap_ext. intros i y _. simpl. do 2 f_equal. lia.
Qed.

Lemma range_index_fst {A} (l : list A) :
  map fst (range_index l) = map Z.of_nat (seq 0 (List.length l)).
Proof. unfold range_index. apply (imap_fst_seq Z.of_nat l 0). Qed.

Lemma add_column_app n cols : exists extra, add_column n cols = cols ++ extra
                                            /\ forall c, In c extra -> c = n.
Proof.
  unfold add_column. destruct (col_index n cols).
  - exists []. split; [now rewrite app_nil_r | intros c []].
  - exists [n]. split; [reflexivity | intros c [<-|[]]; reflexivity].
Qed.

Lemma read_csv_index file raw :
  read_csv file = Ok raw ->
  columns raw = header file
  /\ map fst (rows raw) = map Z.of_nat (seq 0 (List.length (records file))).
Proof.
  unfold read_csv. intros Hr. bindR Hr. injection Hr as <-. simpl.
  split; [reflexivity|]. rewrite range_index_fst.
  apply mapR_Forall2, Forall2_length in E. now rewrite E.
Qed.



Lemma to_datetime_parsed s s' :
  to_datetime s = Ok s' ->
  Forall2 (fun ic ic' =>
             ic'.1 = ic.1
             /\ exists t d, ic.2 = CStr t /\ parse_iso t = Some d
                            /\ valid_date d = true /\ ic'.2 = CDate d) s s'.
Proof.
  unfold to_datetime, map_series. intros Hs%mapR_Forall2.
  induction Hs as [|[i c] [i' c'] l l' Hc _ IH]; constructor; [|exact IH].
  bindR Hc. injection Hc as <- <-. simpl. split; [reflexivity|].
  simpl in E. unfold to_datetime_cell in E. destruct c as [t| | | |]; try discriminate.
  destruct (parse_iso t) as [d|] eqn:Hp; [|discriminate].
  destruct (negb (year_in_bounds (d_year d))); [discriminate|].
  destruct (valid_date d) eqn:Hd; [|discriminate].
  injection E as <-. now exists t, d.
Qed.

Lemma dayofweek_valid d : valid_date d = true -> 0 <= date_dayofweek d <= 6.
Proof.
  intros Hv. destruct (valid_date_bounds d Hv) as (Hy & Hm & Hd).
  unfold date_dayofweek, dayofweek.
  assert (Ht : 0 <= nth (Z.to_nat (d_month d - 1)) sakamoto_arr 0 <= 6).
  { assert (Hc : d_month d = 1 \/ d_month d = 2 \/ d_month d = 3 \/ d_month d = 4
                 \/ d_month d = 5 \/ d_month d = 6 \/ d_month d = 7 \/ d_month d = 8
                 \/ d_month d = 9 \/ d_month d = 10 \/ d_month d = 11 \/ d_month d = 12)
      by lia.
    destruct Hc as [-> | [-> | [-> | [-> | [-> | [-> | [-> | [-> | [-> | [-> | [-> | ->]]]]]]]]]]];
      simpl; lia. }
  set (t := nth _ sakamoto_arr 0) in *. clearbody t.
  set (y := if d_month d <? 3 then d_year d - 1 else d_year d).
  assert (Hy' : 1677 <= y <= 2261) by (unfold y; destruct (d_month d <? 3); lia).
  clearbody y. Z.quot_rem_to_equations. lia.
Qed.

Lemma day_name_valid d : valid_date d = true -> In (date_day_name d) DAYS_FULL.
Proof.
  intros Hv%dayofweek_valid. unfold date_day_name.
  set (w := date_dayofweek d) in *. clearbody w.
  assert (Hw : w = 0 \/ w = 1 \/ w = 2 \/ w = 3 \/ w = 4 \/ w = 5 \/ w = 6) by lia.
  destruct Hw as [-> | [-> | [-> | [-> | [-> | [-> | ->]]]]]]; simpl; tauto.
Qed.



(** ** Errors of the load (lines 91 to 99) *)

Lemma mapR_Err {A B} (f : A -> result B) (l : list A) x e :
  In x l -> f x = Err e -> exists e', mapR f l = Err e'.
Proof.
  induction l as [|y l IH]; simpl; [tauto|].
  intros [->|Hx] Hf.
  - rewrite Hf. eexists. reflexivity.
  - destruct (f y) as [b|e0]; [|eexists; reflexivity].
    destruct (IH Hx Hf) as [e' ->]. eexists. reflexivity.
Qed.



(** ** The value column is first needed by the cards (lines 116 to 126) *)

Lemma derived_filter_years raw df ds Y :
  derived raw df ds -> exists s, filter_years df Y = Ok s /\ columns s = columns df.
Proof.
  intros D. destruct (getitem_Ok _ _ _ (der_year _ _ _ D)) as (iy & Hiy & _).
  rewrite (filter_years_rows _ _ _ Hiy). eexists. split; reflexivity.
Qed.

Lemma derived_columns_In raw df ds c :
  derived raw df ds -> In c (columns df) -> In c (columns raw) \/ In c derived_names.
Proof.
  intros D. rewrite (der_columns _ _ _ D).
  assert (Hadd : forall n cols, In c (add_column n cols) -> In c cols \/ c = n).
  { intros n cols. unfold add_column. destruct (col_index n cols); [auto|].
    intros [Hc|[<-|[]]]%in_app_or; auto. }
  unfold derived_names. simpl. intros Hc.
  do 5 (apply Hadd in Hc; destruct Hc as [Hc|Hc]; [|subst c; auto 10]).
  now left.
Qed.

Section Cards.
Context `{PyFormat}.

Lemma exec_metric_of label x m prec st :
  exec (metric_of label x m prec) st
  = (el ← (df ← read_var st x; r ← getitem df "ratio"; v ← m r;
           Ok (Metric label (format_f prec v)));
     Ok (mkState (heap st) (vars st) (next st) (page st ++ [el]))).
Proof. reflexivity. Qed.

(** X7: a primary file without a ratio column still loads; the script then
    raises KeyError for ratio at its first metric card (line 126), whatever
    the year selection and the query, and renders nothing. *)
Theorem missing_ratio_raises_at_first_card
    (file_s file_g : CsvFile) (raw_s raw_g df_s df_g : DataFrame)
    (Y : list Z) (q : string) :
  read_csv file_s = Ok raw_s -> derive_columns raw_s = Ok df_s ->
  read_csv file_g = Ok raw_g -> derive_columns raw_g = Ok df_g ->
  ~ In "ratio" (header file_s) ->
  run (dashboard Y q) (loaded df_s df_g) = Err (KeyError "ratio").
Proof.
  intros Hrs Hds Hrg Hdg Hno.
  destruct (derive_columns_derived _ _ (read_csv_wf _ _ Hrs) Hds) as [ds_s Ds].
  destruct (derive_columns_derived _ _ (read_csv_wf _ _ Hrg) Hdg) as [ds_g Dg].
  destruct (derived_filter_years _ _ _ Y Ds) as (s & Hs & Hcs).
  destruct (derived_filter_years _ _ _ Y Dg) as (g & Hg & Hcg).
  assert (Hnone : col_index "ratio" (columns s) = None).
  { apply col_index_None. rewrite Hcs. intros Hin.
    destruct (derived_columns_In _ _ _ _ Ds Hin) as [Hr|Hr].
    - apply Hno. now rewrite <- (proj1 (read_csv_index _ _ Hrs)).
    - unfold derived_names in Hr. simpl in Hr.
      destruct Hr as [Hr|[Hr|[Hr|[Hr|[Hr|[]]]]]]; discriminate Hr. }
  unfold dashboard. cbn [run exec].
  change (read_var (loaded df_s df_g) "df_s") with (Ok df_s).
  rewrite bind_ret_l, Hs, !bind_ret_l. cbv beta.
  match goal with |- context [read_var ?st "df_g"] =>
    change (read_var st "df_g") with (Ok df_g) end.
  rewrite bind_ret_l, Hg, !bind_ret_l. cbv beta.
  rewrite exec_metric_of.
  match goal with |- context [read_var ?st "df_s_filtered"] =>
    change (read_var st "df_s_filtered") with (Ok s) end.
  assert (Hget : getitem s "ratio" = Err (KeyError "ratio"))
    by (unfold getitem; now rewrite Hnone).
  rewrite bind_ret_l, Hget. reflexivity.
Qed.

End Cards.

Lemma missing_ratio_raises_at_first_card_witness :
  (exists tables, load_sulbing_data fs_no_ratio = Ok (Some tables))
  /\ @app ex_format [2024; 2025] "" fs_no_ratio = Err (KeyError "ratio").
Proof.
  split; [eexists; vm_compute; reflexivity|].
  pose (raw := mkDF ["period"; "clicks"] [(0, [CStr "2024-01-01"; CFloat 1%float])]).
  pose (df := mkDF ["period"; "clicks"; "month"; "year"; "dayofweek"; "is_weekend"]
                   [(0, [CDate (mkDate 2024 1 1); CFloat 1%float; CInt 1; CInt 2024;
                         CStr "Monday"; CBool false])]).
  assert (Hl : load_sulbing_data fs_no_ratio = Ok (Some (df, ex_df)))
    by (vm_compute; reflexivity).
  unfold app. rewrite Hl, bind_ret_l.
  apply (@missing_ratio_raises_at_first_card ex_format file_no_ratio ex_file raw ex_raw
           df ex_df [2024; 2025] "");
    try (vm_compute; reflexivity).
  simpl. intros [Hc|[Hc|[]]]; discriminate Hc.
Defined.

(** ** The quarter column (line 191) *)

Lemma derived_period_cells raw df ds ip :
  derived raw df ds -> col_index "period" (columns df) = Some ip ->
  forall r, In r (rows df) ->
    cell_at ip r = CDate (date_at ip r) /\ valid_date (date_at ip r) = true.
Proof.
  intros D Hip r Hr.
  pose proof (der_period _ _ _ D) as Hp. rewrite (getitem_column _ _ _ Hip) in Hp.
  injection Hp as Hp.
  apply list_elem_of_In, list_elem_of_lookup in Hr. destruct Hr as [k Hk].
  destruct (column_dated _ _ _ _ _ _ Hp Hk) as (id & Hid & _ & Hc).
  unfold date_at. rewrite Hc. split; [reflexivity|].
  pose proof (der_valid _ _ _ D) as Hv. rewrite Forall_forall in Hv.
  apply Hv. eapply list_elem_of_lookup_2, Hid.
Qed.

Lemma derived_cells_of_date raw df ds ip c g ic :
  derived raw df ds -> col_index "period" (columns df) = Some ip ->
  getitem df c = Ok (dated g ds) -> col_index c (columns df) = Some ic ->
  forall r, In r (rows df) -> cell_at ic r = g (date_at ip r).
Proof.
  intros D Hip Hg Hic r Hr.
  pose proof (der_period _ _ _ D) as Hp. rewrite (getitem_column _ _ _ Hip) in Hp.
  injection Hp as Hp. rewrite (getitem_column _ _ _ Hic) in Hg. injection Hg as Hg.
  apply list_elem_of_In, list_elem_of_lookup in Hr. destruct Hr as [k Hk].
  destruct (column_dated _ _ _ _ _ _ Hp Hk) as (id & Hid & _ & Hc).
  destruct (column_dated _ _ _ _ _ _ Hg Hk) as (id' & Hid' & _ & Hc').
  rewrite Hid in Hid'. injection Hid' as <-.
  unfold date_at. now rewrite Hc, Hc'.
Qed.

Lemma date_quarter_of_month d :
  1 <= d_month d <= 12 ->
  date_quarter d = (d_month d + 2) / 3 /\ 1 <= (d_month d + 2) / 3 <= 4.
Proof.
  intros Hm. unfold date_quarter. Z.quot_rem_to_equations. Z.div_mod_to_equations. lia.
Qed.

(** X8: on a loaded and year-filtered table line 191 succeeds, and in its
    result every row's quarter is ceil(month / 3), a number from 1 to 4,
    for the row's month from 1 to 12. *)
Theorem quarter_is_month_over_three_rounded_up
    (file : CsvFile) (raw df s : DataFrame) (Y : list Z) :
  read_csv file = Ok raw -> derive_columns raw = Ok df -> filter_years df Y = Ok s ->
  exists s' im iq,
    assign_quarter s = Ok s'
    /\ col_index "month" (columns s') = Some im
    /\ col_index "quarter" (columns s') = Some iq
    /\ List.length (rows s') = List.length (rows s)
    /\ forall r, In r (rows s') ->
         exists m,
           cell_at im r = CInt m /\ 1 <= m <= 12
           /\ cell_at iq r = CInt ((m + 2) / 3) /\ 1 <= (m + 2) / 3 <= 4.
Proof.
  intros Hread Hder Hf.
  destruct (derive_columns_derived raw df (read_csv_wf _ _ Hread) Hder) as [ds D].
  destruct (getitem_Ok _ _ _ (der_period _ _ _ D)) as (ip & Hip & _).
  destruct (getitem_Ok _ _ _ (der_month _ _ _ D)) as (im & Him & _).
  destruct (getitem_Ok _ _ _ (der_year _ _ _ D)) as (iy & Hiy & _).
  destruct (filter_years_dated _ _ _ _ _ D Hf) as (Hwf & _ & _).
  rewrite (filter_years_rows _ _ _ Hiy) in Hf. injection Hf as <-.
  set (rs := List.filter (fun r => isin_cell Y (cell_at iy r)) (rows df)) in *.
  set (s := mkDF (columns df) rs) in *.
  assert (Hsub : forall r, In r rs -> In r (rows df))
    by (intros r Hr; apply filter_In in Hr; tauto).
  set (ds_s := map (fun r => (r.1, date_at ip r)) rs).
  assert (Hper : getitem s "period" = Ok (dated CDate ds_s)).
  { rewrite (getitem_column s _ _ Hip). f_equal. unfold column, dated, ds_s. simpl.
    rewrite map_map. apply map_ext_in. intros r Hr. simpl. f_equal.
    apply (derived_period_cells _ _ _ _ D Hip r (Hsub r Hr)). }
  assert (Hmon : getitem s "month" = Ok (dated (fun d => CInt (d_month d)) ds_s)).
  { rewrite (getitem_column s _ _ Him). f_equal. unfold column, dated, ds_s. simpl.
    rewrite map_map. apply map_ext_in. intros r Hr. simpl. f_equal.
    apply (derived_cells_of_date _ _ _ ip "month" _ im D Hip (der_month _ _ _ D) Him r
             (Hsub r Hr)). }
  assert (Hix : map fst (dated (fun d => CInt (date_quarter d)) ds_s) = map fst (rows s)).
  { rewrite dated_index. unfold ds_s. simpl. now rewrite map_map. }
  set (qs := dated (fun d => CInt (date_quarter d)) ds_s) in *.
  assert (Hq : assign_quarter s = Ok (setitem s "quarter" qs)).
  { unfold assign_quarter, dt_quarter. now rewrite Hper, bind_ret_l, dt_dated, bind_ret_l. }
  assert (Hgq : getitem (setitem s "quarter" qs) "quarter" = Ok qs)
    by now apply getitem_setitem_eq.
  assert (Hgm : getitem (setitem s "quarter" qs) "month"
                = Ok (dated (fun d => CInt (d_month d)) ds_s)).
  { rewrite getitem_setitem_ne; [exact Hmon | exact Hwf | | discriminate].
    eapply map_fst_length, Hix. }
  destruct (getitem_Ok _ _ _ Hgq) as (iq & Hiq & Hcq).
  destruct (getitem_Ok _ _ _ Hgm) as (im' & Him' & Hcm).
  exists (setitem s "quarter" qs), im', iq.
  split; [exact Hq|]. split; [exact Him'|]. split; [exact Hiq|]. split.
  { eapply map_fst_length. apply setitem_index. eapply map_fst_length, Hix. }
  intros r Hr. apply list_elem_of_In, list_elem_of_lookup in Hr. destruct Hr as [k Hk].
  destruct (column_dated _ _ _ _ _ _ (eq_sym Hcq) Hk) as (id & Hid & _ & Hc).
  destruct (column_dated _ _ _ _ _ _ (eq_sym Hcm) Hk) as (id' & Hid' & _ & Hc').
  rewrite Hid in Hid'. injection Hid' as <-.
  assert (Hv : valid_date id.2 = true).
  { apply list_elem_of_lookup_2, list_elem_of_In in Hid. unfold ds_s in Hid.
    apply in_map_iff in Hid. destruct Hid as (r0 & <- & Hr0). simpl.
    apply (derived_period_cells _ _ _ _ D Hip r0 (Hsub r0 Hr0)). }
  destruct (valid_date_bounds _ Hv) as (_ & Hm & _).
  destruct (date_quarter_of_month _ Hm) as [Hqm Hqb].
  exists (d_month id.2). split; [exact Hc'|]. split; [exact Hm|].
  split; [rewrite Hc; now rewrite Hqm | exact Hqb].
Qed.

Lemma quarter_is_month_over_three_rounded_up_witness :
  exists s', assign_quarter ex_filtered = Ok s' /\ List.length (rows s') = 2%nat.
Proof.
  destruct (quarter_is_month_over_three_rounded_up ex_file ex_raw ex_df ex_filtered [2025]
              ltac:(vm_compute; reflexivity) ltac:(vm_compute; reflexivity)
              ltac:(vm_compute; reflexivity))
    as (s' & im & iq & H1 & _ & _ & H2 & _).
  exists s'. split; [exact H1 | exact H2].
Defined.

(** ** The quarter sums (lines 192 and 193) *)

Lemma insert_key_ints q qs :
  StronglySorted Z.lt qs ->
  exists qs',
    insert_key (CInt q) (map CInt qs) = map CInt qs'
    /\ StronglySorted Z.lt qs'
    /\ forall x, In x qs' <-> x = q \/ In x qs.
Proof.
  induction qs as [|k qs IH]; intros Hs.
  - exists [q]. split; [reflexivity|]. split; [repeat constructor|].
    intros x. simpl. intuition.
  - apply StronglySorted_inv in Hs. destruct Hs as [Hs Hk].
    rewrite Forall_forall in Hk. simpl.
    destruct (Z.eqb_spec q k) as [->|Hne].
    + exists (k :: qs). split; [reflexivity|]. split.
      * constructor; [exact Hs | now apply Forall_forall].
      * intros x. simpl. intuition.
    + destruct (Z.leb_spec q k) as [Hle|Hgt].
      * exists (q :: k :: qs). split; [reflexivity|]. split.
        -- constructor; [constructor; [exact Hs | now apply Forall_forall]|].
           apply Forall_forall. intros x Hx. apply list_elem_of_In in Hx.
           destruct Hx as [<-|Hx]; [lia|].
           apply list_elem_of_In, Hk in Hx. lia.
        -- intros x. simpl. intuition.
      * destruct (IH Hs) as (qs' & Heq & Hs' & Hin).
        exists (k :: qs'). split; [now rewrite Heq|]. split.
        -- constructor; [exact Hs'|]. apply Forall_forall. intros x Hx.
           apply list_elem_of_In, Hin in Hx. destruct Hx as [->|Hx]; [lia|].
           apply Hk. now apply list_elem_of_In.
        -- intros x. simpl. rewrite Hin. intuition.
Qed.

Lemma group_keys_ints zs :
  exists qs,
    group_keys (map CInt zs) = map CInt qs
    /\ StronglySorted Z.lt qs
    /\ forall x, In x qs <-> In x zs.
Proof.
  unfold group_keys. induction zs as [|z zs IH]; simpl.
  - exists []. split; [reflexivity|]. split; [constructor | tauto].
  - destruct IH as (qs & Heq & Hs & Hin). rewrite Heq.
    destruct (insert_key_ints z qs Hs) as (qs' & Heq' & Hs' & Hin').
    exists qs'. split; [exact Heq'|]. split; [exact Hs'|].
    intros x. rewrite Hin', Hin. intuition.
Qed.

Lemma zip_rows_maps {A B} (f : Z * list cell -> B -> Z * list cell)
    (a : A -> Z * list cell) (b : A -> B) (L : list A) :
  zip_rows f (map a L) (map b L) = map (fun x => f (a x) (b x)) L.
Proof. induction L as [|x L IH]; simpl; [reflexivity|]. now rewrite IH. Qed.

Lemma keyed_sums (agg : cell -> result float) (qs : list Z) (ser : KSeries) :
  mapR (fun g => x ← agg g; Ok (g, CFloat x)) (map CInt qs) = Ok ser ->
  exists qxs : list (Z * float),
    map fst qxs = qs
    /\ ser = map (fun qx => (CInt qx.1, CFloat qx.2)) qxs
    /\ forall qx, In qx qxs -> agg (CInt qx.1) = Ok qx.2.
Proof.
  revert ser. induction qs as [|q qs IH]; intros ser Hm; simpl in Hm.
  - injection Hm as <-. exists []. split; [reflexivity|].
    split; [reflexivity | intros qx []].
  - destruct (agg (CInt q)) as [x|e] eqn:Hq; [|discriminate Hm].
    rewrite !bind_ret_l in Hm.
    destruct (mapR _ (map CInt qs)) as [ser'|e] eqn:Hr; [|discriminate Hm].
    rewrite bind_ret_l in Hm. injection Hm as <-.
    destruct (IH _ eq_refl) as (qxs & Hfst & -> & Hall).
    exists ((q, x) :: qxs). split; [simpl; now rewrite Hfst|].
    split; [reflexivity|]. intros qx [<-|Hqx]; [exact Hq | now apply Hall].
Qed.



(** ** The page of a completed run (lines 116 to 247) *)

Section Page.
Context `{PyFormat}.

Lemma exec_Assign x e st st' :
  exec (Assign x e) st = Ok st' ->
  exists df, e st = Ok df
    /\ st' = mkState (<[next st := df]> (heap st)) (<[x := next st]> (vars st))
                     (S (next st)) (page st).
Proof. simpl. intros Hex. bindR Hex. injection Hex as <-. eauto. Qed.

Lemma exec_SetColumn x f st st' :
  exec (SetColumn x f) st = Ok st' ->
  exists l df df', vars st !! x = Some l /\ read_var st x = Ok df /\ f df = Ok df'
    /\ st' = mkState (<[l := df']> (heap st)) (vars st) (next st) (page st).
Proof.
  simpl. destruct (vars st !! x) as [l|]; [|discriminate].
  intros Hex. bindR Hex. bindR Hex. injection Hex as <-. eauto 10.
Qed.

Lemma exec_Show e st st' :
  exec (Show e) st = Ok st' ->
  exists el, e st = Ok el
    /\ st' = mkState (heap st) (vars st) (next st) (page st ++ [el]).
Proof. simpl. intros Hex. bindR Hex. injection Hex as <-. eauto. Qed.

Lemma exec_metric label x m prec st st' :
  exec (metric_of label x m prec) st = Ok st' ->
  exists v, st' = mkState (heap st) (vars st) (next st) (page st ++ [Metric label v]).
Proof.
  intros Hex. apply exec_Show in Hex. destruct Hex as (el & Hel & ->).
  bindR Hel. bindR Hel. bindR Hel. injection Hel as <-. eauto.
Qed.

Lemma exec_plot title xs cols st st' :
  exec (plot_of title xs cols) st = Ok st' ->
  exists dfs, st' = mkState (heap st) (vars st) (next st) (page st ++ [Plot title dfs]).
Proof.
  intros Hex. apply exec_Show in Hex. destruct Hex as (el & Hel & ->).
  bindR Hel. injection Hel as <-. eauto.
Qed.

Ltac step H E := cbn [run] in H; apply bind_Ok in H; destruct H as (? & E & H).
Ltac reads E x v :=
  match type of E with context [read_var ?st x] =>
    change (read_var st x) with (Ok v) in E end;
  rewrite bind_ret_l in E.

(** X10: when the script runs to its end the page holds, in this order,
    the four metric cards, the seven charts, the explorer's table and the
    download button; the table is the concatenation of the two year-filtered
    tables (the first with its quarter column) restricted by the search, and
    the button's file is exactly that table written with [to_csv]. *)
Theorem page_of_a_completed_run
    (df_s df_g : DataFrame) (Y : list Z) (q : string) (st : State) :
  run (dashboard Y q) (loaded df_s df_g) = Ok st ->
  exists s g s' D v1 v2 v3 v4 p1 p2 p3 p4 p5 p6 p7,
    filter_years df_s Y = Ok s
    /\ filter_years df_g Y = Ok g
    /\ assign_quarter s = Ok s'
    /\ display_df_of s' g q = Ok D
    /\ page st
       = [Metric "설빙 평균 점수" v1;
          Metric "기프티콘 평균 점수" v2;
          Metric "최대 검색 지수" v3;
          Metric "상관계수 (R)" v4;
          Plot "2024-2025 통합 검색 트렌드 (일별)" p1;
          Plot "월별 데이터 변동폭 (Boxplot)" p2;
          Plot "요일별 평균 검색 지수" p3;
          Plot "연간 검색 총합의 분기별 점유율" p4;
          Plot "관심도 상관성 분석 (R=0.91)" p5;
          Plot "검색 지수 빈도 분포 (Histogram)" p6;
          Plot "평일(False) vs 주말(True) 검색량 밀도 비교" p7;
          Dataframe D;
          DownloadButton "필터링된 데이터 다운로드 (CSV)" (to_csv D) "sulbing_trend_data.csv"].
Proof.
  intros Hrun. unfold dashboard in Hrun.
  (* 116, 117 *)
  step Hrun E0. apply exec_Assign in E0. cbn [heap vars next page] in E0. destruct E0 as (s & Hs & ->).
  reads Hs "df_s" df_s.
  step Hrun E1. apply exec_Assign in E1. cbn [heap vars next page] in E1. destruct E1 as (g & Hg & ->).
  reads Hg "df_g" df_g.
  (* the cards *)
  step Hrun E2. apply exec_metric in E2. cbn [heap vars next page] in E2. destruct E2 as (v1 & ->).
  step Hrun E3. apply exec_metric in E3. cbn [heap vars next page] in E3. destruct E3 as (v2 & ->).
  step Hrun E4. apply exec_metric in E4. cbn [heap vars next page] in E4. destruct E4 as (v3 & ->).
  step Hrun E5. apply exec_Show in E5. cbn [heap vars next page] in E5. destruct E5 as (el & Hel & ->).
  do 5 bindR Hel. injection Hel as <-.
  (* the charts and the tables they are drawn from *)
  step Hrun E6. apply exec_plot in E6. cbn [heap vars next page] in E6. destruct E6 as (p1 & ->).
  step Hrun E7. apply exec_plot in E7. cbn [heap vars next page] in E7. destruct E7 as (p2 & ->).
  step Hrun E8. apply exec_Assign in E8. cbn [heap vars next page] in E8. destruct E8 as (davg & _ & ->).
  step Hrun E9. apply exec_plot in E9. cbn [heap vars next page] in E9. destruct E9 as (p3 & ->).
  step Hrun E10. apply exec_SetColumn in E10. cbn [heap vars next page] in E10.
  destruct E10 as (l & s0 & s' & Hl & Hs0 & Hs' & ->).
  change (Some 2%nat = Some l) in Hl. injection Hl as <-.
  change (Ok s = Ok s0) in Hs0. injection Hs0 as <-.
  step Hrun E11. apply exec_Assign in E11. cbn [heap vars next page] in E11. destruct E11 as (qsum & _ & ->).
  step Hrun E12. apply exec_SetColumn in E12. cbn [heap vars next page] in E12.
  destruct E12 as (l & qs0 & qs' & Hl & _ & _ & ->).
  change (Some 5%nat = Some l) in Hl. injection Hl as <-.
  step Hrun E13. apply exec_plot in E13. cbn [heap vars next page] in E13. destruct E13 as (p4 & ->).
  step Hrun E14. apply exec_Assign in E14. cbn [heap vars next page] in E14. destruct E14 as (comb & _ & ->).
  step Hrun E15. apply exec_plot in E15. cbn [heap vars next page] in E15. destruct E15 as (p5 & ->).
  step Hrun E16. apply exec_plot in E16. cbn [heap vars next page] in E16. destruct E16 as (p6 & ->).
  step Hrun E17. apply exec_plot in E17. cbn [heap vars next page] in E17. destruct E17 as (p7 & ->).
  (* the explorer *)
  step Hrun E18. apply exec_Assign in E18. cbn [heap vars next page] in E18. destruct E18 as (d0 & Hd0 & ->).
  reads Hd0 "df_s_filtered" s'. reads Hd0 "df_g_filtered" g.
  injection Hd0 as <-.
  step Hrun E19. apply exec_Assign in E19. cbn [heap vars next page] in E19. destruct E19 as (D & HD & ->).
  reads HD "display_df" (concat s' g).
  step Hrun E20. apply exec_Show in E20. cbn [heap vars next page] in E20. destruct E20 as (e20 & He20 & ->).
  reads He20 "display_df" D. injection He20 as <-.
  step Hrun E21. apply exec_Show in E21. cbn [heap vars next page] in E21. destruct E21 as (e21 & He21 & ->).
  reads He21 "display_df" D. injection He21 as <-.
  cbn [run] in Hrun. injection Hrun as <-.
  exists s, g, s', D. do 11 eexists.
  split; [exact Hs|]. split; [exact Hg|]. split; [exact Hs'|]. split; [exact HD|].
  reflexivity.
Qed.

End Page.

Lemma page_of_a_completed_run_witness :
  exists st D,
    run (@dashboard ex_format [2025] "") (loaded ex_df ex_df) = Ok st
    /\ @display_df_of ex_format ex_quartered ex_filtered "" = Ok D
    /\ List.length (page st) = 13%nat
    /\ nth 11 (page st) (ErrorMessage "") = Dataframe D
    /\ nth 12 (page st) (ErrorMessage "")
       = DownloadButton "필터링된 데이터 다운로드 (CSV)" (to_csv D) "sulbing_trend_data.csv".
Proof.
  destruct (run (@dashboard ex_format [2025] "") (loaded ex_df ex_df))
    as [st|e] eqn:E; [|vm_compute in E; discriminate].
  destruct (@page_of_a_completed_run ex_format ex_df ex_df [2025] "" st E)
    as (s & g & s' & D & v1 & v2 & v3 & v4 & p1 & p2 & p3 & p4 & p5 & p6 & p7
        & Hs & Hg & Hs' & HD & Hpage).
  vm_compute in Hs. injection Hs as <-.
  vm_compute in Hg. injection Hg as <-.
  vm_compute in Hs'. injection Hs' as <-.
  exists st, D. split; [reflexivity|]. split; [exact HD|].
  rewrite Hpage. repeat split.
Defined.

(** ** No year selected (lines 115 to 140) *)

Lemma filter_years_no_year df i :
  col_index "year" (columns df) = Some i ->
  filter_years df [] = Ok (mkDF (columns df) []).
Proof.
  intros Hi. rewrite (filter_years_rows _ _ _ Hi). do 2 f_equal.
  induction (rows df) as [|r rs IH]; simpl; [reflexivity|].
  destruct (cell_at i r); simpl; exact IH.
Qed.

Section NoYear.
Context `{PyFormat}.

Lemma run_step s script st st' :
  exec s st = Ok st' -> run (s :: script) st = run script st'.
Proof. simpl. intros ->. reflexivity. Qed.

Lemma exec_Assign_ok x e st df :
  e st = Ok df ->
  exec (Assign x e) st
  = Ok (mkState (<[next st := df]> (heap st)) (<[x := next st]> (vars st))
                (S (next st)) (page st)).
Proof. simpl. intros ->. reflexivity. Qed.

Lemma exec_Show_ok e st el :
  e st = Ok el ->
  exec (Show e) st = Ok (mkState (heap st) (vars st) (next st) (page st ++ [el])).
Proof. simpl. intros ->. reflexivity. Qed.

Lemma exec_metric_ok label x m prec st df r v :
  read_var st x = Ok df -> getitem df "ratio" = Ok r -> m r = Ok v ->
  exec (metric_of label x m prec) st
  = Ok (mkState (heap st) (vars st) (next st)
                (page st ++ [Metric label (format_f prec v)])).
Proof.
  intros Hx Hr Hm. apply exec_Show_ok. now rewrite Hx, bind_ret_l, Hr, bind_ret_l, Hm.
Qed.

(** X11: with every year removed from the selection both filtered tables
    are empty and the four metric cards all show the text nan; no exception
    is raised up to there. *)
Theorem no_year_selected_gives_nan_cards (df_s df_g : DataFrame) (q : string) :
  In "year" (columns df_s) -> In "ratio" (columns df_s) ->
  In "year" (columns df_g) -> In "ratio" (columns df_g) ->
  exists st,
    run (take 6 (dashboard [] q)) (loaded df_s df_g) = Ok st
    /\ read_var st "df_s_filtered" = Ok (mkDF (columns df_s) [])
    /\ read_var st "df_g_filtered" = Ok (mkDF (columns df_g) [])
    /\ page st = [Metric "설빙 평균 점수" "nan";
                  Metric "기프티콘 평균 점수" "nan";
                  Metric "최대 검색 지수" "nan";
                  Metric "상관계수 (R)" "nan"].
Proof.
  intros Hys Hrs Hyg Hrg.
  destruct (col_index_In _ _ Hys) as [iys Hiys].
  destruct (col_index_In _ _ Hyg) as [iyg Hiyg].
  destruct (col_index_In _ _ Hrs) as [irs Hirs].
  destruct (col_index_In _ _ Hrg) as [irg Hirg].
  set (s := mkDF (columns df_s) []). set (g := mkDF (columns df_g) []).
  assert (Hgs : getitem s "ratio" = Ok []) by (now rewrite (getitem_column s _ _ Hirs)).
  assert (Hgg : getitem g "ratio" = Ok []) by (now rewrite (getitem_column g _ _ Hirg)).
  eexists. split.
  { unfold dashboard, loaded. cbn [take].
    erewrite run_step; cycle 1.
    { apply exec_Assign_ok. cbv beta.
      match goal with |- context [read_var ?st "df_s"] =>
        change (read_var st "df_s") with (Ok df_s) end.
      rewrite bind_ret_l. exact (filter_years_no_year _ _ Hiys). }
    cbn [heap vars next page]. fold s.
    erewrite run_step; cycle 1.
    { apply exec_Assign_ok. cbv beta.
      match goal with |- context [read_var ?st "df_g"] =>
        change (read_var st "df_g") with (Ok df_g) end.
      rewrite bind_ret_l. exact (filter_years_no_year _ _ Hiyg). }
    cbn [heap vars next page]. fold g.
    erewrite run_step; cycle 1.
    { apply (exec_metric_ok _ _ _ _ _ s [] nan); [reflexivity | exact Hgs | reflexivity]. }
    cbn [heap vars next page].
    erewrite run_step; cycle 1.
    { apply (exec_metric_ok _ _ _ _ _ g [] nan); [reflexivity | exact Hgg | reflexivity]. }
    cbn [heap vars next page].
    erewrite run_step; cycle 1.
    { apply (exec_metric_ok _ _ _ _ _ s [] nan); [reflexivity | exact Hgs | reflexivity]. }
    cbn [heap vars next page].
    erewrite run_step; cycle 1.
    { apply (exec_Show_ok _ _ (Metric "상관계수 (R)" (format_f 3 nan))). cbv beta.
      match goal with |- context [read_var ?st "df_s_filtered"] =>
        change (read_var st "df_s_filtered") with (Ok s) end.
      rewrite bind_ret_l, Hgs, bind_ret_l.
      match goal with |- context [read_var ?st "df_g_filtered"] =>
        change (read_var st "df_g_filtered") with (Ok g) end.
      rewrite bind_ret_l, Hgg, bind_ret_l. reflexivity. }
    cbn [heap vars next page]. reflexivity. }
  split; [reflexivity|]. split; reflexivity.
Qed.

End NoYear.

Lemma no_year_selected_gives_nan_cards_witness :
  exists st,
    run (take 6 (@dashboard ex_format [] "")) (loaded ex_df ex_df) = Ok st
    /\ List.length (page st) = 4%nat.
Proof.
  destruct (@no_year_selected_gives_nan_cards ex_format ex_df ex_df ""
              ltac:(simpl; auto 10) ltac:(simpl; auto 10)
              ltac:(simpl; auto 10) ltac:(simpl; auto 10))
    as (st & Hrun & _ & _ & Hpage).
  exists st. split; [exact Hrun|]. now rewrite Hpage.
Defined.

(** ** The quarter column in the explorer's table (lines 191, 234 and 241) *)

Lemma has_column_false cols c : ~ In c cols -> has_column cols c = false.
Proof.
  intros Hn. unfold has_column. apply not_true_is_false. intros Hex.
  apply existsb_exists in Hex. destruct Hex as (x & Hx & Heq).
  apply String.eqb_eq in Heq. now subst x.
Qed.

(** X12: line 191 adds the quarter to the primary table only, so in the
    concatenation of line 234 every row of the secondary table has a missing
    quarter, which the exported file shows as an empty field; and as soon as
    the secondary table has a row, the quarters of the primary rows are
    floats there, no longer integers. *)
Theorem secondary_rows_have_no_quarter (s' g : DataFrame) (iq : nat) :
  wf_frame s' ->
  col_index "quarter" (columns s') = Some iq ->
  ~ In "quarter" (columns g) ->
  rows g <> [] ->
  col_index "quarter" (columns (concat s' g)) = Some iq
  /\ (forall k r0, rows s' !! k = Some r0 ->
        exists r, rows (concat s' g) !! k = Some r
          /\ r.1 = r0.1
          /\ cell_at iq r = upcast (cell_at iq r0))
  /\ (forall k r0, rows g !! k = Some r0 ->
        exists r rec,
          rows (concat s' g) !! (List.length (rows s') + k)%nat = Some r
          /\ r.1 = r0.1
          /\ cell_at iq r = NaN
          /\ records (to_csv (concat s' g)) !! (List.length (rows s') + k)%nat = Some rec
          /\ rec !! iq = Some FBlank).
Proof.
  intros Hwf Hiq Hno Hne.
  pose proof (col_index_lt _ _ _ Hiq) as Hlt.
  pose proof (col_index_lookup _ _ _ Hiq) as Hname.
  assert (Hnone : col_index "quarter" (columns g) = None) by now apply col_index_None.
  assert (Hlen : Nat.eqb (List.length (rows g)) 0 = false).
  { destruct (rows g); [congruence | reflexivity]. }
  split; [rewrite concat_columns; now apply col_index_app_l|]. split.
  - intros k r0 Hk.
    assert (Hr0 : List.length r0.2 = List.length (columns s')).
    { unfold wf_frame in Hwf. rewrite Forall_forall in Hwf.
      apply Hwf. eapply list_elem_of_lookup_2, Hk. }
    eexists. split.
    { unfold concat. cbn [rows]. rewrite lookup_app_l.
      - rewrite lookup_map, Hk. reflexivity.
      - rewrite length_map. eapply lookup_lt_Some, Hk. }
    split; [reflexivity|].
    unfold cell_at. cbn [snd]. rewrite !nth_lookup.
    rewrite lookup_app_l by (rewrite length_map, length_zip; lia).
    rewrite lookup_map, lookup_zip_with, Hname. cbn [mbind option_bind].
    destruct (r0.2 !! iq) as [c|] eqn:Hc.
    + cbn. rewrite (has_column_false _ _ Hno), Hlen. reflexivity.
    + apply lookup_ge_None in Hc. lia.
  - intros k r0 Hk.
    assert (Hrow : rows (concat s' g) !! (List.length (rows s') + k)%nat
                   = Some ((fun r : Z * list cell =>
                       (r.1, map (fun c => match col_index c (columns g) with
                                           | Some j => cell_at j r
                                           | None => NaN
                                           end) (columns s')
                             ++ map (fun c => match col_index c (columns g) with
                                              | Some j =>
                                                  (if negb (Nat.eqb (List.length (rows s')) 0)
                                                   then upcast (cell_at j r) else cell_at j r)
                                              | None => NaN
                                              end)
                                    (List.filter (fun c => negb (has_column (columns s') c))
                                                 (columns g)))) r0)).
    { unfold concat. cbn [rows]. rewrite lookup_app_r by (rewrite length_map; lia).
      rewrite length_map.
      replace (List.length (rows s') + k - List.length (rows s'))%nat with k by lia.
      rewrite lookup_map, Hk. reflexivity. }
    assert (Hcell : forall (r : Z * list cell) more,
               (map (fun c => match col_index c (columns g) with
                              | Some j => cell_at j r
                              | None => NaN
                              end) (columns s') ++ more) !! iq = Some NaN).
    { intros r more. rewrite lookup_app_l by (rewrite length_map; lia).
      rewrite lookup_map, Hname. cbn. now rewrite Hnone. }
    eexists. eexists. split; [exact Hrow|]. split; [reflexivity|]. split.
    { unfold cell_at at 1. cbn [snd]. rewrite nth_lookup, Hcell. reflexivity. }
    split.
    { unfold to_csv. cbn [records]. rewrite lookup_map, Hrow. reflexivity. }
    cbn [snd]. rewrite lookup_map, Hcell. reflexivity.
Qed.

Lemma secondary_rows_have_no_quarter_witness :
  col_index "quarter" (columns (concat ex_quartered ex_filtered)) = Some 6%nat
  /\ exists r, rows (concat ex_quartered ex_filtered) !! 2%nat = Some r
       /\ cell_at 6 r = NaN.
Proof.
  destruct (secondary_rows_have_no_quarter ex_quartered ex_filtered 6) as (H1 & _ & H3).
  - repeat constructor.
  - reflexivity.
  - simpl. intuition discriminate.
  - discriminate.
  - split; [exact H1|].
    destruct (H3 0%nat (2, [CDate (mkDate 2025 3 1); CFloat 30%float; CInt 3; CInt 2025;
                            CStr "Saturday"; CBool true]) eq_refl)
      as (r & rec & Hr & _ & Hc & _).
    exists r. split; [exact Hr | exact Hc].
Defined.

(** ** The search only removes rows (lines 235 and 236) *)

Lemma mask_rows_sublist rs mask : sublist (mask_rows rs mask) rs.
Proof.
  revert mask. induction rs as [|r rs IH]; intros [|[i c] mask]; simpl;
    try apply sublist_nil_l.
  destruct c as [| | |[|]|]; try (apply sublist_cons, IH).
  apply sublist_skip, IH.
Qed.

Section SearchRows.
Context `{PyFormat}.

(** X13: whatever the query, a search that does not raise keeps the columns
    of the concatenated table and gives some of its rows, unchanged and in
    their order; the empty query gives the whole table. *)
Theorem search_only_removes_rows (s g D : DataFrame) (q : string) :
  display_df_of s g q = Ok D ->
  columns D = columns (concat s g)
  /\ sublist (rows D) (rows (concat s g))
  /\ (q = "" -> D = concat s g).
Proof.
  unfold display_df_of. intros HD.
  destruct (String.eqb q "") eqn:Eq; simpl in HD.
  - injection HD as <-. split; [reflexivity|]. split; reflexivity.
  - bindR HD. injection HD as <-. split; [reflexivity|].
    split; [apply mask_rows_sublist|]. intros ->. discriminate Eq.
Qed.

End SearchRows.

Lemma search_only_removes_rows_witness :
  exists D,
    @display_df_of ex_format ex_quartered ex_filtered "2025-03-02" = Ok D
    /\ List.length (rows D) = 2%nat
    /\ sublist (rows D) (rows (concat ex_quartered ex_filtered)).
Proof.
  destruct (@display_df_of ex_format ex_quartered ex_filtered "2025-03-02")
    as [D|e] eqn:E; [|vm_compute in E; discriminate].
  exists D. split; [reflexivity|]. split.
  - vm_compute in E. injection E as <-. reflexivity.
  - exact (proj1 (proj2 (@search_only_removes_rows ex_format ex_quartered ex_filtered D
                           "2025-03-02" E))).
Defined.

(** ** The maximum card (line 134) *)

Lemma fold_left_fmax_In xs x : In (fold_left fmax xs x) (x :: xs).
Proof.
  revert x. induction xs as [|y xs IH]; intros x; cbn [fold_left]; [now left|].
  destruct (IH (fmax x y)) as [Hm|Hm].
  - rewrite <- Hm. unfold fmax.
    destruct (PrimFloat.ltb x y); [right; left | left]; reflexivity.
  - right. right. exact Hm.
Qed.

(** X14: the maximum of a column that has a value which is not missing is
    one of these values: it is never NaN, and missing entries never win. *)
Theorem Series_max_is_one_of_the_values (s : Series) (v : list float) :
  values_float s = Ok v -> notna v <> [] ->
  exists m, Series_max s = Ok m /\ In m (notna v) /\ PrimFloat.is_nan m = false.
Proof.
  intros Hv Hne. unfold Series_max. rewrite Hv, bind_ret_l.
  destruct (notna v) as [|x xs] eqn:E; [congruence|].
  exists (fold_left fmax xs x). split; [reflexivity|].
  assert (Hin : In (fold_left fmax xs x) (notna v))
    by (rewrite E; apply fold_left_fmax_In).
  rewrite <- E. split; [exact Hin|].
  unfold notna in Hin. apply filter_In in Hin. destruct Hin as [_ Hn].
  now apply negb_true_iff in Hn.
Qed.

Lemma Series_max_is_one_of_the_values_witness :
  exists m, Series_max [(0, CFloat 3%float); (1, NaN); (2, CFloat 7%float); (3, CInt 5)] = Ok m
            /\ PrimFloat.is_nan m = false.
Proof.
  destruct (Series_max_is_one_of_the_values
              [(0, CFloat 3%float); (1, NaN); (2, CFloat 7%float); (3, CInt 5)]
              [3%float; nan; 7%float; 5%float]
              ltac:(vm_compute; reflexivity) ltac:(vm_compute; discriminate))
    as (m & Hm & _ & Hn).
  exists m. split; [exact Hm | exact Hn].
Defined.


(** ** The cards never raise on numeric data (lines 116 to 140) *)

Lemma lookup_index_In i s c : lookup_index i s = Some c -> In (i, c) s.
Proof.
  induction s as [|[j c'] s IH]; simpl; [discriminate|].
  destruct (Z.eqb_spec i j) as [->|Hne].
  - intros [= ->]. now left.
  - intros Hl. right. now apply IH.
Qed.

Lemma Series_max_total (s : Series) :
  (forall ic, In ic s -> exists f, to_float ic.2 = Ok f) ->
  exists m, Series_max s = Ok m.
Proof.
  intros Hs. destruct (values_float_total s Hs) as [v Hv].
  unfold Series_max. rewrite Hv, bind_ret_l.
  destruct (notna v); eexists; reflexivity.
Qed.

Lemma Series_corr_total (a b : Series) :
  (forall ic, In ic a -> exists f, to_float ic.2 = Ok f) ->
  (forall ic, In ic b -> exists f, to_float ic.2 = Ok f) ->
  exists c, Series_corr a b = Ok c.
Proof.
  intros Ha Hb. unfold Series_corr.
  destruct (List.length (align_inner a b) =? 0)%nat; [eexists; reflexivity|].
  assert (Hp : forall p, p ∈ align_inner a b ->
                 (exists f, to_float p.1 = Ok f) /\ (exists f, to_float p.2 = Ok f)).
  { intros p Hin. unfold align_inner in Hin. apply list_elem_of_omap in Hin.
    destruct Hin as (ic & Hic & Hf).
    destruct (lookup_index ic.1 b) as [c'|] eqn:El; [|discriminate].
    simpl in Hf. injection Hf as <-. split.
    - apply Ha. now apply list_elem_of_In.
    - apply (Hb (ic.1, c')). eapply lookup_index_In, El. }
  destruct (mapR_total (fun p : cell * cell => to_float p.1) (align_inner a b)) as [va Hva].
  { apply Forall_forall. intros p Hin. apply (Hp p Hin). }
  destruct (mapR_total (fun p : cell * cell => to_float p.2) (align_inner a b)) as [vb Hvb].
  { apply Forall_forall. intros p Hin. apply (Hp p Hin). }
  rewrite Hva, bind_ret_l, Hvb, bind_ret_l.
  match goal with |- context [if ?c then _ else _] => destruct c end;
    eexists; reflexivity.
Qed.

Section CardsRender.
Context `{PyFormat}.

(** X15: when both loaded tables have a year column and a ratio column of
    numbers (missing values allowed), the two filters and the four metric
    cards run without an exception for every year selection, and the page
    then holds the four cards under their labels. *)
Theorem cards_render_when_ratio_is_numeric
    (df_s df_g : DataFrame) (Y : list Z) (q : string) (iys irs iyg irg : nat) :
  col_index "year" (columns df_s) = Some iys ->
  col_index "ratio" (columns df_s) = Some irs ->
  col_index "year" (columns df_g) = Some iyg ->
  col_index "ratio" (columns df_g) = Some irg ->
  (forall r, In r (rows df_s) -> exists f, to_float (cell_at irs r) = Ok f) ->
  (forall r, In r (rows df_g) -> exists f, to_float (cell_at irg r) = Ok f) ->
  exists st v1 v2 v3 v4,
    run (take 6 (dashboard Y q)) (loaded df_s df_g) = Ok st
    /\ page st = [Metric "설빙 평균 점수" v1;
                  Metric "기프티콘 평균 점수" v2;
                  Metric "최대 검색 지수" v3;
                  Metric "상관계수 (R)" v4].
Proof.
  intros Hiys Hirs Hiyg Hirg Hns Hng.
  pose proof (filter_years_rows df_s Y _ Hiys) as Hfs.
  pose proof (filter_years_rows df_g Y _ Hiyg) as Hfg.
  set (s := mkDF (columns df_s)
                 (List.filter (fun r => isin_cell Y (cell_at iys r)) (rows df_s))) in *.
  set (g := mkDF (columns df_g)
                 (List.filter (fun r => isin_cell Y (cell_at iyg r)) (rows df_g))) in *.
  set (a := column irs (rows s)). set (b := column irg (rows g)).
  assert (Hgs : getitem s "ratio" = Ok a) by apply (getitem_column s _ _ Hirs).
  assert (Hgg : getitem g "ratio" = Ok b) by apply (getitem_column g _ _ Hirg).
  assert (Ha : forall ic, In ic a -> exists f, to_float ic.2 = Ok f).
  { intros ic Hic. unfold a, column in Hic. apply in_map_iff in Hic.
    destruct Hic as (r & <- & Hr). simpl in Hr. apply filter_In in Hr.
    apply Hns, Hr. }
  assert (Hb : forall ic, In ic b -> exists f, to_float ic.2 = Ok f).
  { intros ic Hic. unfold b, column in Hic. apply in_map_iff in Hic.
    destruct Hic as (r & <- & Hr). simpl in Hr. apply filter_In in Hr.
    apply Hng, Hr. }
  destruct (Series_mean_total a Ha) as [m1 Hm1].
  destruct (Series_mean_total b Hb) as [m2 Hm2].
  destruct (Series_max_total a Ha) as [m3 Hm3].
  destruct (Series_corr_total a b Ha Hb) as [c Hc].
  clearbody s g a b.
  eexists. exists (format_f 2 m1), (format_f 2 m2), (format_f 1 m3), (format_f 3 c).
  split.
  { unfold dashboard, loaded. cbn [take].
    erewrite run_step; cycle 1.
    { apply exec_Assign_ok. cbv beta.
      match goal with |- context [read_var ?st "df_s"] =>
        change (read_var st "df_s") with (Ok df_s) end.
      rewrite bind_ret_l. exact Hfs. }
    cbn [heap vars next page].
    erewrite run_step; cycle 1.
    { apply exec_Assign_ok. cbv beta.
      match goal with |- context [read_var ?st "df_g"] =>
        change (read_var st "df_g") with (Ok df_g) end.
      rewrite bind_ret_l. exact Hfg. }
    cbn [heap vars next page].
    erewrite run_step; cycle 1.
    { apply (exec_metric_ok _ _ _ _ _ s a m1); [reflexivity | exact Hgs | exact Hm1]. }
    cbn [heap vars next page].
    erewrite run_step; cycle 1.
    { apply (exec_metric_ok _ _ _ _ _ g b m2); [reflexivity | exact Hgg | exact Hm2]. }
    cbn [heap vars next page].
    erewrite run_step; cycle 1.
    { apply (exec_metric_ok _ _ _ _ _ s a m3); [reflexivity | exact Hgs | exact Hm3]. }
    cbn [heap vars next page].
    erewrite run_step; cycle 1.
    { apply (exec_Show_ok _ _ (Metric "상관계수 (R)" (format_f 3 c))). cbv beta.
      match goal with |- context [read_var ?st "df_s_filtered"] =>
        change (read_var st "df_s_filtered") with (Ok s) end.
      rewrite bind_ret_l, Hgs, bind_ret_l.
      match goal with |- context [read_var ?st "df_g_filtered"] =>
        change (read_var st "df_g_filtered") with (Ok g) end.
      rewrite bind_ret_l, Hgg, bind_ret_l, Hc, bind_ret_l. reflexivity. }
    cbn [heap vars next page]. reflexivity. }
  reflexivity.
Qed.

End CardsRender.

Lemma cards_render_when_ratio_is_numeric_witness :
  exists st,
    run (take 6 (@dashboard ex_format [2024] "")) (loaded ex_df ex_df) = Ok st
    /\ List.length (page st) = 4%nat.
Proof.
  destruct (@cards_render_when_ratio_is_numeric ex_format ex_df ex_df [2024] "" 3 1 3 1
              ltac:(reflexivity) ltac:(reflexivity) ltac:(reflexivity) ltac:(reflexivity))
    as (st & v1 & v2 & v3 & v4 & Hrun & Hpage).
  - intros r Hr. simpl in Hr.
    repeat (destruct Hr as [<-|Hr]; [eexists; reflexivity|]). destruct Hr.
  - intros r Hr. simpl in Hr.
    repeat (destruct Hr as [<-|Hr]; [eexists; reflexivity|]). destruct Hr.
  - exists st. split; [exact Hrun|]. now rewrite Hpage.
Defined.
